(** * Todo plugin: the command and HTTP boundary of the List Manager

    A shallow embedding of the chat command ([ExecuteCommand] and its
    handlers) and of [server/plugin.go] ([ServeHTTP] and its handlers).
    The handlers are written in a small monad that threads the state of
    the outside world (the List Manager's store, the user directory, the
    preference store) and collects the trace of everything the plugin
    does to it: List Manager operations, chat posts, log lines,
    websocket events, telemetry and HTTP responses. *)

From Stdlib Require Import String Ascii List Bool Arith ZArith Lia.
Import ListNotations.
Open Scope string_scope.

Set Implicit Arguments.

(** ** Strings of the Go runtime *)

(** The newline and the double quote of Go's interpreted string literals. *)
Definition nl : string := String "010"%char EmptyString.
Definition dquote : string := String "034"%char EmptyString.

(** [strings.Join(elems, sep)]. *)
Fixpoint Join (elems : list string) (sep : string) : string :=
  match elems with
  | [] => ""
  | [x] => x
  | x :: rest => x ++ sep ++ Join rest sep
  end.

(** The class [\s] of Go's regexp package: tab, newline, form feed,
    carriage return and space. *)
Definition isRegexpSpace (c : ascii) : bool :=
  let n := nat_of_ascii c in
  (n =? 9)%nat || (n =? 10)%nat || (n =? 12)%nat || (n =? 13)%nat || (n =? 32)%nat.

(** One white-space rune of [unicode.IsSpace] at the front of a UTF-8 byte
    string, and the rest behind it: the six ASCII ones, U+0085, U+00A0,
    U+1680, U+2000..U+200A, U+2028, U+2029, U+202F, U+205F and U+3000. *)
Definition cutSpaceRune (s : string) : option string :=
  match s with
  | EmptyString => None
  | String c1 r1 =>
    let b1 := nat_of_ascii c1 in
    if ((9 <=? b1)%nat && (b1 <=? 13)%nat) || (b1 =? 32)%nat then Some r1 else
    match r1 with
    | EmptyString => None
    | String c2 r2 =>
      let b2 := nat_of_ascii c2 in
      if (b1 =? 194)%nat && ((b2 =? 133)%nat || (b2 =? 160)%nat) then Some r2 else
      match r2 with
      | EmptyString => None
      | String c3 r3 =>
        let b3 := nat_of_ascii c3 in
        if ((b1 =? 225)%nat && (b2 =? 154)%nat && (b3 =? 128)%nat)
           || ((b1 =? 226)%nat && (b2 =? 128)%nat
               && (((128 <=? b3)%nat && (b3 <=? 138)%nat) || (b3 =? 168)%nat || (b3 =? 169)%nat || (b3 =? 175)%nat))
           || ((b1 =? 226)%nat && (b2 =? 129)%nat && (b3 =? 159)%nat)
           || ((b1 =? 227)%nat && (b2 =? 128)%nat && (b3 =? 128)%nat)
        then Some r3 else None
      end
    end
  end.

(** The whole byte string is one white-space rune. *)
Definition isSpaceRune (s : string) : bool :=
  match cutSpaceRune s with
  | Some EmptyString => true
  | _ => false
  end.

(** The same rune at the back of a byte string that is given reversed. *)
Definition cutSpaceRuneRev (s : string) : option string :=
  match s with
  | EmptyString => None
  | String c1 r1 =>
    if isSpaceRune (String c1 EmptyString) then Some r1 else
    match r1 with
    | EmptyString => None
    | String c2 r2 =>
      if isSpaceRune (String c2 (String c1 EmptyString)) then Some r2 else
      match r2 with
      | EmptyString => None
      | String c3 r3 =>
        if isSpaceRune (String c3 (String c2 (String c1 EmptyString)))
        then Some r3 else None
      end
    end
  end.

Fixpoint trimWith (cut : string -> option string) (fuel : nat) (s : string) : string :=
  match fuel with
  | O => s
  | S fuel' => match cut s with
               | Some rest => trimWith cut fuel' rest
               | None => s
               end
  end.

Fixpoint revString (s acc : string) : string :=
  match s with
  | EmptyString => acc
  | String c r => revString r (String c acc)
  end.

(** [strings.TrimSpace(s)]: every leading and trailing white-space rune
    is dropped (a rune takes at least one byte, so the length of the
    string is fuel enough). *)
Definition TrimSpace (s : string) : string :=
  let l := trimWith cutSpaceRune (String.length s) s in
  revString (trimWith cutSpaceRuneRev (String.length l) (revString l "")) "".

(** [regexp.MustCompile(`\s+`).ReplaceAllString(s, repl)]: every maximal
    run of [\s] bytes becomes one [repl]. [inRun] tells that the byte
    before was part of a run already replaced. *)
Fixpoint replaceSpaceRuns (inRun : bool) (s repl : string) : string :=
  match s with
  | EmptyString => EmptyString
  | String c r =>
    if isRegexpSpace c
    then (if inRun then replaceSpaceRuns true r repl
          else repl ++ replaceSpaceRuns true r repl)
    else String c (replaceSpaceRuns false r repl)
  end.

Definition spaceRegExp_ReplaceAllString (s repl : string) : string :=
  replaceSpaceRuns false s repl.

(** [strings.Split(s, " ")]: the pieces between the single spaces, one
    more than there are spaces; never an empty list. *)
Fixpoint splitOnSpace (s cur : string) : list string :=
  match s with
  | EmptyString => [revString cur ""]
  | String c r =>
    if (nat_of_ascii c =? 32)%nat then revString cur "" :: splitOnSpace r ""
    else splitOnSpace r (String c cur)
  end.

Definition Split_space (s : string) : list string := splitOnSpace s "".

(** ** Data of the plugin *)

(** A Go [error] value: the dynamic type behind the interface and the
    text its [Error()] method returns. A nil error is [None]. *)
Record error : Type := mkError { errKind : string; Error : string }.

(** [errors.New] and [fmt.Errorf] build the same kind of error. *)
Definition errors_New (text : string) : error := mkError "*errors.errorString" text.

(** Modelled from the spec: the [Issue] record is declared in a file of
    the repository other than the two embedded here; the fields
    are those of the data model (ID, CreateAt, Message, Description,
    PostID). *)
Record Issue : Type := mkIssue {
  ID : string;
  Message : string;
  Description : string;
  CreateAt : Z;
  PostID : string
}.

(** Modelled from the spec: [ExtendedIssue] embeds an [Issue] and adds
    the display metadata of the counterpart (list, position, user). *)
Record ExtendedIssue : Type := mkExtendedIssue {
  Issue_ : Issue;
  ext_UserID : string;
  ext_List : string;
  ext_Position : Z
}.

(** [&ExtendedIssue{Issue: *newIssue}]: the other fields are zero. *)
Definition ExtendedIssue_of (i : Issue) : ExtendedIssue :=
  mkExtendedIssue i "" "" 0%Z.

(** [model.User], the two fields the plugin reads. *)
Record User : Type := mkUser { Id : string; Username : string }.

(** [model.CommandArgs], the fields the plugin reads. *)
Record CommandArgs : Type := mkCommandArgs {
  UserId : string;
  ChannelId : string;
  Command : string
}.

(** [model.Post] as [postCommandResponse] fills it. *)
Record Post : Type := mkPost {
  post_UserId : string;
  post_ChannelId : string;
  post_Message : string
}.

(** [model.CommandResponse]; the plugin only ever returns the empty one. *)
Inductive CommandResponse : Type := emptyCommandResponse.

(** The two telemetry sources of [trackAddIssue] and [trackSendIssue];
    the constants are declared with the telemetry code, their text is
    not needed here. *)
Inductive Source : Type := sourceCommand | sourceWebapp.

(** ** The trace of a handler *)

(** A call of one method of the [ListManager] interface, with its arguments. *)
Inductive LMCall : Type :=
| CallAddIssue (userID message description postID : string)
| CallSendIssue (senderID receiverID message description postID : string)
| CallGetIssueList (userID listID : string)
| CallCompleteIssue (userID issueID : string)
| CallAcceptIssue (userID issueID : string)
| CallRemoveIssue (userID issueID : string)
| CallPopIssue (userID : string)
| CallBumpIssue (userID issueID : string)
| CallEditIssue (userID issueID newMessage newDescription : string)
| CallChangeAssignment (issueID userID sendTo : string)
| CallGetUserName (userID : string).

(** The body of an HTTP response: the JSON object of
    [handleErrorWithCode], with its two fields, bytes written as they
    are, or the plain text that [http.Error] and [http.NotFound] answer
    with. *)
Inductive Body : Type :=
| ErrorJSON (error_ details : string)
| Bytes (b : string)
| PlainText (text : string).

(** The telemetry calls of the plugin, one constructor per function. *)
Inductive Telemetry : Type :=
| trackCommand (userID command : string)
| trackAddIssue (userID : string) (source : Source) (attached : bool)
| trackSendIssue (userID : string) (source : Source) (attached : bool)
| trackCompleteIssue (userID : string)
| trackRemoveIssue (userID : string)
| trackAcceptIssue (userID : string)
| trackBumpIssue (userID : string)
| trackEditIssue (userID : string)
| trackChangeAssignment (userID : string)
| trackDailySummary (userID : string)
| trackFrontend (userID event : string) (properties : list (string * string)).

(** What a handler does to the outside, in the order it does it. *)
Inductive Event : Type :=
| LM (c : LMCall)
| EvSendEphemeralPost (userId : string) (post : Post)
| EvLogError (msg : string) (keyValuePairs : list string)
| EvLogDebug (msg : string) (keyValuePairs : list string)
| EvPublishWebSocketEvent (event : string) (lists : list string) (userId : string)
| EvTrack (t : Telemetry)
| EvPostBotDM (userID message : string)
| EvPostBotCustomDM (userID message todo issueID : string)
| EvReplyPostBot (postID message todo : string)
| EvSaveReminderPreference (userID : string) (value : bool)
| EvSaveAllowIncomingTaskRequestsPreference (userID : string) (value : bool)
| EvSaveLastReminderTime (userID : string)
| EvHttpError (text : string) (code : nat)
| EvHttpNotFound
| EvWriteHeader (code : nat)
| EvWrite (b : Body).

(** The operation behind a call, by name. *)
Inductive LMOp : Type :=
| OpAddIssue | OpSendIssue | OpGetIssueList | OpCompleteIssue | OpAcceptIssue
| OpRemoveIssue | OpPopIssue | OpBumpIssue | OpEditIssue | OpChangeAssignment
| OpGetUserName.

Definition opOf (c : LMCall) : LMOp :=
  match c with
  | CallAddIssue _ _ _ _ => OpAddIssue
  | CallSendIssue _ _ _ _ _ => OpSendIssue
  | CallGetIssueList _ _ => OpGetIssueList
  | CallCompleteIssue _ _ => OpCompleteIssue
  | CallAcceptIssue _ _ => OpAcceptIssue
  | CallRemoveIssue _ _ => OpRemoveIssue
  | CallPopIssue _ => OpPopIssue
  | CallBumpIssue _ _ => OpBumpIssue
  | CallEditIssue _ _ _ _ => OpEditIssue
  | CallChangeAssignment _ _ _ => OpChangeAssignment
  | CallGetUserName _ => OpGetUserName
  end.

(** The List Manager calls of a trace, in order, and their operations. *)
Fixpoint lmCalls (t : list Event) : list LMCall :=
  match t with
  | [] => []
  | LM c :: t' => c :: lmCalls t'
  | _ :: t' => lmCalls t'
  end.

Definition lmOps (t : list Event) : list LMOp := map opOf (lmCalls t).

(** The two operations of the interface that only read: the list of a
    user and the display name of a user. The other nine change lists. *)
Definition isMutation (o : LMOp) : bool :=
  match o with
  | OpGetIssueList | OpGetUserName => false
  | _ => true
  end.

Definition mutations (t : list Event) : list LMOp := filter isMutation (lmOps t).




Definition isErrorJSON (b : Body) : bool :=
  match b with
  | ErrorJSON _ _ => true
  | Bytes _ => false
  | PlainText _ => false
  end.


(** ** The outside world *)

(** The keys of the three lists; their text is declared with the List
    Manager and taken as a parameter here. *)
Class ListKeys : Type := {
  MyListKey : string;
  InListKey : string;
  OutListKey : string
}.

(** The [ListManager] interface of plugin.go over a world [W] that holds
    its store. A Go result [(v, err)] is [inl v] when [err] is nil and
    [inr err] otherwise: no caller reads the value beside an error. *)
Class ListManager (W : Type) : Type := {
  AddIssue : string -> string -> string -> string -> W -> (Issue + error) * W;
  SendIssue : string -> string -> string -> string -> string -> W -> (string + error) * W;
  GetIssueList : string -> string -> W -> (list ExtendedIssue + error) * W;
  CompleteIssue : string -> string -> W -> (Issue * string * string + error) * W;
  AcceptIssue : string -> string -> W -> (string * string + error) * W;
  RemoveIssue : string -> string -> W -> (Issue * string * bool * string + error) * W;
  PopIssue : string -> W -> (Issue * string + error) * W;
  BumpIssue : string -> string -> W -> (string * string * string + error) * W;
  EditIssue : string -> string -> string -> string -> W -> (string * string * string + error) * W;
  ChangeAssignment : string -> string -> string -> W -> (string * string + error) * W;
  GetUserName : string -> W -> string * W
}.

(** What [json.NewDecoder(r.Body).Decode(&req)] leaves in the pointer
    [req]: an error, nil (the body was the JSON [null]), or a request. *)
Inductive Decoded (A : Type) : Type :=
| DecodeError (err : error)
| DecodedNil
| DecodedTo (a : A).
Arguments DecodeError {A} err.
Arguments DecodedNil {A}.
Arguments DecodedTo {A} a.

Record telemetryAPIRequest : Type := {
  telemetry_Event : string;
  telemetry_Properties : list (string * string)
}.

Record addAPIRequest : Type := {
  add_Message : string;
  add_Description : string;
  add_SendTo : string;
  add_PostID : string
}.

Record editAPIRequest : Type := {
  edit_ID : string;
  edit_Message : string;
  edit_Description : string
}.

Record changeAssignmentAPIRequest : Type := {
  change_ID : string;
  change_SendTo : string
}.

(** [acceptAPIRequest], [completeAPIRequest], [removeAPIRequest] and
    [bumpAPIRequest] all have the one field [ID]. *)
Record idAPIRequest : Type := { req_ID : string }.

(** The rest of the outside: the server API, the helpers of the plugin
    that the two files only call (preferences, reminder time, bot
    posts, the rendering of a list), the JSON codec, the clock with
    the calendar test of the daily reminder, and the error, if any, of
    [w.Write] on the response of the request. *)
Class Host (W : Type) : Type := {
  GetUserByUsername : string -> W -> User + error;
  getAllowIncomingTaskRequestsPreference : string -> W -> bool * option error;
  getReminderPreference : string -> W -> bool;
  saveReminderPreference : string -> bool -> W -> option error * W;
  saveAllowIncomingTaskRequestsPreference : string -> bool -> W -> option error * W;
  getLastReminderTimeForUser : string -> W -> Z + error;
  saveLastReminderTimeForUser : string -> W -> option error * W;
  ReplyPostBot : string -> string -> string -> W -> option error;
  issuesListToString : list ExtendedIssue -> string;
  reminderIsDue : W -> Z -> string -> bool;
  decodeTelemetry : string -> Decoded telemetryAPIRequest;
  decodeAdd : string -> Decoded addAPIRequest;
  decodeEdit : string -> Decoded editAPIRequest;
  decodeChangeAssignment : string -> Decoded changeAssignmentAPIRequest;
  decodeID : string -> Decoded idAPIRequest;
  marshalIssues : list ExtendedIssue -> string + error;
  marshalConfig : bool -> string + error;
  ResponseWriter_Write : string -> W -> option error
}.

(** ** The monad of the handlers *)

(** A Go function either returns or panics at run time. *)
Inductive Result (A : Type) : Type :=
| Ok (a : A)
| Panic (msg : string).
Arguments Ok {A} a.
Arguments Panic {A} msg.

Section Monad.
Variable W : Type.

(** From a world to a result, the world after, and the events emitted. *)
Definition M (A : Type) : Type := W -> Result A * W * list Event.

Definition ret {A : Type} (a : A) : M A := fun w => (Ok a, w, []).

Definition bind {A B : Type} (m : M A) (f : A -> M B) : M B :=
  fun w =>
    match m w with
    | (Ok a, w1, t1) =>
      match f a w1 with
      | (r, w2, t2) => (r, w2, (t1 ++ t2)%list)
      end
    | (Panic msg, w1, t1) => (Panic msg, w1, t1)
    end.

Definition emit (e : Event) : M unit := fun w => (Ok tt, w, [e]).

Definition panic {A : Type} (msg : string) : M A := fun w => (Panic msg, w, []).

(** A read of the world, and a call that may change it. *)
Definition ask {A : Type} (f : W -> A) : M A := fun w => (Ok (f w), w, []).

Definition call {A : Type} (f : W -> A * W) : M A :=
  fun w => let (a, w') := f w in (Ok a, w', []).
End Monad.

Arguments ret {W A} a.
Arguments bind {W A B} m f.
Arguments emit {W} e.
Arguments panic {W A} msg.
Arguments ask {W A} f.
Arguments call {W A} f.

Declare Scope go_scope.
Delimit Scope go_scope with go.
Notation "x <- m ;; k" := (bind m (fun x => k))
  (at level 61, m at next level, right associativity) : go_scope.
Notation "m ;; k" := (bind m (fun _ => k))
  (at level 61, right associativity) : go_scope.
Open Scope go_scope.

(** The trace and the result of a run. *)
Definition traceOf {W A : Type} (r : Result A * W * list Event) : list Event := snd r.
Definition worldOf {W A : Type} (r : Result A * W * list Event) : W := snd (fst r).
Definition resultOf {W A : Type} (r : Result A * W * list Event) : Result A := fst (fst r).

(** ** The chat command *)

Definition listHeaderMessage : string := " Todo List:" ++ nl ++ nl.
Definition MyFlag : string := "my".
Definition InFlag : string := "in".
Definition OutFlag : string := "out".

Definition getHelp : string := "지원되는 명령어:

add [메시지]
	Todo를 추가합니다.

	예: /todo add 회의록 작성 및 배포

list
	내 Todo 목록을 봅니다.

list [listName]
	특정 목록을 조회합니다

	예: /todo list in
	예: /todo list out
	예: /todo list my (/todo list와 동일)

pop
	Todo 목록의 맨 상단 항목을 제거합니다.

send [user] [message]
	[user]에게 Todo를 보냅니다.

	예: /todo send @someone 캘린더에 회의 공지해주세요 

settings summary [on, off]
	일일 리마인더에 대한 사용자 설정을 지정합니다

	예: /todo settings summary on

settings allow_incoming_task_requests [on, off]
	다른 사용자의 Todo Task 보내기 수락 여부를 설정합니다

	예: /todo settings allow_incoming_task_requests on


help
	사용법을 보여줍니다.
".

Definition getSummarySetting (flag : bool) : string :=
  if flag
  then "리마인더를 `on`으로 설정했습니다. **일일 리마인더를 수신하게 됩니다.**"
  else "리마인더를 `off`로 설정했습니다. **일일 리마인더를 수신하지 않습니다.**".

Definition getAllowIncomingTaskRequestsSetting (flag : bool) : string :=
  if flag
  then "들어오는 Task 요청 허용을 `on`으로 설정했습니다. **다른 사용자가 Task 요청을 보낼 수 있습니다. 받은 요청을 수락/거부 할 수 있습니다.**"
  else "들어오는 Task 요청 허용을 `off`로 설정했습니다. **다른 사용자가 Task 요청을 보낼 수 없습니다. 다른 사용자에게는 내가 Task 요청을 접수 거부했다는 메시지를 받게됩니다**".

Definition getAllSettings (summaryFlag blockIncomingFlag : bool) : string :=
  "현재 설정:" ++ nl ++ nl ++ getSummarySetting summaryFlag ++ nl
    ++ getAllowIncomingTaskRequestsSetting blockIncomingFlag ++ nl
    ++ String "009"%char EmptyString.

(** The two replies of [ExecuteCommand] to a handler's error. *)
Definition userErrorReply (text : string) : string :=
  "__Error: " ++ text ++ ".__" ++ nl ++ nl ++ "사용법을 보려면 `/todo help`를 실행하세요.".

Definition internalErrorReply : string :=
  "알 수 없는 오류가 발생했습니다. 시스템 관리자에게 도움을 요청하세요.".

Definition WSEventRefresh : string := "refresh".

(** The client part of the plugin configuration. *)
Record Configuration : Type := { HideTeamSidebar : bool }.

(** [http.Request]: the path and the method, the header and query
    lookups (the empty string for a name that is absent) and the body. *)
Record Request : Type := mkRequest {
  URL_Path : string;
  Method : string;
  Header_Get : string -> string;
  Query_Get : string -> string;
  Body_ : string
}.

(** The fields of [Plugin] the handlers read; [configuration] is a
    pointer that may be nil. *)
Record Plugin : Type := mkPlugin {
  BotUserID : string;
  configuration : option Configuration
}.

Section Plugin.
Context {W : Type} {keys : ListKeys} {listManager : ListManager W} {host : Host W}.

(** The receiver of every method. *)
Variable p : Plugin.

(** *** Calls on the List Manager: each one is recorded in the trace. *)

Definition listManager_AddIssue (userID message description postID : string) :=
  emit (W:=W) (LM (CallAddIssue userID message description postID)) ;;
  call (AddIssue userID message description postID).

Definition listManager_SendIssue (senderID receiverID message description postID : string) :=
  emit (W:=W) (LM (CallSendIssue senderID receiverID message description postID)) ;;
  call (SendIssue senderID receiverID message description postID).

Definition listManager_GetIssueList (userID listID : string) :=
  emit (W:=W) (LM (CallGetIssueList userID listID)) ;;
  call (GetIssueList userID listID).

Definition listManager_CompleteIssue (userID issueID : string) :=
  emit (W:=W) (LM (CallCompleteIssue userID issueID)) ;;
  call (CompleteIssue userID issueID).

Definition listManager_AcceptIssue (userID issueID : string) :=
  emit (W:=W) (LM (CallAcceptIssue userID issueID)) ;;
  call (AcceptIssue userID issueID).

Definition listManager_RemoveIssue (userID issueID : string) :=
  emit (W:=W) (LM (CallRemoveIssue userID issueID)) ;;
  call (RemoveIssue userID issueID).

Definition listManager_PopIssue (userID : string) :=
  emit (W:=W) (LM (CallPopIssue userID)) ;;
  call (PopIssue userID).

Definition listManager_BumpIssue (userID issueID : string) :=
  emit (W:=W) (LM (CallBumpIssue userID issueID)) ;;
  call (BumpIssue userID issueID).

Definition listManager_EditIssue (userID issueID newMessage newDescription : string) :=
  emit (W:=W) (LM (CallEditIssue userID issueID newMessage newDescription)) ;;
  call (EditIssue userID issueID newMessage newDescription).

Definition listManager_ChangeAssignment (issueID userID sendTo : string) :=
  emit (W:=W) (LM (CallChangeAssignment issueID userID sendTo)) ;;
  call (ChangeAssignment issueID userID sendTo).

Definition listManager_GetUserName (userID : string) :=
  emit (W:=W) (LM (CallGetUserName userID)) ;;
  call (GetUserName userID).

(** *** The server API and the helpers of the plugin *)

Definition API_LogError (msg : string) (kv : list string) : M W unit :=
  emit (EvLogError msg kv).

Definition API_LogDebug (msg : string) (kv : list string) : M W unit :=
  emit (EvLogDebug msg kv).

Definition track (t : Telemetry) : M W unit := emit (EvTrack t).

Definition PostBotDM (userID message : string) : M W unit :=
  emit (EvPostBotDM userID message).

Definition PostBotCustomDM (userID message todo issueID : string) : M W unit :=
  emit (EvPostBotCustomDM userID message todo issueID).

Definition p_saveReminderPreference (userID : string) (v : bool) : M W (option error) :=
  emit (EvSaveReminderPreference userID v) ;;
  call (saveReminderPreference userID v).

Definition p_saveAllowIncomingTaskRequestsPreference (userID : string) (v : bool)
  : M W (option error) :=
  emit (EvSaveAllowIncomingTaskRequestsPreference userID v) ;;
  call (saveAllowIncomingTaskRequestsPreference userID v).

Definition p_saveLastReminderTimeForUser (userID : string) : M W (option error) :=
  emit (EvSaveLastReminderTime userID) ;;
  call (saveLastReminderTimeForUser userID).

(** The ephemeral post of the bot to the user of a command. *)
Definition replyTo (args : CommandArgs) (text : string) : Event :=
  EvSendEphemeralPost (UserId args) (mkPost (BotUserID p) (ChannelId args) text).

Definition postCommandResponse (args : CommandArgs) (text : string) : M W unit :=
  emit (replyTo args text).

Definition sendRefreshEvent (userID : string) (lists : list string) : M W unit :=
  emit (EvPublishWebSocketEvent WSEventRefresh lists userID).

Definition postReplyIfNeeded (postID message todo : string) : M W unit :=
  if postID =? "" then ret tt
  else
    emit (EvReplyPostBot postID message todo) ;;
    err <- ask (ReplyPostBot postID message todo) ;;
    match err with
    | Some e => API_LogError (Error e) []
    | None => ret tt
    end.

(** The reading of the receiver's preference in [runSendCommand],
    [runSettingsCommand] and [handleAdd]: a failed read is logged and
    counts as [true]. *)
Definition allowIncomingOrTrue (logMsg : string) (userID : string) : M W bool :=
  r <- ask (getAllowIncomingTaskRequestsPreference userID) ;;
  match snd r with
  | Some err => API_LogError logMsg [Error err] ;; ret true
  | None => ret (fst r)
  end.

(** The log line of a failed read in the two command handlers. *)
Definition preferenceReadFailed : string :=
  "들어오는 Task 요청 허용에 대한 설정 확인 시 오류가 발생했습니다, err=".

(** *** The handlers of the chat command *)

Definition Handler : Type := list string -> CommandArgs -> M W (bool * option error).

Definition runAddCommand : Handler := fun args extra =>
  let message := Join args " " in
  if message =? "" then
    postCommandResponse extra "Task를 추가하세요." ;;
    ret (false, None)
  else
    added <- listManager_AddIssue (UserId extra) message "" "" ;;
    match added with
    | inr err => ret (false, Some err)
    | inl newIssue =>
      track (trackAddIssue (UserId extra) sourceCommand false) ;;
      sendRefreshEvent (UserId extra) [MyListKey] ;;
      let responseMessage := "Todo가 추가되었습니다." in
      listed <- listManager_GetIssueList (UserId extra) MyListKey ;;
      match listed with
      | inr err =>
        API_LogError (Error err) [] ;;
        postCommandResponse extra responseMessage ;;
        ret (false, None)
      | inl issues =>
        let issueIncluded :=
          existsb (fun issue => ID newIssue =? ID (Issue_ issue)) issues in
        let issues :=
          if issueIncluded then issues
          else (issues ++ [ExtendedIssue_of newIssue])%list in
        let responseMessage :=
          responseMessage ++ listHeaderMessage ++ issuesListToString issues in
        postCommandResponse extra responseMessage ;;
        ret (false, None)
      end
    end.

Definition runSendCommand : Handler := fun args extra =>
  if (length args <? 2)%nat then
    postCommandResponse extra
      ("반드시 유효한 사용자와 메시지를 지정해야합니다." ++ nl ++ getHelp) ;;
    ret (false, None)
  else
    match hd "" args with
    | EmptyString => panic "index out of range"
    | String c rest0 =>
      let userName := if Ascii.eqb c "@"%char then rest0 else hd "" args in
      found <- ask (GetUserByUsername userName) ;;
      match found with
      | inr appErr =>
        postCommandResponse extra ("유효한 사용자를 지정하세요." ++ nl ++ getHelp) ;;
        ret (false, None)
      | inl receiver =>
        if Id receiver =? UserId extra then runAddCommand (tl args) extra
        else
          allowed <- allowIncomingOrTrue preferenceReadFailed (Id receiver) ;;
          if negb allowed then
            postCommandResponse extra
              ("@" ++ userName ++ "은(는) Todo 요청을 차단 중입니다") ;;
            ret (false, None)
          else
            let message := Join (tl args) " " in
            sent <- listManager_SendIssue (UserId extra) (Id receiver) message "" "" ;;
            match sent with
            | inr err => ret (false, Some err)
            | inl receiverIssueID =>
              track (trackSendIssue (UserId extra) sourceCommand false) ;;
              sendRefreshEvent (UserId extra) [OutListKey] ;;
              sendRefreshEvent (Id receiver) [InListKey] ;;
              let responseMessage := "@" ++ userName ++ "에게 Todo를 보냈습니다." in
              senderName <- listManager_GetUserName (UserId extra) ;;
              let receiverMessage :=
                "@" ++ senderName ++ "(으)로부터 새 Todo 요청을 받았습니다" in
              PostBotCustomDM (Id receiver) receiverMessage message receiverIssueID ;;
              postCommandResponse extra responseMessage ;;
              ret (false, None)
            end
      end
    end.

Definition runListCommand : Handler := fun args extra =>
  let chosen :=
    match args with
    | [] => Some (MyListKey, "Todo 목록:" ++ nl ++ nl)
    | flag :: _ =>
      if flag =? MyFlag then Some (MyListKey, "Todo 목록:" ++ nl ++ nl)
      else if flag =? InFlag then Some (InListKey, "받은 Todo 목록:" ++ nl ++ nl)
      else if flag =? OutFlag then Some (OutListKey, "보낸 Todo 목록:" ++ nl ++ nl)
      else None
    end in
  match chosen with
  | None =>
    postCommandResponse extra getHelp ;;
    ret (true, None)
  | Some (listID, responseMessage) =>
    listed <- listManager_GetIssueList (UserId extra) listID ;;
    match listed with
    | inr err => ret (false, Some err)
    | inl issues =>
      sendRefreshEvent (UserId extra) [MyListKey; OutListKey; InListKey] ;;
      postCommandResponse extra (responseMessage ++ issuesListToString issues) ;;
      ret (false, None)
    end
  end.

Definition cannotFindIssue : string := "cannot find issue".

Definition runPopCommand : Handler := fun args extra =>
  popped <- listManager_PopIssue (UserId extra) ;;
  match popped with
  | inr err =>
    if Error err =? cannotFindIssue then
      postCommandResponse extra "제거할 Todo가 없습니다." ;;
      ret (false, None)
    else ret (false, Some err)
  | inl (issue, foreignID) =>
    userName <- listManager_GetUserName (UserId extra) ;;
    (if negb (foreignID =? "") then
       sendRefreshEvent foreignID [OutListKey] ;;
       PostBotDM foreignID
         ("@" ++ userName ++ "이(가) 내가 보낸 Todo를 삭제했습니다: " ++ Message issue)
     else ret tt) ;;
    sendRefreshEvent (UserId extra) [MyListKey] ;;
    let responseMessage := "맨 위에 있는 Todo 항목을 제거했습니다." in
    let replyMessage :=
      "@" ++ userName ++ "이(가) 이 스레드에 첨부된 Todo 맨 위 항목을 제거했습니다" in
    postReplyIfNeeded (PostID issue) replyMessage (Message issue) ;;
    listed <- listManager_GetIssueList (UserId extra) MyListKey ;;
    match listed with
    | inr err =>
      API_LogError (Error err) [] ;;
      postCommandResponse extra responseMessage ;;
      ret (false, None)
    | inl issues =>
      postCommandResponse extra
        (responseMessage ++ listHeaderMessage ++ issuesListToString issues) ;;
      ret (false, None)
    end
  end.

Definition tooManyArguments : string := "너무 많은 인수들입니다".

Definition runSettingsCommand : Handler := fun args extra =>
  let on := "on" in
  let off := "off" in
  match args with
  | [] =>
    currentSummarySetting <- ask (getReminderPreference (UserId extra)) ;;
    currentAllowIncomingTaskRequestsSetting <-
      allowIncomingOrTrue preferenceReadFailed (UserId extra) ;;
    postCommandResponse extra
      (getAllSettings currentSummarySetting currentAllowIncomingTaskRequestsSetting) ;;
    ret (false, None)
  | setting :: values =>
    if setting =? "summary" then
      match values with
      | [] =>
        currentSummarySetting <- ask (getReminderPreference (UserId extra)) ;;
        postCommandResponse extra (getSummarySetting currentSummarySetting) ;;
        ret (false, None)
      | value :: more =>
        if (2 <? length args)%nat then ret (true, Some (errors_New tooManyArguments))
        else if value =? on then
          err <- p_saveReminderPreference (UserId extra) true ;;
          match err with
          | Some e =>
            API_LogDebug "runSettingsCommand: 리마인더 설정 저장 오류입니다" ["error"; Error e] ;;
            ret (false, Some (errors_New "리마인더 설정 저장 오류입니다"))
          | None =>
            postCommandResponse extra "이제부터 일일 요약을 수신합니다." ;;
            ret (false, None)
          end
        else if value =? off then
          err <- p_saveReminderPreference (UserId extra) false ;;
          match err with
          | Some e =>
            API_LogDebug "runSettingsCommand: 리마인더 설정 저장 오류입니다" ["error"; Error e] ;;
            ret (false, Some (errors_New "리마인더 설정 저장 오류입니다"))
          | None =>
            postCommandResponse extra "이제부터 일일 요약을 수신하지 않습니다." ;;
            ret (false, None)
          end
        else
          ret (true, Some (errors_New
            ("유효하지 않은 입력 값입니다. " ++ dquote ++ "settings summary" ++ dquote
             ++ "에 허용되는 값은 `on` 또는 `off`입니다")))
      end
    else if setting =? "allow_incoming_task_requests" then
      match values with
      | [] =>
        current <- allowIncomingOrTrue
          "들어오는 Task 요청 승인에 대한 설정을 읽을 수 없습니다, err=" (UserId extra) ;;
        postCommandResponse extra (getAllowIncomingTaskRequestsSetting current) ;;
        ret (false, None)
      | value :: more =>
        if (2 <? length args)%nat then ret (true, Some (errors_New tooManyArguments))
        else if value =? on then
          err <- p_saveAllowIncomingTaskRequestsPreference (UserId extra) true ;;
          match err with
          | Some e =>
            API_LogDebug "runSettingsCommand: block_incoming 설정 저장 오류" ["error"; Error e] ;;
            ret (false, Some (errors_New "block_incoming 설정 저장 오류"))
          | None =>
            postCommandResponse extra
              "다른 사용자들이 Task 요청을 보낼 수 있습니다. 받은 요청은 수락/거부할 수 있습니다" ;;
            ret (false, None)
          end
        else if value =? off then
          err <- p_saveAllowIncomingTaskRequestsPreference (UserId extra) false ;;
          match err with
          | Some e =>
            API_LogDebug "runSettingsCommand: block_incoming 설정 저장 오류" ["error"; Error e] ;;
            ret (false, Some (errors_New "block_incoming 설정 저장 오류"))
          | None =>
            postCommandResponse extra
              "다른 사용자들이 Task 요청을 보낼 수 없습니다. 요청을 보낸 사용자는 내가 Task 요청을 접수 거부했다는 메시지를 받게됩니다." ;;
            ret (false, None)
          end
        else
          ret (true, Some (errors_New
            ("유효하지 않은 입력, " ++ dquote ++ "settings allow_incoming_task_requests"
             ++ dquote ++ "에 허용되는 값은 `on` 또는 `off`입니다.")))
      end
    else ret (true, Some (errors_New ("setting `" ++ setting ++ "` 식별되지 않습니다")))
  end.

(** The [switch command] of [ExecuteCommand]. *)
Definition commandHandler (command : string) : option Handler :=
  if command =? "add" then Some runAddCommand
  else if command =? "list" then Some runListCommand
  else if command =? "pop" then Some runPopCommand
  else if command =? "send" then Some runSendCommand
  else if command =? "settings" then Some runSettingsCommand
  else None.

(** The words of the command line. *)
Definition commandFields (command : string) : list string :=
  let trimmedArgs := spaceRegExp_ReplaceAllString (TrimSpace command) " " in
  Split_space trimmedArgs.

(** The first half of [ExecuteCommand]: the handler and the arguments
    it will get, or nothing after the help has been posted. *)
Definition selectHandler (args : CommandArgs) : M W (option (Handler * list string)) :=
  let stringArgs := commandFields (Command args) in
  let lengthOfArgs := length stringArgs in
  if (lengthOfArgs =? 1)%nat then
    track (trackCommand (UserId args) "") ;;
    ret (Some (runListCommand, []))
  else
    match nth_error stringArgs 1 with
    | None => panic "index out of range"
    | Some command =>
      let restOfArgs := if (2 <? lengthOfArgs)%nat then skipn 2 stringArgs else [] in
      match commandHandler command with
      | Some handler =>
        track (trackCommand (UserId args) command) ;;
        ret (Some (handler, restOfArgs))
      | None =>
        (if command =? "help" then track (trackCommand (UserId args) command)
         else track (trackCommand (UserId args) "not found")) ;;
        postCommandResponse args getHelp ;;
        ret None
      end
    end.

(** The second half: what is told about the error of a handler. *)
Definition reportError (args : CommandArgs) (isUserError : bool) (err : option error)
  : M W unit :=
  match err with
  | Some e =>
    if isUserError then postCommandResponse args (userErrorReply (Error e))
    else
      API_LogError (Error e) [] ;;
      postCommandResponse args internalErrorReply
  | None => ret tt
  end.

Definition ExecuteCommand (args : CommandArgs) : M W (CommandResponse * option error) :=
  selected <- selectHandler args ;;
  match selected with
  | None => ret (emptyCommandResponse, None)
  | Some (handler, restOfArgs) =>
    r <- handler restOfArgs args ;;
    reportError args (fst r) (snd r) ;;
    ret (emptyCommandResponse, None)
  end.

(** *** plugin.go: the HTTP handlers *)

Definition StatusBadRequest : nat := 400.
Definition StatusUnauthorized : nat := 401.
Definition StatusNotFound : nat := 404.
Definition StatusMethodNotAllowed : nat := 405.
Definition StatusInternalServerError : nat := 500.

Definition http_Error (text : string) (code : nat) : M W unit :=
  emit (EvHttpError text code).

(** The run of a handler that refuses a request: the world is as it
    was and the only event is the answer 401. *)
Definition notAuthorized (w : W) : Result unit * W * list Event :=
  (Ok tt, w, [EvHttpError "Not authorized" StatusUnauthorized]).

Definition handleErrorWithCode (code : nat) (errTitle : string) (err : error) : M W unit :=
  emit (EvWriteHeader code) ;;
  emit (EvWrite (ErrorJSON errTitle (Error err))).

(** [w.Write(b)] of bytes that are ready: the write, and its error. *)
Definition w_Write (b : string) : M W (option error) :=
  emit (EvWrite (Bytes b)) ;;
  ask (ResponseWriter_Write b).

(** What every handler does after its List Manager operation has
    failed: the log line, the status 500 and the JSON error object with
    its title and the text of the error as details. *)
Definition operationFailed (logged title : string) (err : error) : list Event :=
  [EvLogError (logged ++ Error err) [];
   EvWriteHeader StatusInternalServerError;
   EvWrite (ErrorJSON title (Error err))].

Definition nilDereference : string := "invalid memory address or nil pointer dereference".

(** The failed decoding of a request body, the same in every handler. *)
Definition decodeFailed (err : error) : M W unit :=
  API_LogError ("Unable to decode JSON err=" ++ Error err) [] ;;
  handleErrorWithCode StatusBadRequest "Unable to decode JSON" err.

Definition userIDHeader : string := "Mattermost-User-ID".

Definition handleTelemetry (r : Request) : M W unit :=
  let userID := Header_Get r userIDHeader in
  if userID =? "" then http_Error "Not authorized" StatusUnauthorized
  else
    match decodeTelemetry (Body_ r) with
    | DecodeError err => decodeFailed err
    | DecodedNil => panic nilDereference
    | DecodedTo telemetryRequest =>
      if negb (telemetry_Event telemetryRequest =? "") then
        track (trackFrontend userID (telemetry_Event telemetryRequest)
                 (telemetry_Properties telemetryRequest))
      else ret tt
    end.

(** The two places of [handleAdd] that add to the caller's own list;
    they differ in the final stop of the reply. *)
Definition addOwnIssue (userID senderName : string) (addRequest : addAPIRequest)
  (stop : string) : M W unit :=
  added <- listManager_AddIssue userID (add_Message addRequest)
             (add_Description addRequest) (add_PostID addRequest) ;;
  match added with
  | inr err =>
    API_LogError ("Unable to add issue err=" ++ Error err) [] ;;
    handleErrorWithCode StatusInternalServerError "Unable to add issue" err
  | inl _ =>
    track (trackAddIssue userID sourceWebapp (negb (add_PostID addRequest =? ""))) ;;
    sendRefreshEvent userID [MyListKey] ;;
    let replyMessage := "@" ++ senderName ++ "이(가) 이 스레드에 Todo를 생성했습니다" ++ stop in
    postReplyIfNeeded (add_PostID addRequest) replyMessage (add_Message addRequest)
  end.

Definition handleAdd (r : Request) : M W unit :=
  let userID := Header_Get r userIDHeader in
  if userID =? "" then http_Error "Not authorized" StatusUnauthorized
  else
    match decodeAdd (Body_ r) with
    | DecodeError err => decodeFailed err
    | DecodedNil =>
      senderName <- listManager_GetUserName userID ;;
      panic nilDereference
    | DecodedTo addRequest =>
      senderName <- listManager_GetUserName userID ;;
      if add_SendTo addRequest =? "" then addOwnIssue userID senderName addRequest ""
      else
        found <- ask (GetUserByUsername (add_SendTo addRequest)) ;;
        match found with
        | inr appErr =>
          API_LogError ("username not valid, err=" ++ Error appErr) [] ;;
          handleErrorWithCode StatusInternalServerError "Unable to find user" appErr
        | inl receiver =>
          if Id receiver =? userID then addOwnIssue userID senderName addRequest "."
          else
            allowed <- allowIncomingOrTrue
              "Error when getting allow incoming task request preference, err="
              (Id receiver) ;;
            if negb allowed then
              PostBotDM userID ("@" ++ Username receiver ++ "은(는) Todo 요청을 차단했습니다.")
            else
              sent <- listManager_SendIssue userID (Id receiver) (add_Message addRequest)
                        (add_Description addRequest) (add_PostID addRequest) ;;
              match sent with
              | inr err =>
                API_LogError ("Unable to send issue err=" ++ Error err) [] ;;
                handleErrorWithCode StatusInternalServerError "Unable to send issue" err
              | inl issueID =>
                track (trackSendIssue userID sourceWebapp
                         (negb (add_PostID addRequest =? ""))) ;;
                sendRefreshEvent userID [OutListKey] ;;
                sendRefreshEvent (Id receiver) [InListKey] ;;
                PostBotCustomDM (Id receiver)
                  ("@" ++ senderName ++ "(으)로부터 새 Todo 항목을 받았습니다.")
                  (add_Message addRequest) issueID ;;
                postReplyIfNeeded (add_PostID addRequest)
                  ("@" ++ senderName ++ "이(가) @" ++ add_SendTo addRequest
                     ++ "에게 이 스레드에서 대한 Todo를 보냈습니다")
                  (add_Message addRequest)
              end
        end
    end.

(** The list a query value names in [handleList]. *)
Definition listOfQuery (listInput : string) : string :=
  if listInput =? OutFlag then OutListKey
  else if listInput =? InFlag then InListKey
  else MyListKey.

Definition handleList (r : Request) : M W unit :=
  let userID := Header_Get r userIDHeader in
  if userID =? "" then http_Error "Not authorized" StatusUnauthorized
  else
    let listInput := Query_Get r "list" in
    let listID := listOfQuery listInput in
    listed <- listManager_GetIssueList userID listID ;;
    match listed with
    | inr err =>
      API_LogError ("Unable to get issues for user err=" ++ Error err) [] ;;
      handleErrorWithCode StatusInternalServerError "Unable to get issues for user" err
    | inl issues =>
      wanted <- ask (fun w => (0 <? length issues)%nat
                              && (Query_Get r "reminder" =? "true")
                              && getReminderPreference userID w) ;;
      goOn <-
        (if wanted : bool then
           last <- ask (getLastReminderTimeForUser userID) ;;
           match last with
           | inr err =>
             API_LogError ("Unable to send reminder err=" ++ Error err) [] ;;
             handleErrorWithCode StatusInternalServerError "Unable to send reminder" err ;;
             ret false
           | inl lastReminderAt =>
             due <- ask (fun w => reminderIsDue w lastReminderAt
                                    (Header_Get r "X-Timezone-Offset")) ;;
             (if due : bool then
                PostBotDM userID ("일일 리마인더:" ++ nl ++ nl ++ issuesListToString issues) ;;
                track (trackDailySummary userID) ;;
                err <- p_saveLastReminderTimeForUser userID ;;
                match err with
                | Some e =>
                  API_LogError ("Unable to save last reminder for user err=" ++ Error e) []
                | None => ret tt
                end
              else ret tt) ;;
             ret true
           end
         else ret true) ;;
      if goOn : bool then
        match marshalIssues issues with
        | inr err =>
          API_LogError ("Unable marhsal issues list to json err=" ++ Error err) [] ;;
          handleErrorWithCode StatusInternalServerError
            "Unable marhsal issues list to json" err
        | inl issuesJSON =>
          err <- w_Write issuesJSON ;;
          match err with
          | Some e => API_LogError ("Unable to write json response err=" ++ Error e) []
          | None => ret tt
          end
        end
      else ret tt
    end.

Definition handleEdit (r : Request) : M W unit :=
  let userID := Header_Get r userIDHeader in
  if userID =? "" then http_Error "Not authorized" StatusUnauthorized
  else
    match decodeEdit (Body_ r) with
    | DecodeError err => decodeFailed err
    | DecodedNil => panic nilDereference
    | DecodedTo editRequest =>
      edited <- listManager_EditIssue userID (edit_ID editRequest)
                  (edit_Message editRequest) (edit_Description editRequest) ;;
      match edited with
      | inr err =>
        API_LogError ("Unable to edit message: err=" ++ Error err) [] ;;
        handleErrorWithCode StatusInternalServerError "Unable to edit issue" err
      | inl (foreignUserID, list, oldMessage) =>
        track (trackEditIssue userID) ;;
        sendRefreshEvent userID [list] ;;
        if negb (foreignUserID =? "") then
          let lists := if list =? OutListKey then [MyListKey; InListKey]
                       else [OutListKey] in
          sendRefreshEvent foreignUserID lists ;;
          userName <- listManager_GetUserName userID ;;
          PostBotDM foreignUserID
            ("@" ++ userName ++ "이(가) Todo를 수정했습니다." ++ nl ++ "수정 전:" ++ nl
               ++ oldMessage ++ nl ++ "수정 후:" ++ nl ++ edit_Message editRequest)
        else ret tt
      end
    end.

Definition handleChangeAssignment (r : Request) : M W unit :=
  let userID := Header_Get r userIDHeader in
  if userID =? "" then http_Error "Not authorized" StatusUnauthorized
  else
    match decodeChangeAssignment (Body_ r) with
    | DecodeError err => decodeFailed err
    | DecodedNil => panic nilDereference
    | DecodedTo changeRequest =>
      if change_SendTo changeRequest =? "" then
        http_Error "No user specified" StatusBadRequest
      else
        found <- ask (GetUserByUsername (change_SendTo changeRequest)) ;;
        match found with
        | inr appErr =>
          API_LogError ("username not valid, err=" ++ Error appErr) [] ;;
          handleErrorWithCode StatusNotFound "Unable to find user" appErr
        | inl receiver =>
          changed <- listManager_ChangeAssignment (change_ID changeRequest) userID
                       (Id receiver) ;;
          match changed with
          | inr err =>
            API_LogError
              ("Unable to change the assignment of an issue: err=" ++ Error err) [] ;;
            handleErrorWithCode StatusInternalServerError
              "Unable to change the assignment" err
          | inl (issueMessage, oldOwner) =>
            track (trackChangeAssignment userID) ;;
            sendRefreshEvent userID [MyListKey; OutListKey] ;;
            userName <- listManager_GetUserName userID ;;
            (if negb (Id receiver =? userID) then
               sendRefreshEvent (Id receiver) [InListKey] ;;
               PostBotCustomDM (Id receiver)
                 ("@" ++ userName ++ "(으)로부터 새 Todo를 받았습니다.")
                 issueMessage (change_ID changeRequest)
             else ret tt) ;;
            if negb (oldOwner =? "") then
              sendRefreshEvent oldOwner [InListKey; MyListKey] ;;
              PostBotDM oldOwner
                ("@" ++ userName ++ "(이)가 다음 Todo 담당자에서 나를 제외시켰습니다:" ++ nl
                   ++ issueMessage)
            else ret tt
          end
        end
    end.

Definition handleAccept (r : Request) : M W unit :=
  let userID := Header_Get r userIDHeader in
  if userID =? "" then http_Error "Not authorized" StatusUnauthorized
  else
    match decodeID (Body_ r) with
    | DecodeError err => decodeFailed err
    | DecodedNil => panic nilDereference
    | DecodedTo acceptRequest =>
      accepted <- listManager_AcceptIssue userID (req_ID acceptRequest) ;;
      match accepted with
      | inr err =>
        API_LogError ("Unable to accept issue err=" ++ Error err) [] ;;
        handleErrorWithCode StatusInternalServerError "Unable to accept issue" err
      | inl (todoMessage, sender) =>
        track (trackAcceptIssue userID) ;;
        sendRefreshEvent userID [MyListKey; InListKey] ;;
        sendRefreshEvent sender [OutListKey] ;;
        userName <- listManager_GetUserName userID ;;
        PostBotDM sender
          ("@" ++ userName ++ "이(가) 내가 보낸 Todo를 수락했습니다: " ++ todoMessage)
      end
    end.

Definition handleComplete (r : Request) : M W unit :=
  let userID := Header_Get r userIDHeader in
  if userID =? "" then http_Error "Not authorized" StatusUnauthorized
  else
    match decodeID (Body_ r) with
    | DecodeError err => decodeFailed err
    | DecodedNil => panic nilDereference
    | DecodedTo completeRequest =>
      completed <- listManager_CompleteIssue userID (req_ID completeRequest) ;;
      match completed with
      | inr err =>
        API_LogError ("Unable to complete issue err=" ++ Error err) [] ;;
        handleErrorWithCode StatusInternalServerError "Unable to complete issue" err
      | inl (issue, foreignID, listToUpdate) =>
        sendRefreshEvent userID [listToUpdate] ;;
        track (trackCompleteIssue userID) ;;
        userName <- listManager_GetUserName userID ;;
        postReplyIfNeeded (PostID issue)
          ("@" ++ userName ++ "이(가) 이 스레드에 연결된 Todo를 완료했습니다")
          (Message issue) ;;
        if foreignID =? "" then ret tt
        else
          sendRefreshEvent foreignID [OutListKey] ;;
          PostBotDM foreignID
            ("@" ++ userName ++ "이(가) 내가 보낸 Todo를 완료했습니다: " ++ Message issue)
      end
    end.

(** The words of [handleRemove] to the foreign user and the list of
    theirs that is refreshed. *)
Definition removedMessage (userName : string) (issue : Issue) : string :=
  "@" ++ userName ++ "이(가) 내가 받은 Todo를 제거했습니다: " ++ Message issue.

Definition rejectedMessage (userName : string) (issue : Issue) : string :=
  "@" ++ userName ++ "이(가) 내가 보낸 Todo를 거절했습니다: " ++ Message issue.

Definition handleRemove (r : Request) : M W unit :=
  let userID := Header_Get r userIDHeader in
  if userID =? "" then http_Error "Not authorized" StatusUnauthorized
  else
    match decodeID (Body_ r) with
    | DecodeError err => decodeFailed err
    | DecodedNil => panic nilDereference
    | DecodedTo removeRequest =>
      removed <- listManager_RemoveIssue userID (req_ID removeRequest) ;;
      match removed with
      | inr err =>
        API_LogError ("Unable to remove issue, err=" ++ Error err) [] ;;
        handleErrorWithCode StatusInternalServerError "Unable to remove issue" err
      | inl (issue, foreignID, isSender, listToUpdate) =>
        sendRefreshEvent userID [listToUpdate] ;;
        track (trackRemoveIssue userID) ;;
        userName <- listManager_GetUserName userID ;;
        postReplyIfNeeded (PostID issue)
          ("@" ++ userName ++ "이(가) 이 스레드에 첨부된 Todo를 제거했습니다")
          (Message issue) ;;
        if foreignID =? "" then ret tt
        else
          let list := if isSender : bool then OutListKey else InListKey in
          let message := if isSender : bool then rejectedMessage userName issue
                         else removedMessage userName issue in
          sendRefreshEvent foreignID [list] ;;
          PostBotDM foreignID message
      end
    end.

Definition handleBump (r : Request) : M W unit :=
  let userID := Header_Get r userIDHeader in
  if userID =? "" then http_Error "Not authorized" StatusUnauthorized
  else
    match decodeID (Body_ r) with
    | DecodeError err => decodeFailed err
    | DecodedNil => panic nilDereference
    | DecodedTo bumpRequest =>
      bumped <- listManager_BumpIssue userID (req_ID bumpRequest) ;;
      match bumped with
      | inr err =>
        API_LogError ("Unable to bump issue, err=" ++ Error err) [] ;;
        handleErrorWithCode StatusInternalServerError "Unable to bump issue" err
      | inl (todoMessage, foreignUser, foreignIssueID) =>
        track (trackBumpIssue userID) ;;
        if foreignUser =? "" then ret tt
        else
          sendRefreshEvent foreignUser [InListKey] ;;
          userName <- listManager_GetUserName userID ;;
          PostBotCustomDM foreignUser
            ("@" ++ userName ++ "이(가) 내가 받은 Todo를 강조했습니다.")
            todoMessage foreignIssueID
      end
    end.

Definition handleConfig (r : Request) : M W unit :=
  let userID := Header_Get r userIDHeader in
  if userID =? "" then http_Error "Not authorized" StatusUnauthorized
  else if negb (Method r =? "GET") then
    http_Error "Invalid request method" StatusMethodNotAllowed
  else
    match configuration p with
    | Some c =>
      match marshalConfig (HideTeamSidebar c) with
      | inr err =>
        API_LogError
          ("Unable to marshal plugin configuration to json err=" ++ Error err) [] ;;
        handleErrorWithCode StatusInternalServerError
          "Unable to marshal plugin configuration to json" err
      | inl configJSON =>
        err <- w_Write configJSON ;;
        match err with
        | Some e => API_LogError ("Unable to write json response err=" ++ Error e) []
        | None => ret tt
        end
      end
    | None => ret tt
    end.

(** The paths of the [switch] of [ServeHTTP]. *)
Definition routes : list string :=
  ["/add"; "/list"; "/remove"; "/complete"; "/accept"; "/bump"; "/telemetry";
   "/config"; "/edit"; "/change_assignment"].


Definition ServeHTTP (r : Request) : M W unit :=
  let path := URL_Path r in
  if path =? "/add" then handleAdd r
  else if path =? "/list" then handleList r
  else if path =? "/remove" then handleRemove r
  else if path =? "/complete" then handleComplete r
  else if path =? "/accept" then handleAccept r
  else if path =? "/bump" then handleBump r
  else if path =? "/telemetry" then handleTelemetry r
  else if path =? "/config" then handleConfig r
  else if path =? "/edit" then handleEdit r
  else if path =? "/change_assignment" then handleChangeAssignment r
  else emit (EvHttpNotFound).

End Plugin.

Arguments Handler W : clear implicits.

(** ** A world of canned answers

    The stand-in of the tests for the List Manager and the host: the world
    is the table of the answers, which no call changes. *)

Record Mock : Type := mkMock {
  mock_users : list User;
  mock_preference : string -> bool * option error;
  mock_add : Issue + error;
  mock_send : string + error;
  mock_list : list ExtendedIssue + error;
  mock_pop : Issue * string + error;
  mock_remove : Issue * string * bool * string + error;
  mock_name : string
}.

Definition mockIssue : Issue := mkIssue "i1" "buy milk" "" 0%Z "".

#[export] Instance mockKeys : ListKeys :=
  {| MyListKey := ""; InListKey := "_in"; OutListKey := "_out" |}.

#[export] Instance mockListManager : ListManager Mock := {|
  AddIssue := fun _ _ _ _ w => (mock_add w, w);
  SendIssue := fun _ _ _ _ _ w => (mock_send w, w);
  GetIssueList := fun _ _ w => (mock_list w, w);
  CompleteIssue := fun _ _ w => (inl (mockIssue, "", ""), w);
  AcceptIssue := fun _ _ w => (inl ("buy milk", "u2"), w);
  RemoveIssue := fun _ _ w => (mock_remove w, w);
  PopIssue := fun _ w => (mock_pop w, w);
  BumpIssue := fun _ _ w => (inl ("buy milk", "u2", "i2"), w);
  EditIssue := fun _ _ _ _ w => (inl ("", "", "buy milk"), w);
  ChangeAssignment := fun _ _ _ w => (inl ("buy milk", ""), w);
  GetUserName := fun _ w => (mock_name w, w)
|}.

Definition findUser (name : string) (users : list User) : User + error :=
  match find (fun u => Username u =? name) users with
  | Some u => inl u
  | None => inr (mkError "*model.AppError" "user not found")
  end.

(** The codec of the mock: the body is the text of the only field, or
    [message send_to] for an add; [null] is the JSON null and the empty
    body does not decode. *)
Definition mockDecode {A : Type} (build : list string -> A) (body : string) : Decoded A :=
  if body =? "" then DecodeError (mkError "*errors.errorString" "EOF")
  else if body =? "null" then DecodedNil
  else DecodedTo (build (Split_space body)).

#[export] Instance mockHost : Host Mock := {|
  GetUserByUsername := fun name w => findUser name (mock_users w);
  getAllowIncomingTaskRequestsPreference := fun u w => mock_preference w u;
  getReminderPreference := fun _ _ => false;
  saveReminderPreference := fun _ _ w => (None, w);
  saveAllowIncomingTaskRequestsPreference := fun _ _ w => (None, w);
  getLastReminderTimeForUser := fun _ _ => inl 0%Z;
  saveLastReminderTimeForUser := fun _ w => (None, w);
  ReplyPostBot := fun _ _ _ _ => None;
  issuesListToString := fun l => Join (map (fun i => Message (Issue_ i)) l) nl;
  reminderIsDue := fun _ _ _ => false;
  decodeTelemetry := mockDecode (fun f => Build_telemetryAPIRequest (hd "" f) []);
  decodeAdd := mockDecode (fun f => Build_addAPIRequest (hd "" f) "" (hd "" (tl f)) "");
  decodeEdit := mockDecode (fun f => Build_editAPIRequest (hd "" f) (hd "" (tl f)) "");
  decodeChangeAssignment :=
    mockDecode (fun f => Build_changeAssignmentAPIRequest (hd "" f) (hd "" (tl f)));
  decodeID := mockDecode (fun f => Build_idAPIRequest (hd "" f));
  marshalIssues := fun l => inl (Join (map (fun i => ID (Issue_ i)) l) ",");
  marshalConfig := fun b => inl (if b then "true" else "false");
  ResponseWriter_Write := fun _ _ => None
|}.

Definition alice : User := mkUser "u1" "alice".
Definition bob : User := mkUser "u2" "bob".

(** Everybody accepts requests, the My list is empty. *)
Definition mock0 : Mock := {|
  mock_users := [alice; bob];
  mock_preference := fun _ => (true, None);
  mock_add := inl mockIssue;
  mock_send := inl "i2";
  mock_list := inl [];
  mock_pop := inr (mkError "*errors.fundamental" "cannot find issue");
  mock_remove := inl (mockIssue, "", false, "");
  mock_name := "alice"
|}.

Definition mockPlugin : Plugin := mkPlugin "bot" None.

(** Alice types a command in the channel [c1]. *)
Definition aliceTypes (command : string) : CommandArgs := mkCommandArgs "u1" "c1" command.

(** Nobody accepts requests. *)
Definition mockBlocking : Mock := {|
  mock_users := [alice; bob];
  mock_preference := fun _ => (false, None);
  mock_add := inl mockIssue;
  mock_send := inl "i2";
  mock_list := inl [];
  mock_pop := inr (mkError "*errors.fundamental" "cannot find issue");
  mock_remove := inl (mockIssue, "", false, "");
  mock_name := "alice"
|}.

(** The preferences cannot be read. *)
Definition mockUnreadable : Mock := {|
  mock_users := [alice; bob];
  mock_preference := fun _ => (false, Some (mkError "*model.AppError" "store is down"));
  mock_add := inl mockIssue;
  mock_send := inl "i2";
  mock_list := inl [];
  mock_pop := inr (mkError "*errors.fundamental" "cannot find issue");
  mock_remove := inl (mockIssue, "", false, "");
  mock_name := "alice"
|}.

(** The issue that is removed is one Alice had sent to Bob. *)
Definition mockSent : Mock := {|
  mock_users := [alice; bob];
  mock_preference := fun _ => (true, None);
  mock_add := inl mockIssue;
  mock_send := inl "i2";
  mock_list := inl [];
  mock_pop := inl (mockIssue, "u2");
  mock_remove := inl (mockIssue, "u2", true, "_out");
  mock_name := "alice"
|}.


(** Every operation on the lists fails. *)
Definition storeDown : error := mkError "*errors.withStack" "store is down".

Definition mockFailing : Mock := {|
  mock_users := [alice; bob];
  mock_preference := fun _ => (true, None);
  mock_add := inr storeDown;
  mock_send := inr storeDown;
  mock_list := inr storeDown;
  mock_pop := inr storeDown;
  mock_remove := inr storeDown;
  mock_name := "alice"
|}.

(** A request of Alice, with a body or with the [list] query value, and
    one that names no user. *)
Definition aliceHeader (name : string) : string :=
  if name =? "Mattermost-User-ID" then "u1" else "".

Definition alicePosts (path body : string) : Request :=
  mkRequest path "POST" aliceHeader (fun _ => "") body.

Definition aliceLists (listInput : string) : Request :=
  mkRequest "/list" "GET" aliceHeader
    (fun name => if name =? "list" then listInput else "") "".

Definition nobodyPosts (path body : string) : Request :=
  mkRequest path "POST" (fun _ => "") (fun _ => "") body.

(** The claims of the specification that the code does not meet, as
    they are worded there. *)

(** One List Manager operation, no more and no less. *)
Definition exactlyOneOperation (t : list Event) : Prop := length (lmOps t) = 1%nat.

(** A handler's result that [ExecuteCommand] shows as a user error. *)
Definition surfacedAsUserError (r : Result (bool * option error)) : Prop :=
  exists err, r = Ok (true, Some err).

(** ** Definitions for the further properties *)

(** The first and the last byte of a string are of the class [\s]. *)
Definition startsWithSpace (s : string) : bool :=
  match s with
  | EmptyString => false
  | String c _ => isRegexpSpace c
  end.

Fixpoint endsWithSpace (s : string) : bool :=
  match s with
  | EmptyString => false
  | String c r =>
    match r with
    | EmptyString => isRegexpSpace c
    | String _ _ => endsWithSpace r
    end
  end.

(** Some byte of the string is of the class [\s]. *)
Fixpoint hasSpace (s : string) : bool :=
  match s with
  | EmptyString => false
  | String c r => isRegexpSpace c || hasSpace r
  end.

(** The byte string is empty or made of white-space runes only: one
    such rune after the other can be cut from its front until nothing
    is left (a rune takes at least one byte, so the length of the string
    is fuel enough). *)
Fixpoint onlySpaceRunes (fuel : nat) (s : string) : bool :=
  match s with
  | EmptyString => true
  | String _ _ =>
    match fuel with
    | O => false
    | S fuel' =>
      match cutSpaceRune s with
      | Some rest => onlySpaceRunes fuel' rest
      | None => false
      end
    end
  end.

Definition isBlank (s : string) : bool := onlySpaceRunes (String.length s) s.

(** A word of a command line: not empty, no white space inside. *)
Definition isWord (s : string) : Prop := s <> "" /\ hasSpace s = false.

(** The preferences a trace writes, in order. *)
Definition isPreferenceWrite (e : Event) : bool :=
  match e with
  | EvSaveReminderPreference _ _ => true
  | EvSaveAllowIncomingTaskRequestsPreference _ _ => true
  | _ => false
  end.

Definition preferenceWrites (t : list Event) : list Event := filter isPreferenceWrite t.

(** The direct messages of the bot in a trace, plain and custom. *)
Definition isBotDM (e : Event) : bool :=
  match e with
  | EvPostBotDM _ _ => true
  | EvPostBotCustomDM _ _ _ _ => true
  | _ => false
  end.

Definition botDMs (t : list Event) : list Event := filter isBotDM t.

(** An event that is not an ephemeral post, or one of the bot to the
    user of the command in the channel of the command. *)
Definition postedToCaller (p : Plugin) (args : CommandArgs) (e : Event) : Prop :=
  match e with
  | EvSendEphemeralPost userId post =>
    userId = UserId args /\ post_UserId post = BotUserID p
    /\ post_ChannelId post = ChannelId args
  | _ => True
  end.

(** The commands of the [switch] of [ExecuteCommand]. *)
Definition commandWords : list string := ["add"; "list"; "pop"; "send"; "settings"].

(** A second world of canned answers, for the handlers whose answers
    [Mock] fixes: the reminder, the saving of preferences, and the
    operations to complete, edit and reassign. *)
Record Stub : Type := mkStub {
  stub_reminder : bool;
  stub_lastReminder : Z + error;
  stub_due : bool;
  stub_save : option error;
  stub_write : option error;
  stub_list : list ExtendedIssue + error;
  stub_complete : Issue * string * string + error;
  stub_edit : string * string * string + error;
  stub_change : string * string + error
}.

#[export] Instance stubListManager : ListManager Stub := {|
  AddIssue := fun _ _ _ _ w => (inl mockIssue, w);
  SendIssue := fun _ _ _ _ _ w => (inl "i2", w);
  GetIssueList := fun _ _ w => (stub_list w, w);
  CompleteIssue := fun _ _ w => (stub_complete w, w);
  AcceptIssue := fun _ _ w => (inl ("buy milk", "u2"), w);
  RemoveIssue := fun _ _ w => (inl (mockIssue, "", false, ""), w);
  PopIssue := fun _ w => (inl (mockIssue, ""), w);
  BumpIssue := fun _ _ w => (inl ("buy milk", "u2", "i2"), w);
  EditIssue := fun _ _ _ _ w => (stub_edit w, w);
  ChangeAssignment := fun _ _ _ w => (stub_change w, w);
  GetUserName := fun _ w => ("alice", w)
|}.

#[export] Instance stubHost : Host Stub := {|
  GetUserByUsername := fun name _ => findUser name [alice; bob];
  getAllowIncomingTaskRequestsPreference := fun _ _ => (true, None);
  getReminderPreference := fun _ w => stub_reminder w;
  saveReminderPreference := fun _ _ w => (stub_save w, w);
  saveAllowIncomingTaskRequestsPreference := fun _ _ w => (stub_save w, w);
  getLastReminderTimeForUser := fun _ w => stub_lastReminder w;
  saveLastReminderTimeForUser := fun _ w => (stub_save w, w);
  ReplyPostBot := fun _ _ _ _ => None;
  issuesListToString := fun l => Join (map (fun i => Message (Issue_ i)) l) nl;
  reminderIsDue := fun w _ _ => stub_due w;
  decodeTelemetry := mockDecode (fun f => Build_telemetryAPIRequest (hd "" f) []);
  decodeAdd := mockDecode (fun f => Build_addAPIRequest (hd "" f) "" (hd "" (tl f)) "");
  decodeEdit := mockDecode (fun f => Build_editAPIRequest (hd "" f) (hd "" (tl f)) "");
  decodeChangeAssignment :=
    mockDecode (fun f => Build_changeAssignmentAPIRequest (hd "" f) (hd "" (tl f)));
  decodeID := mockDecode (fun f => Build_idAPIRequest (hd "" f));
  marshalIssues := fun l => inl (Join (map (fun i => ID (Issue_ i)) l) ",");
  marshalConfig := fun b => inl (if b then "true" else "false");
  ResponseWriter_Write := fun _ w => stub_write w
|}.

(** One task on the list, the reminder wanted and due; the task that is
    completed or edited is one Bob had sent, the one reassigned was held
    by a third user. *)
Definition stubDue : Stub := {|
  stub_reminder := true;
  stub_lastReminder := inl 0%Z;
  stub_due := true;
  stub_save := None;
  stub_write := None;
  stub_list := inl [ExtendedIssue_of mockIssue];
  stub_complete := inl (mockIssue, "u2", "");
  stub_edit := inl ("u2", "", "buy milk");
  stub_change := inl ("buy milk", "u3")
|}.

(** The same, but nothing can be saved and the edited task is one
    Alice had sent. *)
Definition stubReadOnly : Stub := {|
  stub_reminder := true;
  stub_lastReminder := inl 0%Z;
  stub_due := true;
  stub_save := Some storeDown;
  stub_write := None;
  stub_list := inl [ExtendedIssue_of mockIssue];
  stub_complete := inl (mockIssue, "", "");
  stub_edit := inl ("u2", "_out", "buy milk");
  stub_change := inl ("buy milk", "")
|}.

(** No reminder is wanted and the connection of the request is gone:
    nothing can be written to the response. *)
Definition brokenPipe : error := mkError "*net.OpError" "write: broken pipe".

Definition stubHungUp : Stub := {|
  stub_reminder := false;
  stub_lastReminder := inl 0%Z;
  stub_due := false;
  stub_save := None;
  stub_write := Some brokenPipe;
  stub_list := inl [ExtendedIssue_of mockIssue];
  stub_complete := inl (mockIssue, "", "");
  stub_edit := inl ("", "", "buy milk");
  stub_change := inl ("buy milk", "")
|}.

(** The reminder is wanted but not due, and nothing can be written. *)
Definition stubNotDue : Stub := {|
  stub_reminder := true;
  stub_lastReminder := inl 0%Z;
  stub_due := false;
  stub_save := None;
  stub_write := Some brokenPipe;
  stub_list := inl [ExtendedIssue_of mockIssue];
  stub_complete := inl (mockIssue, "", "");
  stub_edit := inl ("", "", "buy milk");
  stub_change := inl ("buy milk", "")
|}.

(** The list can be added to but not read. *)
Definition mockUnlisted : Mock := {|
  mock_users := [alice; bob];
  mock_preference := fun _ => (true, None);
  mock_add := inl mockIssue;
  mock_send := inl "i2";
  mock_list := inr storeDown;
  mock_pop := inl (mockIssue, "");
  mock_remove := inl (mockIssue, "", false, "");
  mock_name := "alice"
|}.

(** The list read after an add holds the new task already. *)
Definition mockListed : Mock := {|
  mock_users := [alice; bob];
  mock_preference := fun _ => (true, None);
  mock_add := inl mockIssue;
  mock_send := inl "i2";
  mock_list := inl [ExtendedIssue_of mockIssue];
  mock_pop := inl (mockIssue, "");
  mock_remove := inl (mockIssue, "", false, "");
  mock_name := "alice"
|}.

(** Alice asks for her list with the daily reminder. *)
Definition aliceListsWithReminder : Request :=
  mkRequest "/list" "GET" aliceHeader
    (fun name => if name =? "reminder" then "true" else "") "".

Definition aliceGets (path : string) : Request :=
  mkRequest path "GET" aliceHeader (fun _ => "") "".

(** What a request tells other parties: direct messages of the bot,
    websocket events and replies in a thread. *)
Definition isNotification (e : Event) : bool :=
  match e with
  | EvPostBotDM _ _ => true
  | EvPostBotCustomDM _ _ _ _ => true
  | EvPublishWebSocketEvent _ _ _ => true
  | EvReplyPostBot _ _ _ => true
  | _ => false
  end.

Definition notifications (t : list Event) : list Event := filter isNotification t.

(** A status line was written to the response. *)
Definition isWriteHeader (e : Event) : bool :=
  match e with
  | EvWriteHeader _ => true
  | _ => false
  end.

(** The answer of every handler to a body that does not decode. *)
Definition badRequest (err : error) : list Event :=
  [EvLogError ("Unable to decode JSON err=" ++ Error err) [];
   EvWriteHeader 400;
   EvWrite (ErrorJSON "Unable to decode JSON" (Error err))].

(** The end of [handleList] in the world [w]: the list written as JSON,
    with the log line of a write that failed, or the failure to marshal
    the list. *)
Definition listAnswer {W : Type} {host : Host W} (issues : list ExtendedIssue) (w : W)
  : list Event :=
  match marshalIssues issues with
  | inl issuesJSON =>
    EvWrite (Bytes issuesJSON)
    :: match ResponseWriter_Write issuesJSON w with
       | Some e => [EvLogError ("Unable to write json response err=" ++ Error e) []]
       | None => []
       end
  | inr err =>
    operationFailed "Unable marhsal issues list to json err="
      "Unable marhsal issues list to json" err
  end.

Create HintDb plugin.
#[export] Hint Unfold listManager_AddIssue listManager_SendIssue listManager_GetIssueList
  listManager_CompleteIssue listManager_AcceptIssue listManager_RemoveIssue
  listManager_PopIssue listManager_BumpIssue listManager_EditIssue
  listManager_ChangeAssignment listManager_GetUserName
  API_LogError API_LogDebug track PostBotDM PostBotCustomDM
  p_saveReminderPreference p_saveAllowIncomingTaskRequestsPreference
  p_saveLastReminderTimeForUser postCommandResponse sendRefreshEvent
  postReplyIfNeeded allowIncomingOrTrue reportError
  http_Error handleErrorWithCode w_Write decodeFailed addOwnIssue : plugin.

(** * Properties *)

Section Properties.
Context {W : Type} {keys : ListKeys} {listManager : ListManager W} {host : Host W}.
Variable p : Plugin.

Local Arguments append : simpl never.
Local Arguments String.eqb : simpl never.
Local Arguments Ascii.eqb : simpl never.

Lemma lmCalls_app (t1 t2 : list Event) :
  lmCalls (t1 ++ t2) = (lmCalls t1 ++ lmCalls t2)%list.
Proof.
  induction t1 as [|e t1 IH]; simpl; [reflexivity|].
  destruct e; simpl; rewrite ?IH; reflexivity.
Qed.

Lemma lmOps_app (t1 t2 : list Event) :
  lmOps (t1 ++ t2) = (lmOps t1 ++ lmOps t2)%list.
Proof. unfold lmOps. rewrite lmCalls_app. apply map_app. Qed.

(** [strings.Split] never returns the empty list, so [stringArgs[1]]
    is only out of range when there is exactly one word. *)
Lemma splitOnSpace_not_nil (s cur : string) : splitOnSpace s cur <> [].
Proof.
  revert cur. induction s as [|c s IH]; intros cur; simpl; [discriminate|].
  destruct (nat_of_ascii c =? 32)%nat; [discriminate | apply IH].
Qed.

Lemma commandFields_not_nil (command : string) : commandFields command <> [].
Proof. apply splitOnSpace_not_nil. Qed.

(** The handler of a command word, and the arguments it gets. *)
Lemma selectHandler_word (args : CommandArgs) (w : W) (command : string) (h : Handler W) :
  nth_error (commandFields (Command args)) 1 = Some command ->
  commandHandler p command = Some h ->
  selectHandler p args w =
    (Ok (Some (h, skipn 2 (commandFields (Command args)))), w,
     [EvTrack (trackCommand (UserId args) command)]).
Proof.
  intros Hn Hh. unfold selectHandler.
  destruct (commandFields (Command args)) as [|f0 [|f1 fs]] eqn:E; try discriminate.
  simpl in Hn. injection Hn as ->.
  cbn [length Nat.eqb nth_error]. rewrite Hh.
  destruct fs; reflexivity.
Qed.

(** What [runPopCommand] does with an error of [PopIssue]. *)
Lemma runPopCommand_error args extra w e w1 :
  PopIssue (UserId extra) w = (inr e, w1) ->
  runPopCommand p args extra w =
    if Error e =? cannotFindIssue
    then (Ok (false, None), w1,
          [LM (CallPopIssue (UserId extra)); replyTo p extra "제거할 Todo가 없습니다."])
    else (Ok (false, Some e), w1, [LM (CallPopIssue (UserId extra))]).
Proof.
  intros H. unfold runPopCommand, listManager_PopIssue, bind, call, emit. rewrite H.
  destruct (Error e =? cannotFindIssue); reflexivity.
Qed.

(** C1. Whatever follows the word [pop] on the command line: when
    [PopIssue] returns an error whose text is exactly
    [cannot find issue], the handler returns no error and the user gets
    the friendly empty-list message, nothing is logged; any other error is
    returned with the flag [false], logged, and answered with the generic
    apology of an internal error. Only the text of the error is looked
    at: the statement holds for an error of any kind. *)
Theorem pop_error_detected_by_text (args : CommandArgs) (w w1 : W) (e : error) :
  nth_error (commandFields (Command args)) 1 = Some "pop" ->
  PopIssue (UserId args) w = (inr e, w1) ->
  resultOf (runPopCommand p (skipn 2 (commandFields (Command args))) args w) =
    Ok (false, if Error e =? "cannot find issue" then None else Some e)
  /\ ExecuteCommand p args w =
     (Ok (emptyCommandResponse, None), w1,
      [EvTrack (trackCommand (UserId args) "pop"); LM (CallPopIssue (UserId args))]
      ++ if Error e =? "cannot find issue"
         then [replyTo p args "제거할 Todo가 없습니다."]
         else [EvLogError (Error e) []; replyTo p args internalErrorReply])%list.
Proof.
  intros Hword Hpop.
  pose proof (runPopCommand_error (skipn 2 (commandFields (Command args))) args w Hpop) as Hrun.
  unfold cannotFindIssue in Hrun.
  split.
  - rewrite Hrun. destruct (Error e =? "cannot find issue"); reflexivity.
  - unfold ExecuteCommand, bind.
    rewrite (selectHandler_word args w (h:=runPopCommand p) Hword eq_refl).
    rewrite Hrun.
    destruct (Error e =? "cannot find issue"); reflexivity.
Qed.


(** *** The List Manager operations of each command *)

Ltac case_step :=
  match goal with
  | |- context [match ?x with _ => _ end] =>
    lazymatch x with
    | context [match _ with _ => _ end] => fail
    | _ => destruct x eqn:?
    end
  end.

Ltac all_paths :=
  autounfold with plugin; unfold bind, ret, emit, ask, call, panic;
  repeat (simpl; case_step); simpl.

Lemma runAddCommand_ops args extra w :
  In (lmOps (traceOf (runAddCommand p args extra w)))
     [[]; [OpAddIssue]; [OpAddIssue; OpGetIssueList]].
Proof. unfold runAddCommand. all_paths; auto 6. Qed.

Lemma runListCommand_ops args extra w :
  In (lmOps (traceOf (runListCommand p args extra w))) [[]; [OpGetIssueList]].
Proof. unfold runListCommand. all_paths; auto. Qed.

Lemma runPopCommand_ops args extra w :
  In (lmOps (traceOf (runPopCommand p args extra w)))
     [[OpPopIssue]; [OpPopIssue; OpGetUserName; OpGetIssueList]].
Proof. unfold runPopCommand. all_paths; auto. Qed.

Lemma runSettingsCommand_ops args extra w :
  lmOps (traceOf (runSettingsCommand p args extra w)) = [].
Proof. unfold runSettingsCommand. all_paths; reflexivity. Qed.

Lemma runSendCommand_ops args extra w :
  In (lmOps (traceOf (runSendCommand p args extra w)))
     [[]; [OpAddIssue]; [OpAddIssue; OpGetIssueList]; [OpSendIssue];
      [OpSendIssue; OpGetUserName]].
Proof.
  unfold runSendCommand. all_paths; auto 8.
  all: match goal with
       | H : runAddCommand _ ?a ?e ?w = _ |- _ =>
         pose proof (runAddCommand_ops a e w) as Hadd; rewrite H in Hadd;
         simpl in Hadd; intuition auto
       end.
Qed.

(** [selectHandler] changes nothing and calls no List Manager
    operation; it ends with the help posted or with one of the five
    handlers. *)
Lemma selectHandler_cases (args : CommandArgs) (w : W) :
  exists r t,
    selectHandler p args w = (Ok r, w, t) /\ lmOps t = [] /\
    (r = None \/
     exists h rest, r = Some (h, rest) /\
       In h [runAddCommand p; runListCommand p; runPopCommand p;
             runSendCommand p; runSettingsCommand p]).
Proof.
  unfold selectHandler.
  pose proof (commandFields_not_nil (Command args)) as Hnil.
  destruct (commandFields (Command args)) as [|f0 [|f1 fs]]; [congruence | |].
  - do 2 eexists. split; [reflexivity|]. split; [reflexivity|].
    right. do 2 eexists. split; [reflexivity|]. simpl; auto.
  - cbn [length Nat.eqb nth_error]. unfold commandHandler.
    repeat match goal with
           | |- context [if ?b then _ else _] => destruct b
           end;
      do 2 eexists; (split; [reflexivity|]); (split; [reflexivity|]);
      solve [ left; reflexivity
            | right; do 2 eexists; split; [reflexivity|]; simpl; auto 8 ].
Qed.

Lemma reportError_ops cmd flag err (w : W) :
  exists t, reportError p cmd flag err w = (Ok tt, w, t) /\ lmOps t = [].
Proof.
  unfold reportError. destruct err as [e|]; [destruct flag|];
    eexists; split; reflexivity.
Qed.

(** The operations of a whole command are those of its handler. *)
Lemma ExecuteCommand_ops (cmd : CommandArgs) (w : W) :
  lmOps (traceOf (ExecuteCommand p cmd w)) = [] \/
  exists h rest w1,
    In h [runAddCommand p; runListCommand p; runPopCommand p;
          runSendCommand p; runSettingsCommand p] /\
    lmOps (traceOf (ExecuteCommand p cmd w)) = lmOps (traceOf (h rest cmd w1)).
Proof.
  destruct (selectHandler_cases cmd w) as (r & t & Hsel & Hops & Hcase).
  unfold ExecuteCommand, bind. rewrite Hsel.
  destruct Hcase as [-> | (h & rest & -> & Hin)].
  - left. simpl. rewrite lmOps_app, Hops. reflexivity.
  - right. exists h, rest, w. split; [exact Hin|].
    destruct (h rest cmd w) as [[res w2] t2].
    destruct res as [[flag err]|msg]; simpl.
    + destruct (reportError_ops cmd flag err w2) as (t3 & -> & Ht3).
      simpl. rewrite !lmOps_app, Hops, Ht3, app_nil_r. reflexivity.
    + rewrite lmOps_app, Hops. reflexivity.
Qed.

(** The calls of each handler, by what it is given and what the List
    Manager and the host answer. *)
Lemma runAddCommand_calls args extra (w : W) :
  lmCalls (traceOf (runAddCommand p args extra w)) =
    if Join args " " =? "" then []
    else
      match AddIssue (UserId extra) (Join args " ") "" "" w with
      | (inr _, _) => [CallAddIssue (UserId extra) (Join args " ") "" ""]
      | (inl _, _) =>
        [CallAddIssue (UserId extra) (Join args " ") "" "";
         CallGetIssueList (UserId extra) MyListKey]
      end.
Proof. unfold runAddCommand. all_paths; reflexivity. Qed.

Lemma runListCommand_calls args extra w :
  lmCalls (traceOf (runListCommand p args extra w)) =
    match args with
    | [] => [CallGetIssueList (UserId extra) MyListKey]
    | flag :: _ =>
      if flag =? "my" then [CallGetIssueList (UserId extra) MyListKey]
      else if flag =? "in" then [CallGetIssueList (UserId extra) InListKey]
      else if flag =? "out" then [CallGetIssueList (UserId extra) OutListKey]
      else []
    end.
Proof.
  unfold runListCommand, MyFlag, InFlag, OutFlag.
  destruct args as [|flag rest]; [|destruct (flag =? "my"), (flag =? "in"), (flag =? "out")];
    all_paths; reflexivity.
Qed.

Lemma runPopCommand_calls args extra (w : W) :
  lmCalls (traceOf (runPopCommand p args extra w)) =
    match PopIssue (UserId extra) w with
    | (inr _, _) => [CallPopIssue (UserId extra)]
    | (inl _, _) =>
      [CallPopIssue (UserId extra); CallGetUserName (UserId extra);
       CallGetIssueList (UserId extra) MyListKey]
    end.
Proof.
  unfold runPopCommand. all_paths; rewrite ?lmCalls_app; simpl; reflexivity.
Qed.

Lemma runSettingsCommand_calls args extra (w : W) :
  lmCalls (traceOf (runSettingsCommand p args extra w)) = [].
Proof. unfold runSettingsCommand. all_paths; reflexivity. Qed.

Lemma runSendCommand_calls args extra (w : W) :
  lmCalls (traceOf (runSendCommand p args extra w)) =
    if (length args <? 2)%nat then []
    else
      match hd "" args with
      | EmptyString => []
      | String c rest0 =>
        match GetUserByUsername (if Ascii.eqb c "@" then rest0 else hd "" args) w with
        | inr _ => []
        | inl receiver =>
          if Id receiver =? UserId extra then
            lmCalls (traceOf (runAddCommand p (tl args) extra w))
          else
            match getAllowIncomingTaskRequestsPreference (Id receiver) w with
            | (false, None) => []
            | _ =>
              match SendIssue (UserId extra) (Id receiver) (Join (tl args) " ") "" "" w with
              | (inr _, _) =>
                [CallSendIssue (UserId extra) (Id receiver) (Join (tl args) " ") "" ""]
              | (inl _, _) =>
                [CallSendIssue (UserId extra) (Id receiver) (Join (tl args) " ") "" "";
                 CallGetUserName (UserId extra)]
              end
            end
        end
      end.
Proof.
  unfold runSendCommand.
  destruct (length args <? 2)%nat; [reflexivity|].
  destruct (hd "" args) as [|c rest0] eqn:Hhd; [reflexivity|].
  destruct (Ascii.eqb c "@"); all_paths; try reflexivity;
    simpl in *; congruence.
Qed.

Lemma lmCalls_of_no_ops (t : list Event) : lmOps t = [] -> lmCalls t = [].
Proof. unfold lmOps. destruct (lmCalls t); [reflexivity | discriminate]. Qed.

(** The calls of a whole command are those of the handler of its second
    word on the words after it; of [runListCommand] when there is no
    second word; none when the word is not a command. *)
Lemma ExecuteCommand_calls (cmd : CommandArgs) (w : W) :
  (forall command : string,
     nth_error (commandFields (Command cmd)) 1 = Some command ->
     lmCalls (traceOf (ExecuteCommand p cmd w)) =
       match commandHandler p command with
       | Some handler =>
         lmCalls (traceOf (handler (skipn 2 (commandFields (Command cmd))) cmd w))
       | None => []
       end)
  /\ (nth_error (commandFields (Command cmd)) 1 = None ->
      lmCalls (traceOf (ExecuteCommand p cmd w)) =
        lmCalls (traceOf (runListCommand p [] cmd w))).
Proof.
  assert (Hrun : forall (h : Handler W) rest t,
            selectHandler p cmd w = (Ok (Some (h, rest)), w, t) -> lmCalls t = [] ->
            lmCalls (traceOf (ExecuteCommand p cmd w)) = lmCalls (traceOf (h rest cmd w))).
  { intros h rest t Hsel Ht. unfold ExecuteCommand, bind. rewrite Hsel.
    destruct (h rest cmd w) as [[res w2] t2].
    destruct res as [[flag err]|msg]; simpl.
    - destruct (reportError_ops cmd flag err w2) as (t3 & -> & Ht3).
      simpl. rewrite !lmCalls_app, Ht, (lmCalls_of_no_ops _ Ht3), app_nil_r.
      reflexivity.
    - rewrite lmCalls_app, Ht. reflexivity. }
  split.
  - intros command Hn. destruct (commandHandler p command) as [h|] eqn:Hh.
    + apply (Hrun h _ _ (selectHandler_word cmd w Hn Hh)). reflexivity.
    + unfold ExecuteCommand, selectHandler, bind.
      destruct (commandFields (Command cmd)) as [|f0 [|f1 fs]]; try discriminate.
      simpl in Hn. injection Hn as ->.
      cbn [length Nat.eqb nth_error]. rewrite Hh.
      destruct (command =? "help"); reflexivity.
  - intros Hn.
    apply (Hrun (runListCommand p) [] [EvTrack (trackCommand (UserId cmd) "")]);
      [|reflexivity].
    unfold selectHandler.
    pose proof (commandFields_not_nil (Command cmd)) as Hnil.
    destruct (commandFields (Command cmd)) as [|f0 [|f1 fs]];
      [congruence | reflexivity | discriminate].
Qed.

(** C3, as the code has it. A command changes the lists at most once,
    and the List Manager calls of each handler, in order, are these.
    [add]: none when the message is empty; else [AddIssue], and after
    its success [GetIssueList] of the My list. [list]: [GetIssueList] of
    the list of the flag, none when the flag is unknown. [pop]:
    [PopIssue], and after its success [GetUserName] and [GetIssueList].
    [send]: none with fewer than two arguments, an unknown receiver or a
    receiver whose preference is read as [false]; the calls of [add] on
    the rest of the arguments when the receiver is the sender; else
    [SendIssue], and after its success [GetUserName]. [settings]: none.
    A whole command calls what the handler of its second word calls on
    the words after it, [list] when it has no second word, and nothing
    when the word is not one of the five. *)
Theorem command_changes_lists_at_most_once
    (args : list string) (extra cmd : CommandArgs) (w : W) :
  lmCalls (traceOf (runAddCommand p args extra w)) =
    (if Join args " " =? "" then []
     else
       match AddIssue (UserId extra) (Join args " ") "" "" w with
       | (inr _, _) => [CallAddIssue (UserId extra) (Join args " ") "" ""]
       | (inl _, _) =>
         [CallAddIssue (UserId extra) (Join args " ") "" "";
          CallGetIssueList (UserId extra) MyListKey]
       end)
  /\ lmCalls (traceOf (runListCommand p args extra w)) =
       match args with
       | [] => [CallGetIssueList (UserId extra) MyListKey]
       | flag :: _ =>
         if flag =? "my" then [CallGetIssueList (UserId extra) MyListKey]
         else if flag =? "in" then [CallGetIssueList (UserId extra) InListKey]
         else if flag =? "out" then [CallGetIssueList (UserId extra) OutListKey]
         else []
       end
  /\ lmCalls (traceOf (runPopCommand p args extra w)) =
       match PopIssue (UserId extra) w with
       | (inr _, _) => [CallPopIssue (UserId extra)]
       | (inl _, _) =>
         [CallPopIssue (UserId extra); CallGetUserName (UserId extra);
          CallGetIssueList (UserId extra) MyListKey]
       end
  /\ lmCalls (traceOf (runSendCommand p args extra w)) =
       (if (length args <? 2)%nat then []
        else
          match hd "" args with
          | EmptyString => []
          | String c rest0 =>
            match GetUserByUsername (if Ascii.eqb c "@" then rest0 else hd "" args) w with
            | inr _ => []
            | inl receiver =>
              if Id receiver =? UserId extra then
                lmCalls (traceOf (runAddCommand p (tl args) extra w))
              else
                match getAllowIncomingTaskRequestsPreference (Id receiver) w with
                | (false, None) => []
                | _ =>
                  match SendIssue (UserId extra) (Id receiver) (Join (tl args) " ")
                          "" "" w with
                  | (inr _, _) =>
                    [CallSendIssue (UserId extra) (Id receiver) (Join (tl args) " ") "" ""]
                  | (inl _, _) =>
                    [CallSendIssue (UserId extra) (Id receiver) (Join (tl args) " ") "" "";
                     CallGetUserName (UserId extra)]
                  end
                end
            end
          end)
  /\ lmCalls (traceOf (runSettingsCommand p args extra w)) = []
  /\ (forall command : string,
        nth_error (commandFields (Command cmd)) 1 = Some command ->
        lmCalls (traceOf (ExecuteCommand p cmd w)) =
          if command =? "add" then
            lmCalls (traceOf (runAddCommand p (skipn 2 (commandFields (Command cmd))) cmd w))
          else if command =? "list" then
            lmCalls (traceOf (runListCommand p (skipn 2 (commandFields (Command cmd))) cmd w))
          else if command =? "pop" then
            lmCalls (traceOf (runPopCommand p (skipn 2 (commandFields (Command cmd))) cmd w))
          else if command =? "send" then
            lmCalls (traceOf (runSendCommand p (skipn 2 (commandFields (Command cmd))) cmd w))
          else if command =? "settings" then
            lmCalls (traceOf (runSettingsCommand p (skipn 2 (commandFields (Command cmd)))
                                cmd w))
          else [])
  /\ (nth_error (commandFields (Command cmd)) 1 = None ->
      lmCalls (traceOf (ExecuteCommand p cmd w)) =
        lmCalls (traceOf (runListCommand p [] cmd w)))
  /\ (length (mutations (traceOf (ExecuteCommand p cmd w))) <= 1)%nat.
Proof.
  split; [apply runAddCommand_calls|].
  split; [apply runListCommand_calls|].
  split; [apply runPopCommand_calls|].
  split; [apply runSendCommand_calls|].
  split; [apply runSettingsCommand_calls|].
  split.
  { intros command Hn.
    rewrite (proj1 (ExecuteCommand_calls cmd w) command Hn). unfold commandHandler.
    repeat match goal with
           | |- context [if ?b then _ else _] => destruct b
           end; reflexivity. }
  split; [apply (proj2 (ExecuteCommand_calls cmd w))|].
  unfold mutations.
  destruct (ExecuteCommand_ops cmd w) as [-> | (h & rest & w1 & Hin & ->)];
    [simpl; lia|].
  simpl in Hin.
  destruct Hin as [<- | [<- | [<- | [<- | [<- | []]]]]].
  - pose proof (runAddCommand_ops rest cmd w1) as H; simpl in H.
    repeat destruct H as [H|H]; solve [rewrite <- H; simpl; lia | contradiction].
  - pose proof (runListCommand_ops rest cmd w1) as H; simpl in H.
    repeat destruct H as [H|H]; solve [rewrite <- H; simpl; lia | contradiction].
  - pose proof (runPopCommand_ops rest cmd w1) as H; simpl in H.
    repeat destruct H as [H|H]; solve [rewrite <- H; simpl; lia | contradiction].
  - pose proof (runSendCommand_ops rest cmd w1) as H; simpl in H.
    repeat destruct H as [H|H]; solve [rewrite <- H; simpl; lia | contradiction].
  - rewrite runSettingsCommand_ops. simpl; lia.
Qed.

(** *** Sending *)

Lemma runSendCommand_SendIssue_guard args extra w :
  In OpSendIssue (lmOps (traceOf (runSendCommand p args extra w))) ->
  exists userName receiver,
    (hd "" args = userName \/ hd "" args = String "@" userName) /\
    GetUserByUsername userName w = inl receiver /\
    Id receiver <> UserId extra /\
    getAllowIncomingTaskRequestsPreference (Id receiver) w <> (false, None).
Proof.
  unfold runSendCommand. all_paths; intros Hin.
  all: try (simpl in Hin; intuition discriminate).
  all: try match goal with
       | H : runAddCommand _ ?a ?e ?w = _ |- _ =>
         pose proof (runAddCommand_ops a e w) as Hadd; rewrite H in Hadd;
         simpl in Hadd; repeat destruct Hadd as [Hadd|Hadd];
         try contradiction; rewrite <- Hadd in Hin; simpl in Hin;
         intuition discriminate
       end.
  all: match goal with
       | H : GetUserByUsername ?n _ = inl ?u |- _ => exists n, u
       end.
  all: split;
    [ first [ left; reflexivity
            | right;
              match goal with
              | H : Ascii.eqb _ _ = true |- _ => apply Ascii.eqb_eq in H; subst
              end; reflexivity ]
    | split; [assumption|];
      split; [apply String.eqb_neq; assumption|];
      intros Hp; rewrite Hp in *; simpl in *; discriminate ].
Qed.

Lemma runSendCommand_blocked args extra w c rest0 userName receiver :
  (2 <= length args)%nat ->
  hd "" args = String c rest0 ->
  userName = (if Ascii.eqb c "@" then rest0 else String c rest0) ->
  GetUserByUsername userName w = inl receiver ->
  Id receiver <> UserId extra ->
  getAllowIncomingTaskRequestsPreference (Id receiver) w = (false, None) ->
  runSendCommand p args extra w =
    (Ok (false, None), w,
     [replyTo p extra ("@" ++ userName ++ "은(는) Todo 요청을 차단 중입니다")]).
Proof.
  intros Hlen Hhd -> Huser Hother Hpref.
  unfold runSendCommand.
  apply Nat.ltb_ge in Hlen. rewrite Hlen, Hhd.
  apply String.eqb_neq in Hother.
  autounfold with plugin; unfold bind, ask, emit, ret.
  destruct (Ascii.eqb c "@"); rewrite Huser; simpl; rewrite Hother; simpl;
    rewrite Hpref; reflexivity.
Qed.

Lemma runSendCommand_read_failed args extra w c rest0 userName receiver b err :
  (2 <= length args)%nat ->
  hd "" args = String c rest0 ->
  userName = (if Ascii.eqb c "@" then rest0 else String c rest0) ->
  GetUserByUsername userName w = inl receiver ->
  Id receiver <> UserId extra ->
  getAllowIncomingTaskRequestsPreference (Id receiver) w = (b, Some err) ->
  exists t,
    traceOf (runSendCommand p args extra w) =
      EvLogError preferenceReadFailed [Error err]
      :: LM (CallSendIssue (UserId extra) (Id receiver) (Join (tl args) " ") "" "")
      :: t.
Proof.
  intros Hlen Hhd -> Huser Hother Hpref.
  unfold runSendCommand.
  apply Nat.ltb_ge in Hlen. rewrite Hlen, Hhd.
  apply String.eqb_neq in Hother.
  autounfold with plugin; unfold bind, ask, emit, ret, call.
  destruct (Ascii.eqb c "@"); rewrite Huser; simpl; rewrite Hother; simpl;
    rewrite Hpref; simpl;
    destruct (SendIssue _ _ _ _ _ w) as [[id|e] w1]; simpl;
    try destruct (GetUserName _ w1); simpl; eexists; reflexivity.
Qed.

Lemma runSendCommand_self args extra w c rest0 userName receiver :
  (2 <= length args)%nat ->
  hd "" args = String c rest0 ->
  userName = (if Ascii.eqb c "@" then rest0 else String c rest0) ->
  GetUserByUsername userName w = inl receiver ->
  Id receiver = UserId extra ->
  runSendCommand p args extra w = runAddCommand p (tl args) extra w.
Proof.
  intros Hlen Hhd -> Huser Hself.
  unfold runSendCommand.
  apply Nat.ltb_ge in Hlen. rewrite Hlen, Hhd.
  apply String.eqb_eq in Hself.
  unfold bind, ask.
  destruct (Ascii.eqb c "@"); rewrite Huser; simpl; rewrite Hself;
    destruct (runAddCommand p (tl args) extra w) as [[r w1] t]; reflexivity.
Qed.

(** *** Adding and listing *)

Lemma runAddCommand_empty args extra (w : W) :
  Join args " " = "" ->
  runAddCommand p args extra w =
    (Ok (false, None), w, [replyTo p extra "Task를 추가하세요."]).
Proof. intros H. unfold runAddCommand. rewrite H. reflexivity. Qed.

Lemma runListCommand_unknown flag rest extra (w : W) :
  flag <> "my" -> flag <> "in" -> flag <> "out" ->
  runListCommand p (flag :: rest) extra w =
    (Ok (true, None), w, [replyTo p extra getHelp]).
Proof.
  intros Hmy Hin Hout. unfold runListCommand, MyFlag, InFlag, OutFlag.
  apply String.eqb_neq in Hmy, Hin, Hout. rewrite Hmy, Hin, Hout. reflexivity.
Qed.

(** *** plugin.go: requests without a user *)

Ltac no_user H := cbv delta [handleAdd handleList handleRemove
  handleComplete handleAccept handleBump handleTelemetry handleConfig handleEdit
  handleChangeAssignment] beta; cbv zeta; rewrite H; reflexivity.

Lemma handlers_without_user (r : Request) (w : W) :
  Header_Get r userIDHeader = "" ->
  Forall (fun handler : Request -> M W unit => handler r w = notAuthorized w)
    [handleAdd; handleList; handleRemove; handleComplete; handleAccept;
     handleBump; handleTelemetry; handleConfig p; handleEdit;
     handleChangeAssignment].
Proof.
  intros H. repeat (apply Forall_cons; [no_user H|]). apply Forall_nil.
Qed.

Lemma ServeHTTP_route (r : Request) (w : W) :
  In (URL_Path r) routes ->
  In (ServeHTTP p r w)
    [handleAdd r w; handleList r w; handleRemove r w; handleComplete r w;
     handleAccept r w; handleBump r w; handleTelemetry r w; handleConfig p r w;
     handleEdit r w; handleChangeAssignment r w].
Proof.
  unfold routes, ServeHTTP. intros Hin. simpl in Hin.
  repeat destruct Hin as [Hin|Hin]; try contradiction; rewrite <- Hin;
    simpl; auto 12.
Qed.

Lemma ServeHTTP_unknown_path (r : Request) (w : W) :
  ~ In (URL_Path r) routes ->
  ServeHTTP p r w = (Ok tt, w, [EvHttpNotFound]).
Proof.
  unfold routes, ServeHTTP. intros Hnot.
  repeat match goal with
         | |- context [if ?x =? ?y then _ else _] =>
           destruct (String.eqb_spec x y) as [Heq|_];
             [exfalso; apply Hnot; rewrite Heq; simpl; auto 12|]
         end.
  reflexivity.
Qed.

(** C10. A request whose [Mattermost-User-ID] header is empty: each of
    the ten handlers answers 401 [Not authorized] and that is all it
    does, so on every path that [ServeHTTP] routes the answer is 401;
    whatever the path, no List Manager operation is invoked and the world
    is left as it was. *)
Theorem request_without_user_is_refused (r : Request) (w : W) :
  Header_Get r "Mattermost-User-ID" = "" ->
  Forall (fun handler : Request -> M W unit =>
            handler r w = (Ok tt, w, [EvHttpError "Not authorized" 401]))
    [handleAdd; handleList; handleRemove; handleComplete; handleAccept;
     handleBump; handleTelemetry; handleConfig p; handleEdit;
     handleChangeAssignment]
  /\ (In (URL_Path r) routes ->
      ServeHTTP p r w = (Ok tt, w, [EvHttpError "Not authorized" 401]))
  /\ lmCalls (traceOf (ServeHTTP p r w)) = []
  /\ worldOf (ServeHTTP p r w) = w.
Proof.
  intros H. pose proof (handlers_without_user r w H) as Hall.
  assert (Hroute : In (URL_Path r) routes -> ServeHTTP p r w = notAuthorized w).
  { intros Hin. pose proof (ServeHTTP_route r w Hin) as Hone.
    rewrite Forall_forall in Hall. simpl in Hone.
    repeat destruct Hone as [Hone|Hone]; try contradiction;
      rewrite <- Hone; match goal with
                       | |- ?h r w = _ => apply (Hall h); simpl; auto 12
                       end. }
  split; [exact Hall|]. split; [exact Hroute|].
  destruct (in_dec string_dec (URL_Path r) routes) as [Hin|Hnot].
  - rewrite (Hroute Hin). split; reflexivity.
  - rewrite (ServeHTTP_unknown_path r w Hnot). split; reflexivity.
Qed.

(** *** plugin.go: the operations of each request *)











(** *** plugin.go: the answer to a failed operation *)

Ltac with_user Huser :=
  apply String.eqb_neq in Huser; rewrite Huser;
  autounfold with plugin; unfold bind, ret, emit, ask, call.









Lemma handleAdd_send_failed (r : Request) (w w1 w2 : W) (req : addAPIRequest)
    (senderName : string) (receiver : User) (err : error) :
  Header_Get r userIDHeader <> "" ->
  decodeAdd (Body_ r) = DecodedTo req ->
  add_SendTo req <> "" ->
  GetUserName (Header_Get r userIDHeader) w = (senderName, w1) ->
  GetUserByUsername (add_SendTo req) w1 = inl receiver ->
  Id receiver <> Header_Get r userIDHeader ->
  getAllowIncomingTaskRequestsPreference (Id receiver) w1 = (true, None) ->
  SendIssue (Header_Get r userIDHeader) (Id receiver) (add_Message req)
    (add_Description req) (add_PostID req) w1 = (inr err, w2) ->
  handleAdd r w =
    (Ok tt, w2,
     LM (CallGetUserName (Header_Get r userIDHeader))
     :: LM (CallSendIssue (Header_Get r userIDHeader) (Id receiver) (add_Message req)
              (add_Description req) (add_PostID req))
     :: operationFailed "Unable to send issue err=" "Unable to send issue" err).
Proof.
  intros Huser Hreq Hto Hname Hfound Hother Hpref Hop. unfold handleAdd. rewrite Hreq.
  apply String.eqb_neq in Hto, Hother. rewrite Hto.
  with_user Huser. rewrite Hname. simpl. rewrite Hfound. simpl. rewrite Hother.
  rewrite Hpref. simpl. rewrite Hop. reflexivity.
Qed.

(** *** plugin.go: removing, listing, adding to oneself *)



Lemma handleList_calls (r : Request) (w : W) :
  Header_Get r userIDHeader <> "" ->
  lmCalls (traceOf (handleList r w)) =
    [CallGetIssueList (Header_Get r userIDHeader) (listOfQuery (Query_Get r "list"))].
Proof.
  intros Huser. unfold handleList. apply String.eqb_neq in Huser. rewrite Huser.
  all_paths; reflexivity.
Qed.

Lemma listOfQuery_fallback (listInput : string) :
  listInput <> "out" -> listInput <> "in" -> listOfQuery listInput = MyListKey.
Proof.
  intros Hout Hin. unfold listOfQuery, OutFlag, InFlag.
  apply String.eqb_neq in Hout, Hin. rewrite Hout, Hin. reflexivity.
Qed.

Lemma handleAdd_self (r : Request) (w w1 : W) (req : addAPIRequest)
    (senderName : string) (receiver : User) :
  Header_Get r userIDHeader <> "" ->
  decodeAdd (Body_ r) = DecodedTo req ->
  add_SendTo req <> "" ->
  GetUserName (Header_Get r userIDHeader) w = (senderName, w1) ->
  GetUserByUsername (add_SendTo req) w1 = inl receiver ->
  Id receiver = Header_Get r userIDHeader ->
  lmCalls (traceOf (handleAdd r w)) =
    [CallGetUserName (Header_Get r userIDHeader);
     CallAddIssue (Header_Get r userIDHeader) (add_Message req)
       (add_Description req) (add_PostID req)].
Proof.
  intros Huser Hreq Hto Hname Hfound Hself. unfold handleAdd. rewrite Hreq.
  apply String.eqb_neq in Huser, Hto. apply String.eqb_eq in Hself.
  rewrite Huser, Hto.
  unfold listManager_GetUserName, bind, emit, call, ask.
  rewrite Hname. simpl. rewrite Hfound. simpl. rewrite Hself.
  all_paths; reflexivity.
Qed.

Lemma handleAdd_blocked (r : Request) (w w1 : W) (req : addAPIRequest)
    (senderName : string) (receiver : User) :
  Header_Get r userIDHeader <> "" ->
  decodeAdd (Body_ r) = DecodedTo req ->
  add_SendTo req <> "" ->
  GetUserName (Header_Get r userIDHeader) w = (senderName, w1) ->
  GetUserByUsername (add_SendTo req) w1 = inl receiver ->
  Id receiver <> Header_Get r userIDHeader ->
  getAllowIncomingTaskRequestsPreference (Id receiver) w1 = (false, None) ->
  handleAdd r w =
    (Ok tt, w1,
     [LM (CallGetUserName (Header_Get r userIDHeader));
      EvPostBotDM (Header_Get r userIDHeader)
        ("@" ++ Username receiver ++ "은(는) Todo 요청을 차단했습니다.")]).
Proof.
  intros Huser Hreq Hto Hname Hfound Hother Hpref. unfold handleAdd. rewrite Hreq.
  apply String.eqb_neq in Huser, Hto, Hother. rewrite Huser, Hto.
  autounfold with plugin; unfold bind, emit, call, ask, ret.
  rewrite Hname. simpl. rewrite Hfound. simpl. rewrite Hother, Hpref. reflexivity.
Qed.

Lemma runAddCommand_calls_AddIssue args extra (w : W) :
  Join args " " <> "" ->
  exists t,
    traceOf (runAddCommand p args extra w) =
      LM (CallAddIssue (UserId extra) (Join args " ") "" "") :: t.
Proof.
  intros H. apply String.eqb_neq in H. unfold runAddCommand. rewrite H.
  all_paths; eexists; reflexivity.
Qed.

(** *** The claims on sending, adding and listing *)

(** C4, as the code has it. [SendIssue] is only invoked for a name that
    resolves to another user whose preference is not read as disabled.
    For a send command with a name and a message, where the name resolves
    to a user other than the sender: a preference read as disabled ends
    the command with the reply that the receiver is blocking requests, no
    List Manager operation at all and the world as it was; a read that
    fails is logged and [SendIssue] is invoked as if it were enabled. *)
Theorem send_asks_the_receiver_first (args : list string) (extra : CommandArgs) (w : W) :
  (In OpSendIssue (lmOps (traceOf (runSendCommand p args extra w))) ->
   exists userName receiver,
     (hd "" args = userName \/ hd "" args = String "@" userName) /\
     GetUserByUsername userName w = inl receiver /\
     Id receiver <> UserId extra /\
     getAllowIncomingTaskRequestsPreference (Id receiver) w <> (false, None))
  /\ (forall c rest0 userName receiver,
        (2 <= length args)%nat ->
        hd "" args = String c rest0 ->
        userName = (if Ascii.eqb c "@" then rest0 else String c rest0) ->
        GetUserByUsername userName w = inl receiver ->
        Id receiver <> UserId extra ->
        (getAllowIncomingTaskRequestsPreference (Id receiver) w = (false, None) ->
         runSendCommand p args extra w =
           (Ok (false, None), w,
            [replyTo p extra ("@" ++ userName ++ "은(는) Todo 요청을 차단 중입니다")]))
        /\ (forall b err,
              getAllowIncomingTaskRequestsPreference (Id receiver) w = (b, Some err) ->
              exists t,
                traceOf (runSendCommand p args extra w) =
                  EvLogError preferenceReadFailed [Error err]
                  :: LM (CallSendIssue (UserId extra) (Id receiver)
                           (Join (tl args) " ") "" "")
                  :: t)).
Proof.
  split; [apply runSendCommand_SendIssue_guard|].
  intros c rest0 userName receiver Hlen Hhd Hname Hfound Hother. split.
  - intros Hpref. eapply runSendCommand_blocked; eassumption.
  - intros b err Hpref. eapply runSendCommand_read_failed; eassumption.
Qed.

(** C7, as the code has it. An add command whose joined message is
    empty invokes no List Manager operation and leaves the world as it
    was; the user is asked for a task, and the handler returns no error
    and the flag [false], so that [ExecuteCommand] shows neither a user
    error nor an internal one. *)
Theorem add_without_message_asks_for_one (args : list string) (extra : CommandArgs)
    (w : W) :
  Join args " " = "" ->
  runAddCommand p args extra w =
    (Ok (false, None), w, [replyTo p extra "Task를 추가하세요."])
  /\ (nth_error (commandFields (Command extra)) 1 = Some "add" ->
      skipn 2 (commandFields (Command extra)) = args ->
      ExecuteCommand p extra w =
        (Ok (emptyCommandResponse, None), w,
         [EvTrack (trackCommand (UserId extra) "add");
          replyTo p extra "Task를 추가하세요."])).
Proof.
  intros Hempty. split; [apply runAddCommand_empty; exact Hempty|].
  intros Hword Hargs. unfold ExecuteCommand, bind.
  rewrite (selectHandler_word extra w (h:=runAddCommand p) Hword eq_refl).
  rewrite Hargs, (runAddCommand_empty args extra w Hempty). reflexivity.
Qed.

(** C8. The list command asks [GetIssueList] for the In list after the
    flag [in], the Out list after [out], the My list after [my] or no
    flag; any other flag is answered with the help and the flag of a user
    error (the error beside it is nil, so the dispatcher adds nothing),
    without a List Manager operation. The HTTP handler asks for the list
    its query value names in the same way, but every other value falls
    back to the My list. *)
Theorem list_flag_selects_the_list (flag : string) (rest : list string)
    (extra : CommandArgs) (r : Request) (w : W) :
  lmCalls (traceOf (runListCommand p ("in" :: rest) extra w))
    = [CallGetIssueList (UserId extra) InListKey]
  /\ lmCalls (traceOf (runListCommand p ("out" :: rest) extra w))
      = [CallGetIssueList (UserId extra) OutListKey]
  /\ lmCalls (traceOf (runListCommand p ("my" :: rest) extra w))
      = [CallGetIssueList (UserId extra) MyListKey]
  /\ lmCalls (traceOf (runListCommand p [] extra w))
      = [CallGetIssueList (UserId extra) MyListKey]
  /\ (flag <> "my" -> flag <> "in" -> flag <> "out" ->
      runListCommand p (flag :: rest) extra w =
        (Ok (true, None), w, [replyTo p extra getHelp]))
  /\ (Header_Get r "Mattermost-User-ID" <> "" ->
      lmCalls (traceOf (handleList r w)) =
        [CallGetIssueList (Header_Get r "Mattermost-User-ID")
           (listOfQuery (Query_Get r "list"))])
  /\ listOfQuery "in" = InListKey
  /\ listOfQuery "out" = OutListKey
  /\ (flag <> "in" -> flag <> "out" -> listOfQuery flag = MyListKey).
Proof.
  repeat split; try apply runListCommand_calls.
  - apply runListCommand_unknown.
  - apply handleList_calls.
  - intros Hin Hout. apply listOfQuery_fallback; assumption.
Qed.

(** C9. When the receiver that is found is the caller, the send command
    is the add command on the rest of the arguments, so that [AddIssue]
    is invoked for the caller and [SendIssue] is not; the HTTP handler of
    [/add] invokes [GetUserName] and [AddIssue] for the caller and nothing
    else of the List Manager. *)
Theorem sending_to_oneself_adds (args : list string) (extra : CommandArgs)
    (r : Request) (w : W) :
  (forall c rest0 userName receiver,
     (2 <= length args)%nat ->
     hd "" args = String c rest0 ->
     userName = (if Ascii.eqb c "@" then rest0 else String c rest0) ->
     GetUserByUsername userName w = inl receiver ->
     Id receiver = UserId extra ->
     runSendCommand p args extra w = runAddCommand p (tl args) extra w
     /\ ~ In OpSendIssue (lmOps (traceOf (runSendCommand p args extra w)))
     /\ (Join (tl args) " " <> "" ->
         exists t,
           traceOf (runSendCommand p args extra w) =
             LM (CallAddIssue (UserId extra) (Join (tl args) " ") "" "") :: t))
  /\ (forall req senderName w1 receiver,
        Header_Get r "Mattermost-User-ID" <> "" ->
        decodeAdd (Body_ r) = DecodedTo req ->
        add_SendTo req <> "" ->
        GetUserName (Header_Get r "Mattermost-User-ID") w = (senderName, w1) ->
        GetUserByUsername (add_SendTo req) w1 = inl receiver ->
        Id receiver = Header_Get r "Mattermost-User-ID" ->
        lmCalls (traceOf (handleAdd r w)) =
          [CallGetUserName (Header_Get r "Mattermost-User-ID");
           CallAddIssue (Header_Get r "Mattermost-User-ID") (add_Message req)
             (add_Description req) (add_PostID req)]).
Proof.
  split.
  - intros c rest0 userName receiver Hlen Hhd Hname Hfound Hself.
    pose proof (runSendCommand_self args extra w Hlen Hhd Hname Hfound Hself) as Heq.
    rewrite Heq. split; [reflexivity|]. split.
    + pose proof (runAddCommand_ops (tl args) extra w) as Hops. simpl in Hops.
      intros Hin.
      repeat destruct Hops as [Hops|Hops]; try contradiction;
        rewrite <- Hops in Hin; simpl in Hin; intuition discriminate.
    + apply runAddCommand_calls_AddIssue.
  - intros req senderName w1 receiver. apply handleAdd_self.
Qed.

(** *** The claim on the requests *)













(** *** plugin.go: the bodies of the answers *)










End Properties.

(** * The handlers at work on the canned world *)

Example commandFields_words :
  commandFields "  /todo   send @bob  buy milk " = ["/todo"; "send"; "@bob"; "buy"; "milk"]
  /\ commandFields "" = [""]
  /\ commandFields "/todo" = ["/todo"].
Proof. repeat split. Qed.

Example add_command_calls :
  lmCalls (traceOf (ExecuteCommand mockPlugin (aliceTypes "/todo add buy milk") mock0))
    = [CallAddIssue "u1" "buy milk" "" ""; CallGetIssueList "u1" ""].
Proof. reflexivity. Qed.

Example send_command_calls :
  lmCalls (traceOf (ExecuteCommand mockPlugin (aliceTypes "/todo send @bob buy milk") mock0))
    = [CallSendIssue "u1" "u2" "buy milk" "" ""; CallGetUserName "u1"].
Proof. reflexivity. Qed.

Example add_request_of_null_panics :
  ServeHTTP mockPlugin (alicePosts "/add" "null") mock0
    = (Panic nilDereference, mock0, [LM (CallGetUserName "u1")]).
Proof. reflexivity. Qed.

(** C1 at work: the empty My list of [mock0], and a store that is down. *)
Lemma pop_error_detected_by_text_witness :
  ExecuteCommand mockPlugin (aliceTypes "/todo pop") mock0 =
    (Ok (emptyCommandResponse, None), mock0,
     [EvTrack (trackCommand "u1" "pop"); LM (CallPopIssue "u1");
      replyTo mockPlugin (aliceTypes "/todo pop") "제거할 Todo가 없습니다."])
  /\ ExecuteCommand mockPlugin (aliceTypes "/todo pop") mockFailing =
      (Ok (emptyCommandResponse, None), mockFailing,
       [EvTrack (trackCommand "u1" "pop"); LM (CallPopIssue "u1");
        EvLogError "store is down" [];
        replyTo mockPlugin (aliceTypes "/todo pop") internalErrorReply]).
Proof.
  split.
  - exact (proj2 (@pop_error_detected_by_text Mock _ _ _ mockPlugin
                    (aliceTypes "/todo pop") mock0 mock0
                    (mkError "*errors.fundamental" "cannot find issue")
                    eq_refl eq_refl)).
  - exact (proj2 (@pop_error_detected_by_text Mock _ _ _ mockPlugin
                    (aliceTypes "/todo pop") mockFailing mockFailing storeDown
                    eq_refl eq_refl)).
Defined.


(** C3 does not hold as worded: the add command invokes two operations,
    [AddIssue] and then [GetIssueList]. *)
Lemma add_command_invokes_two_operations :
  ~ exactlyOneOperation
      (traceOf (ExecuteCommand mockPlugin (aliceTypes "/todo add buy milk") mock0)).
Proof. unfold exactlyOneOperation. vm_compute. discriminate. Qed.

(** And the settings command invokes none. *)
Example settings_command_invokes_no_operation :
  lmOps (traceOf (ExecuteCommand mockPlugin (aliceTypes "/todo settings summary on") mock0))
    = [].
Proof. reflexivity. Qed.

(** C4 does not hold as worded: Alice has turned incoming requests off
    and sends a task to herself. The preference is read as disabled for
    the receiver, yet the command adds the task to her list and does not
    tell her that the receiver is blocking. *)
Lemma blocking_sender_sends_to_herself :
  GetUserByUsername "alice" mockBlocking = inl alice
  /\ getAllowIncomingTaskRequestsPreference (Id alice) mockBlocking = (false, None)
  /\ mutations (traceOf (ExecuteCommand mockPlugin
                           (aliceTypes "/todo send @alice buy milk") mockBlocking))
     = [OpAddIssue]
  /\ traceOf (ExecuteCommand mockPlugin
                (aliceTypes "/todo send @alice buy milk") mockBlocking)
     = [EvTrack (trackCommand "u1" "send");
        LM (CallAddIssue "u1" "buy milk" "" "");
        EvTrack (trackAddIssue "u1" sourceCommand false);
        EvPublishWebSocketEvent "refresh" [""] "u1";
        LM (CallGetIssueList "u1" "");
        replyTo mockPlugin (aliceTypes "/todo send @alice buy milk")
          ("Todo가 추가되었습니다." ++ listHeaderMessage ++ "buy milk")].
Proof. repeat split. Qed.

(** C4 at work: Bob is blocking, and Bob's preference cannot be read. *)
Lemma send_asks_the_receiver_first_witness :
  runSendCommand mockPlugin ["@bob"; "buy"; "milk"]
      (aliceTypes "/todo send @bob buy milk") mockBlocking =
    (Ok (false, None), mockBlocking,
     [replyTo mockPlugin (aliceTypes "/todo send @bob buy milk")
        "@bob은(는) Todo 요청을 차단 중입니다"])
  /\ exists t,
       traceOf (runSendCommand mockPlugin ["@bob"; "buy"; "milk"]
                  (aliceTypes "/todo send @bob buy milk") mockUnreadable) =
         EvLogError preferenceReadFailed ["store is down"]
         :: LM (CallSendIssue "u1" "u2" "buy milk" "" "") :: t.
Proof.
  split.
  - refine (proj1 (proj2 (@send_asks_the_receiver_first Mock _ _ _ mockPlugin
                            ["@bob"; "buy"; "milk"]
                            (aliceTypes "/todo send @bob buy milk") mockBlocking)
                     "@"%char "bob" "bob" bob _ eq_refl eq_refl eq_refl _) eq_refl).
    + simpl; lia.
    + discriminate.
  - refine (proj2 (proj2 (@send_asks_the_receiver_first Mock _ _ _ mockPlugin
                            ["@bob"; "buy"; "milk"]
                            (aliceTypes "/todo send @bob buy milk") mockUnreadable)
                     "@"%char "bob" "bob" bob _ eq_refl eq_refl eq_refl _)
                  false (mkError "*model.AppError" "store is down") eq_refl).
    + simpl; lia.
    + discriminate.
Defined.




(** C7 does not hold as worded: the add command without a message is
    not shown as a user error. The handler returns no error at all, and
    the whole reply is the request for a task. *)
Lemma add_without_message_is_no_user_error :
  ~ surfacedAsUserError
      (resultOf (runAddCommand mockPlugin [] (aliceTypes "/todo add") mock0))
  /\ ExecuteCommand mockPlugin (aliceTypes "/todo add") mock0 =
     (Ok (emptyCommandResponse, None), mock0,
      [EvTrack (trackCommand "u1" "add");
       replyTo mockPlugin (aliceTypes "/todo add") "Task를 추가하세요."]).
Proof.
  split; [|reflexivity].
  intros [err Herr]. vm_compute in Herr. discriminate Herr.
Qed.

(** C7 at work. *)
Lemma add_without_message_asks_for_one_witness :
  runAddCommand mockPlugin [] (aliceTypes "/todo add") mock0 =
    (Ok (false, None), mock0,
     [replyTo mockPlugin (aliceTypes "/todo add") "Task를 추가하세요."])
  /\ ExecuteCommand mockPlugin (aliceTypes "/todo add") mock0 =
     (Ok (emptyCommandResponse, None), mock0,
      [EvTrack (trackCommand "u1" "add");
       replyTo mockPlugin (aliceTypes "/todo add") "Task를 추가하세요."]).
Proof.
  pose proof (@add_without_message_asks_for_one Mock _ _ _ mockPlugin []
                (aliceTypes "/todo add") mock0 eq_refl) as [Hrun Hcommand].
  split; [exact Hrun | exact (Hcommand eq_refl eq_refl)].
Defined.

(** C8 at work: an unknown flag on the command line and in the query. *)
Lemma list_flag_selects_the_list_witness :
  runListCommand mockPlugin ["bogus"] (aliceTypes "/todo list bogus") mock0 =
    (Ok (true, None), mock0, [replyTo mockPlugin (aliceTypes "/todo list bogus") getHelp])
  /\ lmCalls (traceOf (handleList (aliceLists "bogus") mock0))
     = [CallGetIssueList "u1" MyListKey]
  /\ lmCalls (traceOf (handleList (aliceLists "in") mock0))
     = [CallGetIssueList "u1" InListKey].
Proof.
  split; [|split].
  - destruct (@list_flag_selects_the_list Mock _ _ _ mockPlugin "bogus" []
                (aliceTypes "/todo list bogus") (aliceLists "bogus") mock0)
      as (_ & _ & _ & _ & Hhelp & _).
    apply Hhelp; discriminate.
  - destruct (@list_flag_selects_the_list Mock _ _ _ mockPlugin "bogus" []
                (aliceTypes "/todo list bogus") (aliceLists "bogus") mock0)
      as (_ & _ & _ & _ & _ & Hhttp & _).
    apply Hhttp; discriminate.
  - destruct (@list_flag_selects_the_list Mock _ _ _ mockPlugin "bogus" []
                (aliceTypes "/todo list bogus") (aliceLists "in") mock0)
      as (_ & _ & _ & _ & _ & Hhttp & _).
    apply Hhttp; discriminate.
Defined.

(** C9 at work: Alice sends a task to herself, by command and by request. *)
Lemma sending_to_oneself_adds_witness :
  traceOf (runSendCommand mockPlugin ["@alice"; "buy"; "milk"]
             (aliceTypes "/todo send @alice buy milk") mock0)
    = traceOf (runAddCommand mockPlugin ["buy"; "milk"]
                 (aliceTypes "/todo send @alice buy milk") mock0)
  /\ ~ In OpSendIssue
         (lmOps (traceOf (runSendCommand mockPlugin ["@alice"; "buy"; "milk"]
                            (aliceTypes "/todo send @alice buy milk") mock0)))
  /\ lmCalls (traceOf (handleAdd (alicePosts "/add" "milk alice") mock0))
     = [CallGetUserName "u1"; CallAddIssue "u1" "milk" "" ""].
Proof.
  destruct (@sending_to_oneself_adds Mock _ _ _ mockPlugin ["@alice"; "buy"; "milk"]
              (aliceTypes "/todo send @alice buy milk")
              (alicePosts "/add" "milk alice") mock0) as [Hcommand Hrequest].
  assert (Hlen : (2 <= length ["@alice"; "buy"; "milk"])%nat) by (simpl; lia).
  destruct (Hcommand "@"%char "alice" "alice" alice Hlen eq_refl eq_refl eq_refl eq_refl)
    as (Hsame & Hnot & _).
  split; [rewrite Hsame; reflexivity|]. split; [exact Hnot|].
  refine (Hrequest (Build_addAPIRequest "milk" "" "alice" "") "alice" mock0 alice
            _ eq_refl _ eq_refl eq_refl eq_refl); discriminate.
Defined.

(** C10 at work: a request to remove that names no user. *)
Lemma request_without_user_is_refused_witness :
  ServeHTTP mockPlugin (nobodyPosts "/remove" "i1") mockSent =
    (Ok tt, mockSent, [EvHttpError "Not authorized" 401]).
Proof.
  destruct (@request_without_user_is_refused Mock _ _ _ mockPlugin
              (nobodyPosts "/remove" "i1") mockSent eq_refl) as (_ & Hroute & _).
  apply Hroute. simpl. auto.
Defined.

(** * Further properties *)

(** ** The words of a command line *)

Lemma append_assoc_s (a b c : string) : (a ++ b) ++ c = a ++ (b ++ c).
Proof. induction a as [|x a IH]; simpl; [reflexivity | rewrite IH; reflexivity]. Qed.

Lemma append_nil_r_s (a : string) : a ++ "" = a.
Proof. induction a as [|x a IH]; simpl; [reflexivity | rewrite IH; reflexivity]. Qed.

Lemma revString_acc (s acc : string) : revString s acc = revString s "" ++ acc.
Proof.
  revert acc. induction s as [|c s IH]; intros acc; simpl; [reflexivity|].
  rewrite IH, (IH (String c "")), append_assoc_s. reflexivity.
Qed.

Lemma revString_append (a b : string) :
  revString (a ++ b) "" = revString b "" ++ revString a "".
Proof.
  induction a as [|x a IH]; simpl; [rewrite append_nil_r_s; reflexivity|].
  rewrite revString_acc, IH, (revString_acc a (String x "")), append_assoc_s.
  reflexivity.
Qed.

Lemma revString_involutive (s : string) : revString (revString s "") "" = s.
Proof.
  induction s as [|c s IH]; simpl; [reflexivity|].
  rewrite (revString_acc s (String c "")), revString_append, IH. reflexivity.
Qed.

Lemma revString_not_empty (s : string) : s <> "" -> revString s "" <> "".
Proof.
  destruct s as [|c s]; [congruence|]. intros _. simpl.
  rewrite revString_acc. destruct (revString s ""); discriminate.
Qed.

Lemma endsWithSpace_snoc (s : string) (c : ascii) :
  endsWithSpace (s ++ String c "") = isRegexpSpace c.
Proof.
  induction s as [|x s IH]; simpl; [reflexivity|].
  destruct (s ++ String c "") eqn:E; [destruct s; discriminate|].
  exact IH.
Qed.

Lemma endsWithSpace_revString (s : string) :
  endsWithSpace (revString s "") = startsWithSpace s.
Proof.
  destruct s as [|c s]; [reflexivity|]. simpl.
  rewrite revString_acc. apply endsWithSpace_snoc.
Qed.

Lemma startsWithSpace_append (a b : string) :
  a <> "" -> startsWithSpace (a ++ b) = startsWithSpace a.
Proof. destruct a; [congruence | reflexivity]. Qed.

Lemma endsWithSpace_tail (c : ascii) (r : string) :
  endsWithSpace (String c r) = false ->
  endsWithSpace r = false /\ (isRegexpSpace c = true -> r <> "").
Proof.
  simpl. destruct r as [|d r]; intros H.
  - split; [reflexivity|]. rewrite H. discriminate.
  - split; [exact H | discriminate].
Qed.

(** Cutting a rune shortens the string and leaves a suffix of it. *)
Lemma cutSpaceRune_suffix (s r : string) :
  cutSpaceRune s = Some r -> exists pre, pre <> "" /\ s = pre ++ r.
Proof.
  unfold cutSpaceRune.
  destruct s as [|c1 [|c2 [|c3 r3]]]; try discriminate;
    repeat match goal with
           | |- context [if ?b then _ else _] => destruct b
           end; intros [= <-]; try discriminate.
  all: first [ exists (String c1 ""); split; [discriminate | reflexivity]
             | exists (String c1 (String c2 "")); split; [discriminate | reflexivity]
             | exists (String c1 (String c2 (String c3 ""))); split;
               [discriminate | reflexivity] ].
Qed.

Lemma cutSpaceRuneRev_suffix (s r : string) :
  cutSpaceRuneRev s = Some r -> exists pre, pre <> "" /\ s = pre ++ r.
Proof.
  unfold cutSpaceRuneRev.
  destruct s as [|c1 [|c2 [|c3 r3]]]; try discriminate;
    repeat match goal with
           | |- context [if ?b then _ else _] => destruct b
           end; intros [= <-]; try discriminate.
  all: first [ exists (String c1 ""); split; [discriminate | reflexivity]
             | exists (String c1 (String c2 "")); split; [discriminate | reflexivity]
             | exists (String c1 (String c2 (String c3 ""))); split;
               [discriminate | reflexivity] ].
Qed.

Lemma length_append_s (a b : string) :
  String.length (a ++ b) = String.length a + String.length b.
Proof. induction a as [|x a IH]; simpl; [reflexivity | rewrite IH; reflexivity]. Qed.

Section Trim.
Variable cut : string -> option string.
Hypothesis cut_suffix : forall s r, cut s = Some r -> exists pre, pre <> "" /\ s = pre ++ r.

Lemma trimWith_fixed (n : nat) (s : string) :
  String.length s <= n -> cut (trimWith cut n s) = None.
Proof.
  revert s. induction n as [|n IH]; intros s Hlen; simpl.
  - destruct s; [|simpl in Hlen; lia].
    destruct (cut "") as [r|] eqn:E; [|reflexivity].
    destruct (cut_suffix E) as (pre & Hpre & Heq).
    destruct pre; [congruence | discriminate].
  - destruct (cut s) as [r|] eqn:E; [|exact E].
    apply IH. destruct (cut_suffix E) as (pre & Hpre & ->).
    rewrite length_append_s in Hlen. destruct pre; [congruence|]. simpl in Hlen. lia.
Qed.

Lemma trimWith_suffix (n : nat) (s : string) :
  exists pre, s = pre ++ trimWith cut n s.
Proof.
  revert s. induction n as [|n IH]; intros s; simpl; [exists ""; reflexivity|].
  destruct (cut s) as [r|] eqn:E; [|exists ""; reflexivity].
  destruct (cut_suffix E) as (pre & _ & ->).
  destruct (IH r) as (pre' & Hr). exists (pre ++ pre').
  rewrite append_assoc_s, <- Hr. reflexivity.
Qed.
End Trim.

Lemma cutSpaceRune_none (s : string) :
  cutSpaceRune s = None -> startsWithSpace s = false.
Proof.
  destruct s as [|c r]; [reflexivity|]. unfold cutSpaceRune, startsWithSpace, isRegexpSpace.
  destruct (((9 <=? nat_of_ascii c)%nat && (nat_of_ascii c <=? 13)%nat
             || (nat_of_ascii c =? 32)%nat)) eqn:E; [discriminate|].
  intros _.
  apply orb_false_iff in E. destruct E as [E1 E2].
  apply Nat.eqb_neq in E2.
  repeat (apply orb_false_iff; split); apply Nat.eqb_neq; try assumption;
    intros Heq; rewrite Heq in E1; discriminate.
Qed.

Lemma cutSpaceRuneRev_none (s : string) :
  cutSpaceRuneRev s = None -> startsWithSpace s = false.
Proof.
  destruct s as [|c r]; [reflexivity|]. unfold cutSpaceRuneRev.
  destruct (isSpaceRune (String c "")) eqn:E; [discriminate|]. intros _.
  apply (cutSpaceRune_none (String c "")).
  unfold isSpaceRune in E. unfold cutSpaceRune in *.
  destruct (((9 <=? nat_of_ascii c)%nat && (nat_of_ascii c <=? 13)%nat
             || (nat_of_ascii c =? 32)%nat)); [discriminate | reflexivity].
Qed.

Lemma TrimSpace_clean (s : string) :
  startsWithSpace (TrimSpace s) = false /\ endsWithSpace (TrimSpace s) = false.
Proof.
  unfold TrimSpace.
  set (l := trimWith cutSpaceRune (String.length s) s).
  set (r := trimWith cutSpaceRuneRev (String.length l) (revString l "")).
  assert (Hl : startsWithSpace l = false).
  { apply cutSpaceRune_none, (@trimWith_fixed cutSpaceRune (@cutSpaceRune_suffix)). lia. }
  assert (Hlen : String.length (revString l "") = String.length l).
  { clear. induction l as [|c l IH]; simpl; [reflexivity|].
    rewrite revString_acc, length_append_s, IH. simpl. lia. }
  assert (Hr : startsWithSpace r = false).
  { apply cutSpaceRuneRev_none, (@trimWith_fixed cutSpaceRuneRev (@cutSpaceRuneRev_suffix)). lia. }
  split; [|rewrite endsWithSpace_revString; exact Hr].
  destruct (@trimWith_suffix cutSpaceRuneRev (@cutSpaceRuneRev_suffix) (String.length l) (revString l ""))
    as (pre & Hpre).
  fold r in Hpre.
  assert (Heq : l = revString r "" ++ revString pre "").
  { rewrite <- revString_append, <- Hpre, revString_involutive. reflexivity. }
  destruct (revString r "") as [|c t] eqn:E; [reflexivity|].
  rewrite Heq in Hl. exact Hl.
Qed.

Lemma not_space_not_32 (c : ascii) :
  isRegexpSpace c = false -> (nat_of_ascii c =? 32)%nat = false.
Proof.
  unfold isRegexpSpace. intros H.
  repeat (apply orb_false_iff in H; destruct H as [H ?]). assumption.
Qed.

Lemma space_32 : (nat_of_ascii " " =? 32)%nat = true.
Proof. reflexivity. Qed.

Lemma fields_nonempty (t : string) :
  (forall cur, cur <> "" -> endsWithSpace t = false ->
     Forall (fun f => f <> "") (splitOnSpace (replaceSpaceRuns false t " ") cur))
  /\ (t <> "" -> endsWithSpace t = false ->
      Forall (fun f => f <> "") (splitOnSpace (replaceSpaceRuns true t " ") "")).
Proof.
  induction t as [|c r [IHword IHrun]].
  - split; [|congruence]. intros cur Hcur _. simpl.
    constructor; [apply revString_not_empty; exact Hcur | constructor].
  - split.
    + intros cur Hcur Hend. destruct (endsWithSpace_tail _ _ Hend) as [Hr Hne].
      cbn [replaceSpaceRuns]. destruct (isRegexpSpace c) eqn:Hc.
      * cbn [append splitOnSpace]. rewrite space_32.
        constructor; [apply revString_not_empty; exact Hcur|].
        apply IHrun; auto.
      * cbn [splitOnSpace]. rewrite (not_space_not_32 _ Hc).
        apply IHword; [discriminate | exact Hr].
    + intros _ Hend. destruct (endsWithSpace_tail _ _ Hend) as [Hr Hne].
      cbn [replaceSpaceRuns]. destruct (isRegexpSpace c) eqn:Hc.
      * apply IHrun; auto.
      * cbn [splitOnSpace]. rewrite (not_space_not_32 _ Hc).
        apply IHword; [discriminate | exact Hr].
Qed.

Lemma commandFields_nonempty (command : string) :
  commandFields command = [""] \/ Forall (fun f => f <> "") (commandFields command).
Proof.
  unfold commandFields, spaceRegExp_ReplaceAllString, Split_space.
  destruct (TrimSpace_clean command) as [Hstart Hend].
  destruct (TrimSpace command) as [|c r]; [left; reflexivity|]. right.
  simpl in Hstart.
  destruct (endsWithSpace_tail _ _ Hend) as [Hr _].
  cbn [replaceSpaceRuns]. rewrite Hstart. cbn [splitOnSpace].
  rewrite (not_space_not_32 _ Hstart).
  apply (proj1 (fields_nonempty r)); [discriminate | exact Hr].
Qed.

Lemma hasSpace_append (a b : string) : hasSpace (a ++ b) = hasSpace a || hasSpace b.
Proof.
  induction a as [|x a IH]; simpl; [reflexivity|].
  rewrite IH, orb_assoc. reflexivity.
Qed.

Lemma hasSpace_revString (s : string) : hasSpace (revString s "") = hasSpace s.
Proof.
  induction s as [|c s IH]; simpl; [reflexivity|].
  rewrite revString_acc, hasSpace_append, IH. simpl.
  rewrite orb_false_r. apply orb_comm.
Qed.

Lemma fields_without_space (t : string) :
  forall (inRun : bool) (cur : string),
    hasSpace cur = false ->
    Forall (fun f => hasSpace f = false) (splitOnSpace (replaceSpaceRuns inRun t " ") cur).
Proof.
  induction t as [|c r IH]; intros inRun cur Hcur.
  - simpl. constructor; [rewrite hasSpace_revString; exact Hcur | constructor].
  - cbn [replaceSpaceRuns]. destruct (isRegexpSpace c) eqn:Hc.
    + destruct inRun; [apply IH; exact Hcur|].
      cbn [append splitOnSpace]. rewrite space_32.
      constructor; [rewrite hasSpace_revString; exact Hcur | apply IH; reflexivity].
    + cbn [splitOnSpace]. rewrite (not_space_not_32 _ Hc).
      apply IH. simpl. rewrite Hc, Hcur. reflexivity.
Qed.

(** *** Blank lines *)

Lemma onlySpaceRunes_trim (n : nat) (s : string) :
  onlySpaceRunes n s = true -> trimWith cutSpaceRune n s = "".
Proof.
  revert s. induction n as [|n IH]; intros s; destruct s as [|c r];
    cbn [onlySpaceRunes trimWith]; try reflexivity; try discriminate.
  destruct (cutSpaceRune (String c r)) as [rest|]; [apply IH | discriminate].
Qed.

Lemma onlySpaceRunes_rest (n : nat) (s : string) :
  String.length s <= n -> onlySpaceRunes n s = false ->
  trimWith cutSpaceRune n s <> "".
Proof.
  revert s. induction n as [|n IH]; intros s Hlen; destruct s as [|c r];
    cbn [onlySpaceRunes trimWith]; try discriminate; try (simpl in Hlen; lia).
  destruct (cutSpaceRune (String c r)) as [rest|] eqn:E; [|discriminate].
  apply IH. destruct (@cutSpaceRune_suffix _ _ E) as (pre & Hpre & Heq).
  assert (Hl : String.length (String c r) = String.length pre + String.length rest)
    by (rewrite Heq; apply length_append_s).
  destruct pre; [congruence|]. simpl in Hl, Hlen. lia.
Qed.

Lemma cutSpaceRune_append (a b r : string) :
  cutSpaceRune a = Some r -> cutSpaceRune (a ++ b) = Some (r ++ b).
Proof.
  unfold cutSpaceRune.
  destruct a as [|c1 r1]; [discriminate|]. cbn [append].
  match goal with |- (if ?c then _ else _) = _ -> _ => destruct c end;
    [intros [= <-]; reflexivity|].
  destruct r1 as [|c2 r2]; [discriminate|]. cbn [append].
  match goal with |- (if ?c then _ else _) = _ -> _ => destruct c end;
    [intros [= <-]; reflexivity|].
  destruct r2 as [|c3 r3]; [discriminate|]. cbn [append].
  match goal with |- (if ?c then _ else _) = _ -> _ => destruct c end;
    [intros [= <-]; reflexivity | discriminate].
Qed.

Lemma isSpaceRune_cut (s : string) : isSpaceRune s = true -> cutSpaceRune s <> None.
Proof. unfold isSpaceRune. destruct (cutSpaceRune s); [discriminate | discriminate]. Qed.

(** A rune cut from the back that leaves nothing was the whole string. *)
Lemma cutSpaceRuneRev_whole (x : string) :
  cutSpaceRuneRev x = Some "" -> cutSpaceRune (revString x "") <> None.
Proof.
  unfold cutSpaceRuneRev.
  destruct x as [|c1 [|c2 [|c3 r3]]]; [discriminate| | |].
  - destruct (isSpaceRune (String c1 "")) eqn:E; [|discriminate].
    intros _. apply isSpaceRune_cut. exact E.
  - destruct (isSpaceRune (String c1 "")); [discriminate|].
    destruct (isSpaceRune (String c2 (String c1 ""))) eqn:E; [|discriminate].
    intros _. apply isSpaceRune_cut. exact E.
  - destruct (isSpaceRune (String c1 "")); [discriminate|].
    destruct (isSpaceRune (String c2 (String c1 ""))); [discriminate|].
    destruct (isSpaceRune (String c3 (String c2 (String c1 "")))) eqn:E; [|discriminate].
    intros [= ->]. apply isSpaceRune_cut. exact E.
Qed.

(** What is trimmed away from the back altogether began with a
    white-space rune. *)
Lemma trimWith_rev_all (n : nat) (x : string) :
  x <> "" -> trimWith cutSpaceRuneRev n x = "" ->
  cutSpaceRune (revString x "") <> None.
Proof.
  revert x. induction n as [|n IH]; intros x Hx; simpl; [congruence|].
  destruct (cutSpaceRuneRev x) as [y|] eqn:E; [|congruence].
  intros Hy. destruct y as [|c y'].
  - apply cutSpaceRuneRev_whole. exact E.
  - destruct (@cutSpaceRuneRev_suffix _ _ E) as (pre & _ & ->).
    rewrite revString_append.
    assert (Hcut : cutSpaceRune (revString (String c y') "") <> None)
      by (apply IH; [discriminate | exact Hy]).
    destruct (cutSpaceRune (revString (String c y') "")) as [r|] eqn:Er; [|congruence].
    rewrite (@cutSpaceRune_append _ _ _ Er). discriminate.
Qed.

Lemma TrimSpace_blank (s : string) : isBlank s = true -> TrimSpace s = "".
Proof.
  unfold isBlank, TrimSpace. intros H. rewrite (@onlySpaceRunes_trim _ _ H). reflexivity.
Qed.

Lemma TrimSpace_not_blank (s : string) : isBlank s = false -> TrimSpace s <> "".
Proof.
  unfold isBlank, TrimSpace. intros H.
  pose proof (@onlySpaceRunes_rest (String.length s) s (le_n _) H) as Hl.
  set (l := trimWith cutSpaceRune (String.length s) s) in *.
  assert (Hfix : cutSpaceRune l = None).
  { apply (@trimWith_fixed cutSpaceRune (@cutSpaceRune_suffix)). lia. }
  intros Hr.
  assert (Hall : trimWith cutSpaceRuneRev (String.length l) (revString l "") = "").
  { destruct (trimWith cutSpaceRuneRev (String.length l) (revString l ""));
      [reflexivity | exfalso; revert Hr; apply revString_not_empty; discriminate]. }
  apply (@trimWith_rev_all _ _ (@revString_not_empty _ Hl)) in Hall.
  rewrite revString_involutive in Hall. congruence.
Qed.

Lemma commandFields_of_text (command : string) :
  TrimSpace command <> "" -> Forall (fun f => f <> "") (commandFields command).
Proof.
  unfold commandFields, spaceRegExp_ReplaceAllString, Split_space.
  destruct (TrimSpace_clean command) as [Hstart Hend].
  destruct (TrimSpace command) as [|c r]; [congruence|]. intros _.
  simpl in Hstart.
  destruct (endsWithSpace_tail _ _ Hend) as [Hr _].
  cbn [replaceSpaceRuns]. rewrite Hstart. cbn [splitOnSpace].
  rewrite (not_space_not_32 _ Hstart).
  apply (proj1 (fields_nonempty r)); [discriminate | exact Hr].
Qed.

(** X1. The fields of a command line are words. When the line is empty
    or made of white-space runes only, the only field is the empty
    string; when it is not, every field is a word: none is empty and
    none holds a byte of the class [\s]. *)
Theorem commandFields_are_words (command : string) :
  (isBlank command = true -> commandFields command = [""])
  /\ (isBlank command = false -> Forall isWord (commandFields command)).
Proof.
  split.
  - intros H. unfold commandFields. rewrite (@TrimSpace_blank _ H). reflexivity.
  - intros H. unfold isWord.
    pose proof (@commandFields_of_text _ (@TrimSpace_not_blank _ H)) as Hall.
    assert (Hspace : Forall (fun f => hasSpace f = false) (commandFields command))
      by (apply fields_without_space; reflexivity).
    rewrite Forall_forall in *. intros f Hf. split; auto.
Qed.

Lemma Join_splitOnSpace (s cur : string) :
  Join (splitOnSpace s cur) " " = revString cur "" ++ s.
Proof.
  revert cur. induction s as [|c r IH]; intros cur.
  - simpl. rewrite append_nil_r_s. reflexivity.
  - cbn [splitOnSpace]. destruct (nat_of_ascii c =? 32)%nat eqn:Hc.
    + apply Nat.eqb_eq in Hc.
      assert (Hsp : c = " "%char).
      { rewrite <- (ascii_nat_embedding c), Hc. reflexivity. }
      subst c. pose proof (splitOnSpace_not_nil r "") as Hnil.
      pose proof (IH "") as Hrest.
      destruct (splitOnSpace r "") as [|f fs]; [congruence|].
      change (Join (revString cur "" :: f :: fs) " ")
        with (revString cur "" ++ " " ++ Join (f :: fs) " ").
      rewrite Hrest. reflexivity.
    + rewrite IH. simpl. rewrite (revString_acc cur (String c "")), append_assoc_s.
      reflexivity.
Qed.

Lemma Join_commandFields (command : string) :
  Join (commandFields command) " " = spaceRegExp_ReplaceAllString (TrimSpace command) " ".
Proof. unfold commandFields, Split_space. apply Join_splitOnSpace. Qed.

Lemma Join_words_not_empty (fields : list string) :
  fields <> [] -> Forall (fun f => f <> "") fields -> Join fields " " <> "".
Proof.
  destruct fields as [|f [|g fs]]; [congruence | |]; intros _ Hall;
    inversion Hall as [|? ? Hf _]; subst.
  - exact Hf.
  - change (Join (f :: g :: fs) " ") with (f ++ " " ++ Join (g :: fs) " ").
    destruct f; [congruence | discriminate].
Qed.

(** ** The chat command, beyond the claims *)

Section FurtherProperties.
Context {W : Type} {keys : ListKeys} {listManager : ListManager W} {host : Host W}.
Variable p : Plugin.

Local Arguments append : simpl never.
Local Arguments String.eqb : simpl never.
Local Arguments Ascii.eqb : simpl never.

Ltac branch :=
  match goal with
  | |- context [match ?x with _ => _ end] =>
    lazymatch x with
    | context [match _ with _ => _ end] => fail
    | _ => destruct x eqn:?
    end
  end.

Ltac every_path :=
  autounfold with plugin; unfold bind, ret, emit, ask, call, panic;
  repeat (simpl; branch); simpl.

(** What [selectHandler] ends with: the help after one tracking event,
    or one tracking event and a handler whose arguments are the fields
    after the second, none of them empty. *)
Lemma selectHandler_shape (args : CommandArgs) (w : W) :
  (exists command,
     selectHandler p args w =
       (Ok None, w, [EvTrack (trackCommand (UserId args) command); replyTo p args getHelp]))
  \/ (exists command h,
        selectHandler p args w =
          (Ok (Some (h, skipn 2 (commandFields (Command args)))), w,
           [EvTrack (trackCommand (UserId args) command)])
        /\ In h [runAddCommand p; runListCommand p; runPopCommand p;
                 runSendCommand p; runSettingsCommand p]
        /\ Forall (fun f => f <> "") (skipn 2 (commandFields (Command args)))).
Proof.
  unfold selectHandler.
  pose proof (commandFields_not_nil (Command args)) as Hnil.
  destruct (commandFields_nonempty (Command args)) as [Hone | Hall].
  - rewrite Hone. right. exists "", (runListCommand p). simpl. auto.
  - destruct (commandFields (Command args)) as [|f0 [|f1 fs]]; [congruence | |].
    + right. exists "", (runListCommand p). simpl. auto.
    + assert (Hfs : Forall (fun f => f <> "") fs).
      { inversion Hall as [|? ? _ H1]; subst. inversion H1; subst. assumption. }
      cbn [length Nat.eqb nth_error skipn]. unfold commandHandler.
      assert (Hrest : (if (2 <? S (S (length fs)))%nat then fs else []) = fs)
        by (destruct fs; reflexivity).
      rewrite Hrest.
      repeat match goal with
             | |- context [if ?b then _ else _] => destruct b
             end;
        solve [ left; eexists; reflexivity
              | right; do 2 eexists; split; [reflexivity|]; split;
                [simpl; auto 8 | exact Hfs] ].
Qed.

Lemma runAddCommand_returns args extra (w : W) :
  exists r w' t, runAddCommand p args extra w = (Ok r, w', t).
Proof. unfold runAddCommand. every_path; eauto. Qed.

Lemma runListCommand_returns args extra (w : W) :
  exists r w' t, runListCommand p args extra w = (Ok r, w', t).
Proof. unfold runListCommand. every_path; eauto. Qed.

Lemma runPopCommand_returns args extra (w : W) :
  exists r w' t, runPopCommand p args extra w = (Ok r, w', t).
Proof. unfold runPopCommand. every_path; eauto. Qed.

Lemma runSettingsCommand_returns args extra (w : W) :
  exists r w' t, runSettingsCommand p args extra w = (Ok r, w', t).
Proof. unfold runSettingsCommand. every_path; eauto. Qed.

Lemma runSendCommand_returns args extra (w : W) :
  Forall (fun f => f <> "") args ->
  exists r w' t, runSendCommand p args extra w = (Ok r, w', t).
Proof.
  intros Hargs. unfold runSendCommand.
  destruct (length args <? 2)%nat eqn:Hlen; [every_path; eauto|].
  destruct args as [|a rest]; [discriminate|].
  inversion Hargs as [|? ? Ha _]; subst. cbn [hd tl].
  destruct a as [|c a]; [congruence|].
  every_path; eauto.
  all: match goal with
       | H : runAddCommand _ ?a ?e ?w = _ |- _ =>
         destruct (runAddCommand_returns a e w) as (? & ? & ? & Hok);
         rewrite Hok in H; inversion H; subst; eauto
       end.
Qed.

Lemma handler_returns (h : Handler W) (rest : list string) (args : CommandArgs) (w : W) :
  In h [runAddCommand p; runListCommand p; runPopCommand p;
        runSendCommand p; runSettingsCommand p] ->
  Forall (fun f => f <> "") rest ->
  exists r w' t, h rest args w = (Ok r, w', t).
Proof.
  intros Hin Hrest. simpl in Hin.
  destruct Hin as [<- | [<- | [<- | [<- | [<- | []]]]]];
    auto using runAddCommand_returns, runListCommand_returns, runPopCommand_returns,
               runSendCommand_returns, runSettingsCommand_returns.
Qed.

(** X3. [ExecuteCommand] never panics and never returns an error of its
    own: on every command line and in every world it returns the empty
    response and a nil error; what goes wrong reaches the user as a post.
    (The List Manager and the server API are taken to return a value
    beside every nil error; the index [args[0][0]] of the send command is
    the one place where the handlers themselves could panic, and the
    fields of a command line are never empty there.) *)
Theorem ExecuteCommand_always_returns (args : CommandArgs) (w : W) :
  exists w' t, ExecuteCommand p args w = (Ok (emptyCommandResponse, None), w', t).
Proof.
  unfold ExecuteCommand, bind.
  destruct (selectHandler_shape args w)
    as [(command & ->) | (command & h & -> & Hin & Hrest)].
  - do 2 eexists. reflexivity.
  - destruct (handler_returns args w Hin Hrest) as ([flag err] & w1 & t1 & ->).
    cbn [fst snd].
    destruct (reportError_ops p args flag err w1) as (t2 & -> & _).
    do 2 eexists. reflexivity.
Qed.

(** X2. On a command line whose second field is [add] and that has more
    fields, the message handed to [AddIssue] is the rest of the line as it
    is after trimming and after every run of white space has become one
    space: the collapsed line is the first field, [ add ] and the message. *)
Theorem add_message_is_the_rest_of_the_line (args : CommandArgs) (w : W)
    (f0 : string) (rest : list string) :
  commandFields (Command args) = f0 :: "add" :: rest ->
  rest <> [] ->
  spaceRegExp_ReplaceAllString (TrimSpace (Command args)) " "
    = f0 ++ " add " ++ Join rest " "
  /\ Join rest " " <> ""
  /\ exists t,
       traceOf (ExecuteCommand p args w) =
         EvTrack (trackCommand (UserId args) "add")
         :: LM (CallAddIssue (UserId args) (Join rest " ") "" "") :: t.
Proof.
  intros Hfields Hrest.
  assert (Hmsg : Join rest " " <> "").
  { apply Join_words_not_empty; [exact Hrest|].
    destruct (commandFields_nonempty (Command args)) as [Hone | Hall];
      [rewrite Hfields in Hone; destruct rest; congruence|].
    rewrite Hfields in Hall.
    inversion Hall as [|? ? _ H1]; subst. inversion H1; subst. assumption. }
  split; [|split; [exact Hmsg|]].
  - rewrite <- Join_commandFields, Hfields.
    destruct rest as [|r rs]; [congruence | reflexivity].
  - unfold ExecuteCommand, bind.
    rewrite (selectHandler_word p args w (command:="add") (h:=runAddCommand p));
      [|rewrite Hfields; reflexivity | reflexivity].
    rewrite Hfields. cbn [skipn].
    destruct (runAddCommand_calls_AddIssue p rest args w Hmsg) as (t & Ht).
    destruct (runAddCommand p rest args w) as [[r w1] t1]. simpl in Ht. subst t1.
    destruct r as [[flag err]|msg].
    + cbn [fst snd].
      destruct (reportError_ops p args flag err w1) as (t2 & -> & _).
      eexists. reflexivity.
    + eexists. reflexivity.
Qed.

(** X4. A second field that is none of the five commands: the help is
    posted and that is all. The world is as it was, no List Manager
    operation is invoked, and telemetry gets [help] for the word [help]
    and [not found] for any other. *)
Theorem unknown_command_gets_the_help (args : CommandArgs) (w : W) (command : string) :
  nth_error (commandFields (Command args)) 1 = Some command ->
  ~ In command commandWords ->
  ExecuteCommand p args w =
    (Ok (emptyCommandResponse, None), w,
     [EvTrack (trackCommand (UserId args) (if command =? "help" then "help" else "not found"));
      replyTo p args getHelp]).
Proof.
  intros Hword Hnot. unfold ExecuteCommand, bind, selectHandler.
  destruct (commandFields (Command args)) as [|f0 [|f1 fs]]; try discriminate.
  simpl in Hword. injection Hword as ->.
  cbn [length Nat.eqb nth_error]. unfold commandHandler.
  unfold commandWords in Hnot.
  repeat match goal with
         | |- context [if ?x =? ?y then _ else _] =>
           lazymatch y with
           | "help" => fail
           | _ => destruct (String.eqb_spec x y) as [Heq|_];
                  [exfalso; apply Hnot; rewrite Heq; simpl; auto 8|]
           end
         end.
  destruct (String.eqb_spec command "help") as [->|_]; reflexivity.
Qed.

(** X5. A command line of one field, the bare [/todo]: it is the list
    command without a flag, so the My list of the caller is read, after
    telemetry has got the empty command name. *)
Theorem bare_command_lists_my_list (args : CommandArgs) (w : W) :
  length (commandFields (Command args)) = 1%nat ->
  exists t,
    traceOf (ExecuteCommand p args w) =
      EvTrack (trackCommand (UserId args) "")
      :: LM (CallGetIssueList (UserId args) MyListKey) :: t
    /\ lmCalls t = [].
Proof.
  intros Hone. unfold ExecuteCommand, bind, selectHandler. rewrite Hone.
  cbn [Nat.eqb]. unfold runListCommand. every_path; eexists; split; reflexivity.
Qed.

Lemma Forall_postedToCaller_app (args : CommandArgs) (t1 t2 : list Event) :
  Forall (postedToCaller p args) t1 -> Forall (postedToCaller p args) t2 ->
  Forall (postedToCaller p args) (t1 ++ t2).
Proof. intros H1 H2. apply Forall_app. split; assumption. Qed.

Ltac posted := repeat (constructor; simpl; auto).

Lemma runAddCommand_posts args extra (w : W) :
  Forall (postedToCaller p extra) (traceOf (runAddCommand p args extra w)).
Proof. unfold runAddCommand. every_path; posted. Qed.

Lemma runListCommand_posts args extra (w : W) :
  Forall (postedToCaller p extra) (traceOf (runListCommand p args extra w)).
Proof. unfold runListCommand. every_path; posted. Qed.

Lemma runPopCommand_posts args extra (w : W) :
  Forall (postedToCaller p extra) (traceOf (runPopCommand p args extra w)).
Proof. unfold runPopCommand. every_path; posted. Qed.

Lemma runSettingsCommand_posts args extra (w : W) :
  Forall (postedToCaller p extra) (traceOf (runSettingsCommand p args extra w)).
Proof. unfold runSettingsCommand. every_path; posted. Qed.

Lemma runSendCommand_posts args extra (w : W) :
  Forall (postedToCaller p extra) (traceOf (runSendCommand p args extra w)).
Proof.
  unfold runSendCommand. every_path; posted.
  all: match goal with
       | H : runAddCommand _ ?a ?e ?w = _ |- _ =>
         pose proof (runAddCommand_posts a e w) as Hadd; rewrite H in Hadd;
         exact Hadd
       end.
Qed.

Lemma reportError_posts (args : CommandArgs) (flag : bool) (err : option error) (w : W) :
  exists t, reportError p args flag err w = (Ok tt, w, t)
            /\ Forall (postedToCaller p args) t.
Proof.
  unfold reportError. destruct err as [e|]; [destruct flag|];
    eexists; (split; [reflexivity | posted]).
Qed.

(** X6. Every ephemeral post of a command is one of the bot to the user
    who typed it, in the channel where it was typed: no command writes
    into the view of another user or into another channel that way. *)
Theorem command_posts_only_to_its_caller (args : CommandArgs) (w : W) :
  Forall (postedToCaller p args) (traceOf (ExecuteCommand p args w)).
Proof.
  unfold ExecuteCommand, bind.
  destruct (selectHandler_shape args w)
    as [(command & ->) | (command & h & -> & Hin & _)]; [posted|].
  assert (Hh : Forall (postedToCaller p args)
                 (traceOf (h (skipn 2 (commandFields (Command args))) args w))).
  { simpl in Hin. destruct Hin as [<- | [<- | [<- | [<- | [<- | []]]]]];
      auto using runAddCommand_posts, runListCommand_posts, runPopCommand_posts,
                 runSendCommand_posts, runSettingsCommand_posts. }
  destruct (h (skipn 2 (commandFields (Command args))) args w) as [[r w1] t1].
  simpl in Hh. destruct r as [[flag err]|msg]; cbn [fst snd].
  - destruct (reportError_posts args flag err w1) as (t2 & -> & Ht2). simpl.
    constructor; [exact I|]. apply Forall_postedToCaller_app; [exact Hh|].
    rewrite app_nil_r. exact Ht2.
  - constructor; [exact I | exact Hh].
Qed.

(** X7. After a successful add the reply always shows the new task, and
    shows it once: when the list read back holds a task with the new ID
    it is shown as read, and otherwise the new task is appended to it (the
    list may lag behind the write). *)
Theorem added_issue_is_always_shown (args : list string) (extra : CommandArgs)
    (w w1 w2 : W) (newIssue : Issue) (issues : list ExtendedIssue) :
  Join args " " <> "" ->
  AddIssue (UserId extra) (Join args " ") "" "" w = (inl newIssue, w1) ->
  GetIssueList (UserId extra) MyListKey w1 = (inl issues, w2) ->
  exists shown,
    runAddCommand p args extra w =
      (Ok (false, None), w2,
       [LM (CallAddIssue (UserId extra) (Join args " ") "" "");
        EvTrack (trackAddIssue (UserId extra) sourceCommand false);
        EvPublishWebSocketEvent WSEventRefresh [MyListKey] (UserId extra);
        LM (CallGetIssueList (UserId extra) MyListKey);
        replyTo p extra
          ("Todo가 추가되었습니다." ++ listHeaderMessage ++ issuesListToString shown)])
    /\ existsb (fun issue => ID newIssue =? ID (Issue_ issue)) shown = true
    /\ (existsb (fun issue => ID newIssue =? ID (Issue_ issue)) issues = true ->
        shown = issues)
    /\ (existsb (fun issue => ID newIssue =? ID (Issue_ issue)) issues = false ->
        shown = (issues ++ [ExtendedIssue_of newIssue])%list).
Proof.
  intros Hmsg Hadd Hlist. apply String.eqb_neq in Hmsg.
  unfold runAddCommand. rewrite Hmsg.
  autounfold with plugin; unfold bind, emit, call, ret.
  rewrite Hadd. simpl. rewrite Hlist. simpl.
  destruct (existsb (fun issue => ID newIssue =? ID (Issue_ issue)) issues) eqn:Hin.
  - exists issues. repeat split; auto; discriminate.
  - exists (issues ++ [ExtendedIssue_of newIssue])%list.
    repeat split; auto; [|discriminate].
    rewrite existsb_app. simpl. rewrite String.eqb_refl, orb_true_r. reflexivity.
Qed.

(** X8. When the task was added but the list cannot be read back, the
    command still succeeds: the failure is logged, the reply is the plain
    confirmation, and no error is returned. *)
Theorem add_survives_a_failed_reading (args : list string) (extra : CommandArgs)
    (w w1 w2 : W) (newIssue : Issue) (err : error) :
  Join args " " <> "" ->
  AddIssue (UserId extra) (Join args " ") "" "" w = (inl newIssue, w1) ->
  GetIssueList (UserId extra) MyListKey w1 = (inr err, w2) ->
  runAddCommand p args extra w =
    (Ok (false, None), w2,
     [LM (CallAddIssue (UserId extra) (Join args " ") "" "");
      EvTrack (trackAddIssue (UserId extra) sourceCommand false);
      EvPublishWebSocketEvent WSEventRefresh [MyListKey] (UserId extra);
      LM (CallGetIssueList (UserId extra) MyListKey);
      EvLogError (Error err) [];
      replyTo p extra "Todo가 추가되었습니다."]).
Proof.
  intros Hmsg Hadd Hlist. apply String.eqb_neq in Hmsg.
  unfold runAddCommand. rewrite Hmsg.
  autounfold with plugin; unfold bind, emit, call, ret.
  rewrite Hadd. simpl. rewrite Hlist. reflexivity.
Qed.


(** X10. A send to another user who accepts requests. When [SendIssue]
    fails the error is returned as an internal one and nobody is notified.
    When it succeeds the Out list of the sender and the In list of the
    receiver are refreshed, the receiver gets a message that carries the
    task and the ID of the receiver's copy, and the sender a confirmation. *)
Theorem send_notifies_both_sides (args : list string) (extra : CommandArgs)
    (w w1 w2 : W) (c : ascii) (rest0 userName senderName : string) (receiver : User)
    (sent : string + error) :
  (2 <= length args)%nat ->
  hd "" args = String c rest0 ->
  userName = (if Ascii.eqb c "@" then rest0 else String c rest0) ->
  GetUserByUsername userName w = inl receiver ->
  Id receiver <> UserId extra ->
  getAllowIncomingTaskRequestsPreference (Id receiver) w = (true, None) ->
  SendIssue (UserId extra) (Id receiver) (Join (tl args) " ") "" "" w = (sent, w1) ->
  GetUserName (UserId extra) w1 = (senderName, w2) ->
  runSendCommand p args extra w =
    match sent with
    | inr err =>
      (Ok (false, Some err), w1,
       [LM (CallSendIssue (UserId extra) (Id receiver) (Join (tl args) " ") "" "")])
    | inl receiverIssueID =>
      (Ok (false, None), w2,
       [LM (CallSendIssue (UserId extra) (Id receiver) (Join (tl args) " ") "" "");
        EvTrack (trackSendIssue (UserId extra) sourceCommand false);
        EvPublishWebSocketEvent WSEventRefresh [OutListKey] (UserId extra);
        EvPublishWebSocketEvent WSEventRefresh [InListKey] (Id receiver);
        LM (CallGetUserName (UserId extra));
        EvPostBotCustomDM (Id receiver)
          ("@" ++ senderName ++ "(으)로부터 새 Todo 요청을 받았습니다")
          (Join (tl args) " ") receiverIssueID;
        replyTo p extra ("@" ++ userName ++ "에게 Todo를 보냈습니다.")])
    end.
Proof.
  intros Hlen Hhd -> Huser Hother Hpref Hsend Hname.
  unfold runSendCommand.
  apply Nat.ltb_ge in Hlen. rewrite Hlen, Hhd.
  apply String.eqb_neq in Hother.
  autounfold with plugin; unfold bind, ask, emit, ret, call.
  destruct (Ascii.eqb c "@"); rewrite Huser; simpl; rewrite Hother; simpl;
    rewrite Hpref; simpl; rewrite Hsend; destruct sent; simpl;
    rewrite ?Hname; reflexivity.
Qed.

(** X11. A send that names no message or an unknown user is no error:
    the caller gets a request for a valid user, with the help, the handler
    returns a nil error, no List Manager operation is invoked and the world
    is as it was. *)
Theorem send_without_receiver_asks_for_one (args : list string) (extra : CommandArgs)
    (w : W) :
  ((length args < 2)%nat ->
   runSendCommand p args extra w =
     (Ok (false, None), w,
      [replyTo p extra ("반드시 유효한 사용자와 메시지를 지정해야합니다." ++ nl ++ getHelp)]))
  /\ (forall c rest0 appErr,
        (2 <= length args)%nat ->
        hd "" args = String c rest0 ->
        GetUserByUsername (if Ascii.eqb c "@" then rest0 else String c rest0) w
          = inr appErr ->
        runSendCommand p args extra w =
          (Ok (false, None), w,
           [replyTo p extra ("유효한 사용자를 지정하세요." ++ nl ++ getHelp)])).
Proof.
  split.
  - intros Hlen. apply Nat.ltb_lt in Hlen. unfold runSendCommand. rewrite Hlen.
    reflexivity.
  - intros c rest0 appErr Hlen Hhd Huser. apply Nat.ltb_ge in Hlen.
    unfold runSendCommand. rewrite Hlen, Hhd. unfold bind, ask.
    destruct (Ascii.eqb c "@"); rewrite Huser; reflexivity.
Qed.

(** X12. The settings command writes a preference only when it has
    exactly two arguments, a known setting and [on] or [off]; it then
    writes that one preference of the caller, once, with the value asked
    for. On every other input nothing is written. *)
Theorem settings_writes_what_is_asked (args : list string) (extra : CommandArgs) (w : W) :
  preferenceWrites (traceOf (runSettingsCommand p args extra w)) =
    match args with
    | [setting; value] =>
      if setting =? "summary" then
        if value =? "on" then [EvSaveReminderPreference (UserId extra) true]
        else if value =? "off" then [EvSaveReminderPreference (UserId extra) false]
        else []
      else if setting =? "allow_incoming_task_requests" then
        if value =? "on"
        then [EvSaveAllowIncomingTaskRequestsPreference (UserId extra) true]
        else if value =? "off"
        then [EvSaveAllowIncomingTaskRequestsPreference (UserId extra) false]
        else []
      else []
    | _ => []
    end.
Proof.
  unfold runSettingsCommand.
  destruct args as [|setting [|value [|more rest]]];
    cbn [length Nat.ltb Nat.leb];
    every_path; reflexivity.
Qed.

(** X13. The errors of the settings command. With the flag of a user
    error the handler has done nothing: no event at all. With the flag of
    an internal error it has tried to write one preference, has logged the
    failure at debug level, and has posted no confirmation. A nil error
    never comes with the flag of a user error. *)
Theorem settings_errors_leave_no_reply (args : list string) (extra : CommandArgs)
    (w w' : W) (flag : bool) (err : option error) (t : list Event) :
  runSettingsCommand p args extra w = (Ok (flag, err), w', t) ->
  match err with
  | None => flag = false
  | Some e =>
    if flag then t = [] /\ w' = w
    else exists save msg cause,
           t = [save; EvLogDebug msg ["error"; cause]]
           /\ isPreferenceWrite save = true
  end.
Proof.
  unfold runSettingsCommand.
  destruct args as [|setting [|value [|more rest]]];
    cbn [length Nat.ltb Nat.leb];
    every_path; intros Hrun; inversion Hrun; subst; auto;
    do 3 eexists; split; reflexivity.
Qed.

(** ** The requests, beyond the claims *)

Ltac as_user Huser :=
  unfold userIDHeader in *; apply String.eqb_neq in Huser; rewrite Huser;
  autounfold with plugin; unfold bind, ret, emit, ask, call.

(** X14. A list request without the reminder (it was not asked for, the
    list is empty, or the user has turned it off): the list that
    [GetIssueList] returned is written as JSON, a write that fails is
    logged, and nothing else happens; if the list cannot be marshalled
    the answer is the status 500 with the JSON error object. *)
Theorem list_request_returns_the_list (r : Request) (w w1 : W)
    (issues : list ExtendedIssue) :
  Header_Get r "Mattermost-User-ID" <> "" ->
  GetIssueList (Header_Get r "Mattermost-User-ID") (listOfQuery (Query_Get r "list")) w
    = (inl issues, w1) ->
  (0 <? length issues)%nat && (Query_Get r "reminder" =? "true")
    && getReminderPreference (Header_Get r "Mattermost-User-ID") w1 = false ->
  handleList r w =
    (Ok tt, w1,
     LM (CallGetIssueList (Header_Get r "Mattermost-User-ID")
           (listOfQuery (Query_Get r "list")))
     :: match marshalIssues issues with
        | inl issuesJSON =>
          EvWrite (Bytes issuesJSON)
          :: match ResponseWriter_Write issuesJSON w1 with
             | Some e =>
               [EvLogError ("Unable to write json response err=" ++ Error e) []]
             | None => []
             end
        | inr err =>
          [EvLogError ("Unable marhsal issues list to json err=" ++ Error err) [];
           EvWriteHeader 500;
           EvWrite (ErrorJSON "Unable marhsal issues list to json" (Error err))]
        end).
Proof.
  intros Huser Hlist Hwanted. unfold handleList. as_user Huser.
  rewrite Hlist. simpl. unfold userIDHeader. rewrite Hwanted.
  destruct (marshalIssues issues) as [issuesJSON|err]; [|reflexivity].
  simpl. destruct (ResponseWriter_Write issuesJSON w1); reflexivity.
Qed.

(** X15. A list request with the reminder wanted. If the time of the
    last reminder cannot be read, the answer is the status 500 and the
    list is not returned. Otherwise, when the reminder is due, the bot
    sends the list to the user, telemetry is told, and the time is
    saved, a failure to save being logged only; due or not, the list is
    then written as without a reminder: as JSON, with the log line of a
    write that failed, or the answer 500 if it cannot be marshalled. *)
Theorem list_request_sends_the_reminder (r : Request) (w w1 w2 : W)
    (issues : list ExtendedIssue) (saved : option error) :
  Header_Get r "Mattermost-User-ID" <> "" ->
  GetIssueList (Header_Get r "Mattermost-User-ID") (listOfQuery (Query_Get r "list")) w
    = (inl issues, w1) ->
  (0 <? length issues)%nat && (Query_Get r "reminder" =? "true")
    && getReminderPreference (Header_Get r "Mattermost-User-ID") w1 = true ->
  saveLastReminderTimeForUser (Header_Get r "Mattermost-User-ID") w1 = (saved, w2) ->
  handleList r w =
    match getLastReminderTimeForUser (Header_Get r "Mattermost-User-ID") w1 with
    | inr err =>
      (Ok tt, w1,
       LM (CallGetIssueList (Header_Get r "Mattermost-User-ID")
             (listOfQuery (Query_Get r "list")))
       :: operationFailed "Unable to send reminder err=" "Unable to send reminder" err)
    | inl lastReminderAt =>
      if reminderIsDue w1 lastReminderAt (Header_Get r "X-Timezone-Offset")
      then
        (Ok tt, w2,
         [LM (CallGetIssueList (Header_Get r "Mattermost-User-ID")
                (listOfQuery (Query_Get r "list")));
          EvPostBotDM (Header_Get r "Mattermost-User-ID")
            ("일일 리마인더:" ++ nl ++ nl ++ issuesListToString issues);
          EvTrack (trackDailySummary (Header_Get r "Mattermost-User-ID"));
          EvSaveLastReminderTime (Header_Get r "Mattermost-User-ID")]
         ++ match saved with
            | Some e =>
              [EvLogError ("Unable to save last reminder for user err=" ++ Error e) []]
            | None => []
            end
         ++ listAnswer issues w2)%list
      else
        (Ok tt, w1,
         LM (CallGetIssueList (Header_Get r "Mattermost-User-ID")
               (listOfQuery (Query_Get r "list")))
         :: listAnswer issues w1)
    end.
Proof.
  intros Huser Hlist Hwanted Hsave. unfold handleList, listAnswer. as_user Huser.
  rewrite Hlist. simpl. unfold userIDHeader in *. rewrite Hwanted.
  destruct (getLastReminderTimeForUser _ w1) as [last|err]; simpl; [|reflexivity].
  destruct (reminderIsDue w1 last _); simpl.
  - rewrite Hsave. destruct saved; simpl;
      (destruct (marshalIssues issues) as [issuesJSON|err]; [|reflexivity]);
      simpl; destruct (ResponseWriter_Write issuesJSON w2); reflexivity.
  - destruct (marshalIssues issues) as [issuesJSON|err]; [|reflexivity].
    simpl. destruct (ResponseWriter_Write issuesJSON w1); reflexivity.
Qed.

(** X16. The daily reminder is the only direct message of a list
    request, and it is sent to the user of the request only when the
    query asks for it with [reminder=true], the list that was read is not
    empty, the user has the reminder on, and it is due. *)
Theorem reminder_is_sent_only_when_due (r : Request) (w : W) (e : Event) :
  In e (botDMs (traceOf (handleList r w))) ->
  Query_Get r "reminder" = "true"
  /\ exists issues w1 lastReminderAt,
       GetIssueList (Header_Get r "Mattermost-User-ID")
         (listOfQuery (Query_Get r "list")) w = (inl issues, w1)
       /\ issues <> []
       /\ getReminderPreference (Header_Get r "Mattermost-User-ID") w1 = true
       /\ getLastReminderTimeForUser (Header_Get r "Mattermost-User-ID") w1
          = inl lastReminderAt
       /\ reminderIsDue w1 lastReminderAt (Header_Get r "X-Timezone-Offset") = true
       /\ e = EvPostBotDM (Header_Get r "Mattermost-User-ID")
                ("일일 리마인더:" ++ nl ++ nl ++ issuesListToString issues).
Proof.
  unfold handleList, userIDHeader. every_path; intros Hin; simpl in Hin;
    repeat destruct Hin as [Hin|Hin]; try contradiction; subst e.
  all: match goal with
       | H : _ && _ && _ = true |- _ =>
         apply andb_true_iff in H; destruct H as [H Hpref];
         apply andb_true_iff in H; destruct H as [Hlen Hquery];
         apply String.eqb_eq in Hquery
       end.
  all: split; [exact Hquery|].
  all: do 3 eexists; split; [reflexivity|].
  all: split; [intros ->; discriminate|].
  all: repeat split; eauto.
Qed.

(** X17. A successful edit refreshes the list of the caller that held
    the task. When the task has a foreign user, the lists of that user
    are refreshed (My and In when the caller's list was Out, otherwise
    Out) and the user is sent the old and the new message; when it has
    none, the display name is not even looked up. *)
Theorem edit_tells_the_other_side (r : Request) (w w1 w2 : W) (req : editAPIRequest)
    (foreignUserID list oldMessage userName : string) :
  Header_Get r "Mattermost-User-ID" <> "" ->
  decodeEdit (Body_ r) = DecodedTo req ->
  EditIssue (Header_Get r "Mattermost-User-ID") (edit_ID req) (edit_Message req)
    (edit_Description req) w = (inl (foreignUserID, list, oldMessage), w1) ->
  GetUserName (Header_Get r "Mattermost-User-ID") w1 = (userName, w2) ->
  handleEdit r w =
    if foreignUserID =? "" then
      (Ok tt, w1,
       [LM (CallEditIssue (Header_Get r "Mattermost-User-ID") (edit_ID req)
              (edit_Message req) (edit_Description req));
        EvTrack (trackEditIssue (Header_Get r "Mattermost-User-ID"));
        EvPublishWebSocketEvent WSEventRefresh [list] (Header_Get r "Mattermost-User-ID")])
    else
      (Ok tt, w2,
       [LM (CallEditIssue (Header_Get r "Mattermost-User-ID") (edit_ID req)
              (edit_Message req) (edit_Description req));
        EvTrack (trackEditIssue (Header_Get r "Mattermost-User-ID"));
        EvPublishWebSocketEvent WSEventRefresh [list] (Header_Get r "Mattermost-User-ID");
        EvPublishWebSocketEvent WSEventRefresh
          (if list =? OutListKey then [MyListKey; InListKey] else [OutListKey])
          foreignUserID;
        LM (CallGetUserName (Header_Get r "Mattermost-User-ID"));
        EvPostBotDM foreignUserID
          ("@" ++ userName ++ "이(가) Todo를 수정했습니다." ++ nl ++ "수정 전:" ++ nl
             ++ oldMessage ++ nl ++ "수정 후:" ++ nl ++ edit_Message req)]).
Proof.
  intros Huser Hreq Hop Hname. unfold handleEdit. rewrite Hreq. as_user Huser.
  rewrite Hop. simpl. destruct (foreignUserID =? ""); simpl; [reflexivity|].
  rewrite Hname. reflexivity.
Qed.

(** X18. A change of assignment to nobody or to an unknown name invokes
    no List Manager operation and leaves the world as it was: an empty
    [send_to] is answered 400 [No user specified], a name the directory
    does not know 404 with the JSON error object. The handler of [/add]
    answers the same unknown name with 500. *)
Theorem reassignment_needs_a_known_user (r : Request) (w : W) :
  Header_Get r "Mattermost-User-ID" <> "" ->
  (forall req,
     decodeChangeAssignment (Body_ r) = DecodedTo req ->
     (change_SendTo req = "" ->
      handleChangeAssignment r w = (Ok tt, w, [EvHttpError "No user specified" 400]))
     /\ (forall appErr,
           change_SendTo req <> "" ->
           GetUserByUsername (change_SendTo req) w = inr appErr ->
           handleChangeAssignment r w =
             (Ok tt, w,
              [EvLogError ("username not valid, err=" ++ Error appErr) [];
               EvWriteHeader 404;
               EvWrite (ErrorJSON "Unable to find user" (Error appErr))])))
  /\ (forall req senderName w1 appErr,
        decodeAdd (Body_ r) = DecodedTo req ->
        add_SendTo req <> "" ->
        GetUserName (Header_Get r "Mattermost-User-ID") w = (senderName, w1) ->
        GetUserByUsername (add_SendTo req) w1 = inr appErr ->
        handleAdd r w =
          (Ok tt, w1,
           [LM (CallGetUserName (Header_Get r "Mattermost-User-ID"));
            EvLogError ("username not valid, err=" ++ Error appErr) [];
            EvWriteHeader 500;
            EvWrite (ErrorJSON "Unable to find user" (Error appErr))])).
Proof.
  intros Huser. split.
  - intros req Hreq. unfold handleChangeAssignment. rewrite Hreq. as_user Huser. split.
    + intros ->. reflexivity.
    + intros appErr Hto Hfound. apply String.eqb_neq in Hto. rewrite Hto, Hfound.
      reflexivity.
  - intros req senderName w1 appErr Hreq Hto Hname Hfound.
    unfold handleAdd. rewrite Hreq. apply String.eqb_neq in Hto. rewrite Hto.
    as_user Huser. rewrite Hname. simpl. rewrite Hfound. reflexivity.
Qed.

(** X19. A successful change of assignment refreshes the My and Out
    lists of the caller; the new owner, unless it is the caller, has the
    In list refreshed and gets the task in a message; the previous owner,
    when [ChangeAssignment] names one, has the In and My lists refreshed
    and is told of the removal. *)
Theorem reassignment_tells_both_owners (r : Request) (w w1 w2 : W)
    (req : changeAssignmentAPIRequest) (receiver : User)
    (issueMessage oldOwner userName : string) :
  Header_Get r "Mattermost-User-ID" <> "" ->
  decodeChangeAssignment (Body_ r) = DecodedTo req ->
  change_SendTo req <> "" ->
  GetUserByUsername (change_SendTo req) w = inl receiver ->
  ChangeAssignment (change_ID req) (Header_Get r "Mattermost-User-ID") (Id receiver) w
    = (inl (issueMessage, oldOwner), w1) ->
  GetUserName (Header_Get r "Mattermost-User-ID") w1 = (userName, w2) ->
  handleChangeAssignment r w =
    (Ok tt, w2,
     [LM (CallChangeAssignment (change_ID req) (Header_Get r "Mattermost-User-ID")
            (Id receiver));
      EvTrack (trackChangeAssignment (Header_Get r "Mattermost-User-ID"));
      EvPublishWebSocketEvent WSEventRefresh [MyListKey; OutListKey]
        (Header_Get r "Mattermost-User-ID");
      LM (CallGetUserName (Header_Get r "Mattermost-User-ID"))]
     ++ (if Id receiver =? Header_Get r "Mattermost-User-ID" then []
         else [EvPublishWebSocketEvent WSEventRefresh [InListKey] (Id receiver);
               EvPostBotCustomDM (Id receiver)
                 ("@" ++ userName ++ "(으)로부터 새 Todo를 받았습니다.")
                 issueMessage (change_ID req)])
     ++ (if oldOwner =? "" then []
         else [EvPublishWebSocketEvent WSEventRefresh [InListKey; MyListKey] oldOwner;
               EvPostBotDM oldOwner
                 ("@" ++ userName ++ "(이)가 다음 Todo 담당자에서 나를 제외시켰습니다:" ++ nl
                    ++ issueMessage)]))%list.
Proof.
  intros Huser Hreq Hto Hfound Hop Hname. unfold handleChangeAssignment. rewrite Hreq.
  apply String.eqb_neq in Hto. rewrite Hto. as_user Huser.
  rewrite Hfound. simpl. rewrite Hop. simpl. rewrite Hname. simpl.
  destruct (Id receiver =? Header_Get r "Mattermost-User-ID"), (oldOwner =? "");
    reflexivity.
Qed.

(** X20. A successful accept always notifies: the My and In lists of
    the caller and the Out list of the sender are refreshed and the sender
    gets a message, whatever [AcceptIssue] returned as the sender; unlike
    the other handlers this one does not look whether it is empty. *)
Theorem accept_always_tells_the_sender (r : Request) (w w1 w2 : W) (req : idAPIRequest)
    (todoMessage sender userName : string) :
  Header_Get r "Mattermost-User-ID" <> "" ->
  decodeID (Body_ r) = DecodedTo req ->
  AcceptIssue (Header_Get r "Mattermost-User-ID") (req_ID req) w
    = (inl (todoMessage, sender), w1) ->
  GetUserName (Header_Get r "Mattermost-User-ID") w1 = (userName, w2) ->
  handleAccept r w =
    (Ok tt, w2,
     [LM (CallAcceptIssue (Header_Get r "Mattermost-User-ID") (req_ID req));
      EvTrack (trackAcceptIssue (Header_Get r "Mattermost-User-ID"));
      EvPublishWebSocketEvent WSEventRefresh [MyListKey; InListKey]
        (Header_Get r "Mattermost-User-ID");
      EvPublishWebSocketEvent WSEventRefresh [OutListKey] sender;
      LM (CallGetUserName (Header_Get r "Mattermost-User-ID"));
      EvPostBotDM sender
        ("@" ++ userName ++ "이(가) 내가 보낸 Todo를 수락했습니다: " ++ todoMessage)]).
Proof.
  intros Huser Hreq Hop Hname. unfold handleAccept. rewrite Hreq. as_user Huser.
  rewrite Hop. simpl. rewrite Hname. reflexivity.
Qed.


(** X22. A successful bump is counted by telemetry; the receiver, when
    [BumpIssue] names one, has the In list refreshed and gets the task
    again with the ID of the receiver's copy, and without a receiver the
    display name is not looked up and nobody is told. *)
Theorem bump_tells_the_receiver (r : Request) (w w1 w2 : W) (req : idAPIRequest)
    (todoMessage foreignUser foreignIssueID userName : string) :
  Header_Get r "Mattermost-User-ID" <> "" ->
  decodeID (Body_ r) = DecodedTo req ->
  BumpIssue (Header_Get r "Mattermost-User-ID") (req_ID req) w
    = (inl (todoMessage, foreignUser, foreignIssueID), w1) ->
  GetUserName (Header_Get r "Mattermost-User-ID") w1 = (userName, w2) ->
  handleBump r w =
    if foreignUser =? "" then
      (Ok tt, w1,
       [LM (CallBumpIssue (Header_Get r "Mattermost-User-ID") (req_ID req));
        EvTrack (trackBumpIssue (Header_Get r "Mattermost-User-ID"))])
    else
      (Ok tt, w2,
       [LM (CallBumpIssue (Header_Get r "Mattermost-User-ID") (req_ID req));
        EvTrack (trackBumpIssue (Header_Get r "Mattermost-User-ID"));
        EvPublishWebSocketEvent WSEventRefresh [InListKey] foreignUser;
        LM (CallGetUserName (Header_Get r "Mattermost-User-ID"));
        EvPostBotCustomDM foreignUser
          ("@" ++ userName ++ "이(가) 내가 받은 Todo를 강조했습니다.")
          todoMessage foreignIssueID]).
Proof.
  intros Huser Hreq Hop Hname. unfold handleBump. rewrite Hreq. as_user Huser.
  rewrite Hop. simpl. destruct (foreignUser =? ""); simpl; [reflexivity|].
  rewrite Hname. reflexivity.
Qed.

(** X23. A body that does not decode is answered alike by the eight
    handlers that read one: the failure is logged, the status is 400 and
    the body is the JSON error object with the text of the decoding
    error; no List Manager operation is invoked, not even the look-up of
    a name, and the world is as it was. *)
Theorem undecodable_body_is_a_bad_request (r : Request) (w : W) (err : error) :
  Header_Get r "Mattermost-User-ID" <> "" ->
  (decodeAdd (Body_ r) = DecodeError err -> handleAdd r w = (Ok tt, w, badRequest err))
  /\ (decodeEdit (Body_ r) = DecodeError err ->
      handleEdit r w = (Ok tt, w, badRequest err))
  /\ (decodeChangeAssignment (Body_ r) = DecodeError err ->
      handleChangeAssignment r w = (Ok tt, w, badRequest err))
  /\ (decodeTelemetry (Body_ r) = DecodeError err ->
      handleTelemetry r w = (Ok tt, w, badRequest err))
  /\ (decodeID (Body_ r) = DecodeError err ->
      Forall (fun handler : Request -> M W unit =>
                handler r w = (Ok tt, w, badRequest err))
        [handleAccept; handleComplete; handleRemove; handleBump]).
Proof.
  intros Huser. unfold userIDHeader in *. apply String.eqb_neq in Huser.
  repeat split; intros Hreq;
    [unfold handleAdd | unfold handleEdit | unfold handleChangeAssignment
    | unfold handleTelemetry | ]; unfold userIDHeader;
    try (rewrite Huser, Hreq; reflexivity).
  repeat (apply Forall_cons;
          [cbv delta [handleAccept handleComplete handleRemove handleBump] beta;
           unfold userIDHeader; rewrite Huser, Hreq; reflexivity|]).
  apply Forall_nil.
Qed.

(** X24. A body that decodes to the nil pointer (the JSON [null]) makes
    every handler that reads one panic on the first field it reads. No
    list has been changed by then: [/add] has looked up the display name
    of the caller, the others have done nothing. *)
Theorem null_body_panics_before_any_change (r : Request) (w w1 : W)
    (senderName : string) :
  Header_Get r "Mattermost-User-ID" <> "" ->
  GetUserName (Header_Get r "Mattermost-User-ID") w = (senderName, w1) ->
  (decodeAdd (Body_ r) = DecodedNil ->
   handleAdd r w =
     (Panic nilDereference, w1, [LM (CallGetUserName (Header_Get r "Mattermost-User-ID"))]))
  /\ (decodeEdit (Body_ r) = DecodedNil ->
      handleEdit r w = (Panic nilDereference, w, []))
  /\ (decodeChangeAssignment (Body_ r) = DecodedNil ->
      handleChangeAssignment r w = (Panic nilDereference, w, []))
  /\ (decodeTelemetry (Body_ r) = DecodedNil ->
      handleTelemetry r w = (Panic nilDereference, w, []))
  /\ (decodeID (Body_ r) = DecodedNil ->
      Forall (fun handler : Request -> M W unit =>
                handler r w = (Panic nilDereference, w, []))
        [handleAccept; handleComplete; handleRemove; handleBump]).
Proof.
  intros Huser Hname. unfold userIDHeader in *. apply String.eqb_neq in Huser.
  repeat split; intros Hreq;
    [unfold handleAdd | unfold handleEdit | unfold handleChangeAssignment
    | unfold handleTelemetry | ]; unfold userIDHeader;
    try (rewrite Huser, Hreq; reflexivity).
  - rewrite Huser, Hreq. unfold listManager_GetUserName, bind, emit, call, panic.
    rewrite Hname. reflexivity.
  - repeat (apply Forall_cons;
            [cbv delta [handleAccept handleComplete handleRemove handleBump] beta;
             unfold userIDHeader; rewrite Huser, Hreq; reflexivity|]).
    apply Forall_nil.
Qed.



(** X27. An answer with a status line is never accompanied by a
    notification: on every path but [/list], a run that writes a status
    has sent no direct message, no websocket event and no reply in a
    thread. (On [/list] the reminder may have gone out before the list
    fails to marshal.) *)
Theorem error_answers_notify_nobody (r : Request) (w : W) :
  URL_Path r <> "/list" ->
  existsb isWriteHeader (traceOf (ServeHTTP p r w)) = true ->
  notifications (traceOf (ServeHTTP p r w)) = [].
Proof.
  intros Hlist. apply String.eqb_neq in Hlist. unfold ServeHTTP. rewrite Hlist.
  repeat match goal with
         | |- context [if ?x =? ?y then _ else _] => destruct (x =? y)
         end.
  all: unfold handleAdd, handleRemove, handleComplete, handleAccept, handleBump,
         handleTelemetry, handleConfig, handleEdit, handleChangeAssignment;
       every_path; intros Hstatus; try discriminate; reflexivity.
Qed.

End FurtherProperties.

(** * The further properties at work on the canned worlds *)

(** X1 at work: lines of spaces, of a tab and a no-break space, and a
    line with words. *)
Example blank_and_other_lines :
  isBlank "" = true
  /\ isBlank "   " = true
  /\ isBlank (String "009"%char (String "194"%char (String "160"%char " "))) = true
  /\ isBlank "  /todo   list  " = false
  /\ commandFields "   " = [EmptyString]
  /\ commandFields "  /todo   list  " = ["/todo"; "list"].
Proof. repeat split. Qed.

(** X2 at work. *)
Lemma add_message_is_the_rest_of_the_line_witness :
  spaceRegExp_ReplaceAllString (TrimSpace "/todo  add   buy  milk ") " "
    = "/todo add buy milk"
  /\ exists t,
       traceOf (ExecuteCommand mockPlugin (aliceTypes "/todo  add   buy  milk ") mock0) =
         EvTrack (trackCommand "u1" "add") :: LM (CallAddIssue "u1" "buy milk" "" "") :: t.
Proof.
  destruct (@add_message_is_the_rest_of_the_line Mock _ _ _ mockPlugin
              (aliceTypes "/todo  add   buy  milk ") mock0 "/todo" ["buy"; "milk"]
              eq_refl) as (Hline & _ & Hrun); [discriminate|].
  split; [exact Hline | exact Hrun].
Defined.

(** X4 at work: an unknown word, and the word [help]. *)
Lemma unknown_command_gets_the_help_witness :
  ExecuteCommand mockPlugin (aliceTypes "/todo frobnicate now") mock0 =
    (Ok (emptyCommandResponse, None), mock0,
     [EvTrack (trackCommand "u1" "not found");
      replyTo mockPlugin (aliceTypes "/todo frobnicate now") getHelp])
  /\ ExecuteCommand mockPlugin (aliceTypes "/todo help") mock0 =
     (Ok (emptyCommandResponse, None), mock0,
      [EvTrack (trackCommand "u1" "help");
       replyTo mockPlugin (aliceTypes "/todo help") getHelp]).
Proof.
  split.
  - refine (@unknown_command_gets_the_help Mock _ _ _ mockPlugin
              (aliceTypes "/todo frobnicate now") mock0 "frobnicate" eq_refl _).
    unfold commandWords. simpl. intuition discriminate.
  - refine (@unknown_command_gets_the_help Mock _ _ _ mockPlugin
              (aliceTypes "/todo help") mock0 "help" eq_refl _).
    unfold commandWords. simpl. intuition discriminate.
Defined.

(** X5 at work. *)
Lemma bare_command_lists_my_list_witness :
  exists t,
    traceOf (ExecuteCommand mockPlugin (aliceTypes " /todo  ") mock0) =
      EvTrack (trackCommand "u1" "") :: LM (CallGetIssueList "u1" "") :: t
    /\ lmCalls t = [].
Proof.
  exact (@bare_command_lists_my_list Mock _ _ _ mockPlugin (aliceTypes " /todo  ") mock0
           eq_refl).
Defined.

(** X7 at work: the list read back lags behind, and it does not. *)
Lemma added_issue_is_always_shown_witness :
  (exists shown,
     runAddCommand mockPlugin ["buy"; "milk"] (aliceTypes "/todo add buy milk") mock0 =
       (Ok (false, None), mock0,
        [LM (CallAddIssue "u1" "buy milk" "" "");
         EvTrack (trackAddIssue "u1" sourceCommand false);
         EvPublishWebSocketEvent "refresh" [""] "u1";
         LM (CallGetIssueList "u1" "");
         replyTo mockPlugin (aliceTypes "/todo add buy milk")
           ("Todo가 추가되었습니다." ++ listHeaderMessage ++ issuesListToString shown)])
     /\ shown = [ExtendedIssue_of mockIssue])
  /\ (exists shown,
        runAddCommand mockPlugin ["buy"; "milk"] (aliceTypes "/todo add buy milk")
          mockListed =
          (Ok (false, None), mockListed,
           [LM (CallAddIssue "u1" "buy milk" "" "");
            EvTrack (trackAddIssue "u1" sourceCommand false);
            EvPublishWebSocketEvent "refresh" [""] "u1";
            LM (CallGetIssueList "u1" "");
            replyTo mockPlugin (aliceTypes "/todo add buy milk")
              ("Todo가 추가되었습니다." ++ listHeaderMessage ++ issuesListToString shown)])
        /\ shown = [ExtendedIssue_of mockIssue]).
Proof.
  split.
  - destruct (@added_issue_is_always_shown Mock _ _ _ mockPlugin ["buy"; "milk"]
                (aliceTypes "/todo add buy milk") mock0 mock0 mock0 mockIssue [])
      as (shown & Hrun & _ & _ & Hnew); try reflexivity; [discriminate|].
    exists shown. split; [exact Hrun | exact (Hnew eq_refl)].
  - destruct (@added_issue_is_always_shown Mock _ _ _ mockPlugin ["buy"; "milk"]
                (aliceTypes "/todo add buy milk") mockListed mockListed mockListed
                mockIssue [ExtendedIssue_of mockIssue])
      as (shown & Hrun & _ & Hold & _); try reflexivity; [discriminate|].
    exists shown. split; [exact Hrun | exact (Hold eq_refl)].
Defined.

(** X8 at work. *)
Lemma add_survives_a_failed_reading_witness :
  runAddCommand mockPlugin ["buy"; "milk"] (aliceTypes "/todo add buy milk") mockUnlisted =
    (Ok (false, None), mockUnlisted,
     [LM (CallAddIssue "u1" "buy milk" "" "");
      EvTrack (trackAddIssue "u1" sourceCommand false);
      EvPublishWebSocketEvent "refresh" [""] "u1";
      LM (CallGetIssueList "u1" "");
      EvLogError "store is down" [];
      replyTo mockPlugin (aliceTypes "/todo add buy milk") "Todo가 추가되었습니다."]).
Proof.
  refine (@add_survives_a_failed_reading Mock _ _ _ mockPlugin ["buy"; "milk"]
            (aliceTypes "/todo add buy milk") mockUnlisted mockUnlisted mockUnlisted
            mockIssue storeDown _ eq_refl eq_refl).
  discriminate.
Defined.


(** X10 at work: the send succeeds, and the store is down. *)
Lemma send_notifies_both_sides_witness :
  runSendCommand mockPlugin ["@bob"; "buy"; "milk"]
      (aliceTypes "/todo send @bob buy milk") mock0 =
    (Ok (false, None), mock0,
     [LM (CallSendIssue "u1" "u2" "buy milk" "" "");
      EvTrack (trackSendIssue "u1" sourceCommand false);
      EvPublishWebSocketEvent "refresh" ["_out"] "u1";
      EvPublishWebSocketEvent "refresh" ["_in"] "u2";
      LM (CallGetUserName "u1");
      EvPostBotCustomDM "u2" "@alice(으)로부터 새 Todo 요청을 받았습니다" "buy milk" "i2";
      replyTo mockPlugin (aliceTypes "/todo send @bob buy milk")
        "@bob에게 Todo를 보냈습니다."])
  /\ runSendCommand mockPlugin ["bob"; "buy"; "milk"]
       (aliceTypes "/todo send bob buy milk") mockFailing =
     (Ok (false, Some storeDown), mockFailing,
      [LM (CallSendIssue "u1" "u2" "buy milk" "" "")]).
Proof.
  split.
  - refine (@send_notifies_both_sides Mock _ _ _ mockPlugin ["@bob"; "buy"; "milk"]
              (aliceTypes "/todo send @bob buy milk") mock0 mock0 mock0 "@"%char "bob"
              "bob" "alice" bob (inl "i2") _ eq_refl eq_refl eq_refl _ eq_refl eq_refl
              eq_refl); [simpl; lia | discriminate].
  - refine (@send_notifies_both_sides Mock _ _ _ mockPlugin ["bob"; "buy"; "milk"]
              (aliceTypes "/todo send bob buy milk") mockFailing mockFailing mockFailing
              "b"%char "ob" "bob" "alice" bob (inr storeDown) _ eq_refl eq_refl eq_refl _
              eq_refl eq_refl eq_refl); [simpl; lia | discriminate].
Defined.

(** X11 at work: no message, and a user nobody knows. *)
Lemma send_without_receiver_asks_for_one_witness :
  runSendCommand mockPlugin ["@bob"] (aliceTypes "/todo send @bob") mock0 =
    (Ok (false, None), mock0,
     [replyTo mockPlugin (aliceTypes "/todo send @bob")
        ("반드시 유효한 사용자와 메시지를 지정해야합니다." ++ nl ++ getHelp)])
  /\ runSendCommand mockPlugin ["@carol"; "hello"] (aliceTypes "/todo send @carol hello")
       mock0 =
     (Ok (false, None), mock0,
      [replyTo mockPlugin (aliceTypes "/todo send @carol hello")
         ("유효한 사용자를 지정하세요." ++ nl ++ getHelp)]).
Proof.
  split.
  - apply (proj1 (@send_without_receiver_asks_for_one Mock _ _ _ mockPlugin ["@bob"]
                    (aliceTypes "/todo send @bob") mock0)).
    simpl; lia.
  - refine (proj2 (@send_without_receiver_asks_for_one Mock _ _ _ mockPlugin
                     ["@carol"; "hello"] (aliceTypes "/todo send @carol hello") mock0)
              "@"%char "carol" (mkError "*model.AppError" "user not found") _ eq_refl
              eq_refl).
    simpl; lia.
Defined.

(** X13 at work: an unknown setting, and a store that cannot be written. *)
Lemma settings_errors_leave_no_reply_witness :
  traceOf (runSettingsCommand mockPlugin ["bogus"] (aliceTypes "/todo settings bogus")
             mock0) = []
  /\ exists save msg cause,
       traceOf (runSettingsCommand mockPlugin ["summary"; "on"]
                  (aliceTypes "/todo settings summary on") stubReadOnly)
         = [save; EvLogDebug msg ["error"; cause]]
       /\ isPreferenceWrite save = true.
Proof.
  split.
  - pose proof (settings_errors_leave_no_reply (W:=Mock) mockPlugin ["bogus"]
                  (aliceTypes "/todo settings bogus") mock0 (w':=mock0) (flag:=true)
                  (err:=Some (errors_New "setting `bogus` 식별되지 않습니다")) (t:=[])
                  eq_refl) as [Ht _].
    reflexivity.
  - exact (settings_errors_leave_no_reply (W:=Stub) mockPlugin ["summary"; "on"]
             (aliceTypes "/todo settings summary on") stubReadOnly (w':=stubReadOnly)
             (flag:=false) (err:=Some (errors_New "리마인더 설정 저장 오류입니다"))
             (t:=[EvSaveReminderPreference "u1" true;
                  EvLogDebug "runSettingsCommand: 리마인더 설정 저장 오류입니다"
                    ["error"; "store is down"]])
             eq_refl).
Defined.

(** X14 at work: Alice reads her inbox, no reminder asked for; and she
    reads her list after she has hung up. *)
Lemma list_request_returns_the_list_witness :
  handleList (aliceLists "in") mockListed =
    (Ok tt, mockListed, [LM (CallGetIssueList "u1" "_in"); EvWrite (Bytes "i1")])
  /\ handleList (aliceLists "my") stubHungUp =
     (Ok tt, stubHungUp,
      [LM (CallGetIssueList "u1" "");
       EvWrite (Bytes "i1");
       EvLogError "Unable to write json response err=write: broken pipe" []]).
Proof.
  split.
  - pose proof (list_request_returns_the_list (W:=Mock) (aliceLists "in") mockListed
                  (w1:=mockListed) (issues:=[ExtendedIssue_of mockIssue])) as Hlist.
    rewrite Hlist; first [reflexivity | discriminate].
  - pose proof (list_request_returns_the_list (W:=Stub) (aliceLists "my") stubHungUp
                  (w1:=stubHungUp) (issues:=[ExtendedIssue_of mockIssue])) as Hlist.
    rewrite Hlist; first [reflexivity | discriminate].
Defined.

(** X15 at work: the reminder is due; the time of it cannot be saved;
    it is not due and Alice has hung up. *)
Lemma list_request_sends_the_reminder_witness :
  handleList aliceListsWithReminder stubDue =
    (Ok tt, stubDue,
     [LM (CallGetIssueList "u1" "");
      EvPostBotDM "u1" ("일일 리마인더:" ++ nl ++ nl ++ "buy milk");
      EvTrack (trackDailySummary "u1");
      EvSaveLastReminderTime "u1";
      EvWrite (Bytes "i1")])
  /\ handleList aliceListsWithReminder stubReadOnly =
     (Ok tt, stubReadOnly,
      [LM (CallGetIssueList "u1" "");
       EvPostBotDM "u1" ("일일 리마인더:" ++ nl ++ nl ++ "buy milk");
       EvTrack (trackDailySummary "u1");
       EvSaveLastReminderTime "u1";
       EvLogError "Unable to save last reminder for user err=store is down" [];
       EvWrite (Bytes "i1")])
  /\ handleList aliceListsWithReminder stubNotDue =
     (Ok tt, stubNotDue,
      [LM (CallGetIssueList "u1" "");
       EvWrite (Bytes "i1");
       EvLogError "Unable to write json response err=write: broken pipe" []]).
Proof.
  split; [|split].
  - pose proof (list_request_sends_the_reminder (W:=Stub) aliceListsWithReminder stubDue
                  (w1:=stubDue) (w2:=stubDue) (issues:=[ExtendedIssue_of mockIssue])
                  (saved:=None)) as Hlist.
    rewrite Hlist; first [reflexivity | discriminate].
  - pose proof (list_request_sends_the_reminder (W:=Stub) aliceListsWithReminder
                  stubReadOnly (w1:=stubReadOnly) (w2:=stubReadOnly)
                  (issues:=[ExtendedIssue_of mockIssue]) (saved:=Some storeDown))
      as Hlist.
    rewrite Hlist; first [reflexivity | discriminate].
  - pose proof (list_request_sends_the_reminder (W:=Stub) aliceListsWithReminder
                  stubNotDue (w1:=stubNotDue) (w2:=stubNotDue)
                  (issues:=[ExtendedIssue_of mockIssue]) (saved:=None))
      as Hlist.
    rewrite Hlist; first [reflexivity | discriminate].
Defined.

(** X16 at work: the one direct message of the list request above. *)
Lemma reminder_is_sent_only_when_due_witness :
  Query_Get aliceListsWithReminder "reminder" = "true"
  /\ getReminderPreference "u1" stubDue = true
  /\ reminderIsDue stubDue 0%Z "" = true.
Proof.
  destruct (reminder_is_sent_only_when_due (W:=Stub) aliceListsWithReminder stubDue
              (EvPostBotDM "u1" ("일일 리마인더:" ++ nl ++ nl ++ "buy milk")))
    as (Hquery & issues & w1 & last & Hlist & _ & Hpref & Hlast & Hdue & _).
  { simpl. left. reflexivity. }
  split; [exact Hquery|]. split; reflexivity.
Defined.

(** X17 at work: a task Bob had sent, and a task sent to Bob. *)
Lemma edit_tells_the_other_side_witness :
  notifications (traceOf (handleEdit (alicePosts "/edit" "i1 eggs") stubDue)) =
    [EvPublishWebSocketEvent "refresh" [""] "u1";
     EvPublishWebSocketEvent "refresh" ["_out"] "u2";
     EvPostBotDM "u2"
       ("@alice이(가) Todo를 수정했습니다." ++ nl ++ "수정 전:" ++ nl ++ "buy milk" ++ nl
          ++ "수정 후:" ++ nl ++ "eggs")]
  /\ notifications (traceOf (handleEdit (alicePosts "/edit" "i1 eggs") stubReadOnly)) =
     [EvPublishWebSocketEvent "refresh" ["_out"] "u1";
      EvPublishWebSocketEvent "refresh" [""; "_in"] "u2";
      EvPostBotDM "u2"
        ("@alice이(가) Todo를 수정했습니다." ++ nl ++ "수정 전:" ++ nl ++ "buy milk" ++ nl
           ++ "수정 후:" ++ nl ++ "eggs")].
Proof.
  split.
  - pose proof (edit_tells_the_other_side (W:=Stub) (alicePosts "/edit" "i1 eggs") stubDue
                  (w1:=stubDue) (w2:=stubDue) (req:=Build_editAPIRequest "i1" "eggs" "")
                  (foreignUserID:="u2") (list:="") (oldMessage:="buy milk")
                  (userName:="alice")) as Hedit.
    rewrite Hedit; first [reflexivity | discriminate].
  - pose proof (edit_tells_the_other_side (W:=Stub) (alicePosts "/edit" "i1 eggs")
                  stubReadOnly (w1:=stubReadOnly) (w2:=stubReadOnly)
                  (req:=Build_editAPIRequest "i1" "eggs" "")
                  (foreignUserID:="u2") (list:="_out") (oldMessage:="buy milk")
                  (userName:="alice")) as Hedit.
    rewrite Hedit; first [reflexivity | discriminate].
Defined.

(** X18 at work: no new owner, and one nobody knows. *)
Lemma reassignment_needs_a_known_user_witness :
  handleChangeAssignment (alicePosts "/change_assignment" "i1") mock0 =
    (Ok tt, mock0, [EvHttpError "No user specified" 400])
  /\ handleChangeAssignment (alicePosts "/change_assignment" "i1 carol") mock0 =
     (Ok tt, mock0,
      [EvLogError "username not valid, err=user not found" [];
       EvWriteHeader 404;
       EvWrite (ErrorJSON "Unable to find user" "user not found")])
  /\ handleAdd (alicePosts "/add" "milk carol") mock0 =
     (Ok tt, mock0,
      [LM (CallGetUserName "u1");
       EvLogError "username not valid, err=user not found" [];
       EvWriteHeader 500;
       EvWrite (ErrorJSON "Unable to find user" "user not found")]).
Proof.
  assert (Huser : "u1" <> "") by discriminate.
  split; [|split].
  - destruct (reassignment_needs_a_known_user (W:=Mock)
                (alicePosts "/change_assignment" "i1") mock0 Huser) as [Hchange _].
    destruct (Hchange (Build_changeAssignmentAPIRequest "i1" "") eq_refl) as [Hnone _].
    exact (Hnone eq_refl).
  - destruct (reassignment_needs_a_known_user (W:=Mock)
                (alicePosts "/change_assignment" "i1 carol") mock0 Huser) as [Hchange _].
    destruct (Hchange (Build_changeAssignmentAPIRequest "i1" "carol") eq_refl)
      as [_ Hunknown].
    refine (Hunknown (mkError "*model.AppError" "user not found") _ eq_refl).
    discriminate.
  - destruct (reassignment_needs_a_known_user (W:=Mock)
                (alicePosts "/add" "milk carol") mock0 Huser) as [_ Hadd].
    refine (Hadd (Build_addAPIRequest "milk" "" "carol" "") "alice" mock0
              (mkError "*model.AppError" "user not found") eq_refl _ eq_refl eq_refl).
    discriminate.
Defined.

(** X19 at work: Alice hands to Bob a task that a third user held. *)
Lemma reassignment_tells_both_owners_witness :
  notifications
    (traceOf (handleChangeAssignment (alicePosts "/change_assignment" "i1 bob") stubDue)) =
    [EvPublishWebSocketEvent "refresh" [""; "_out"] "u1";
     EvPublishWebSocketEvent "refresh" ["_in"] "u2";
     EvPostBotCustomDM "u2" "@alice(으)로부터 새 Todo를 받았습니다." "buy milk" "i1";
     EvPublishWebSocketEvent "refresh" ["_in"; ""] "u3";
     EvPostBotDM "u3"
       ("@alice(이)가 다음 Todo 담당자에서 나를 제외시켰습니다:" ++ nl ++ "buy milk")].
Proof.
  pose proof (reassignment_tells_both_owners (W:=Stub)
                (alicePosts "/change_assignment" "i1 bob") stubDue
                (w1:=stubDue) (w2:=stubDue)
                (req:=Build_changeAssignmentAPIRequest "i1" "bob") (receiver:=bob)
                (issueMessage:="buy milk") (oldOwner:="u3") (userName:="alice")) as Hrun.
  rewrite Hrun; first [reflexivity | discriminate].
Defined.

(** X20 at work. *)
Lemma accept_always_tells_the_sender_witness :
  handleAccept (alicePosts "/accept" "i1") mock0 =
    (Ok tt, mock0,
     [LM (CallAcceptIssue "u1" "i1");
      EvTrack (trackAcceptIssue "u1");
      EvPublishWebSocketEvent "refresh" [""; "_in"] "u1";
      EvPublishWebSocketEvent "refresh" ["_out"] "u2";
      LM (CallGetUserName "u1");
      EvPostBotDM "u2" "@alice이(가) 내가 보낸 Todo를 수락했습니다: buy milk"]).
Proof.
  refine (accept_always_tells_the_sender (W:=Mock) (alicePosts "/accept" "i1") mock0
            (w1:=mock0) (w2:=mock0) (req:=Build_idAPIRequest "i1")
            (todoMessage:="buy milk") (sender:="u2") (userName:="alice")
            _ eq_refl eq_refl eq_refl).
  discriminate.
Defined.


(** X22 at work. *)
Lemma bump_tells_the_receiver_witness :
  handleBump (alicePosts "/bump" "i1") mock0 =
    (Ok tt, mock0,
     [LM (CallBumpIssue "u1" "i1");
      EvTrack (trackBumpIssue "u1");
      EvPublishWebSocketEvent "refresh" ["_in"] "u2";
      LM (CallGetUserName "u1");
      EvPostBotCustomDM "u2" "@alice이(가) 내가 받은 Todo를 강조했습니다." "buy milk" "i2"]).
Proof.
  refine (bump_tells_the_receiver (W:=Mock) (alicePosts "/bump" "i1") mock0
            (w1:=mock0) (w2:=mock0) (req:=Build_idAPIRequest "i1")
            (todoMessage:="buy milk") (foreignUser:="u2") (foreignIssueID:="i2")
            (userName:="alice") _ eq_refl eq_refl eq_refl).
  discriminate.
Defined.

(** X23 at work: the empty body does not decode. *)
Lemma undecodable_body_is_a_bad_request_witness :
  handleAdd (alicePosts "/add" "") mock0 =
    (Ok tt, mock0,
     [EvLogError "Unable to decode JSON err=EOF" [];
      EvWriteHeader 400;
      EvWrite (ErrorJSON "Unable to decode JSON" "EOF")])
  /\ handleRemove (alicePosts "/remove" "") mock0 =
     (Ok tt, mock0,
      [EvLogError "Unable to decode JSON err=EOF" [];
       EvWriteHeader 400;
       EvWrite (ErrorJSON "Unable to decode JSON" "EOF")]).
Proof.
  assert (Huser : "u1" <> "") by discriminate.
  split.
  - destruct (undecodable_body_is_a_bad_request (W:=Mock) (alicePosts "/add" "") mock0
                (mkError "*errors.errorString" "EOF") Huser) as (Hadd & _).
    exact (Hadd eq_refl).
  - destruct (undecodable_body_is_a_bad_request (W:=Mock) (alicePosts "/remove" "") mock0
                (mkError "*errors.errorString" "EOF") Huser) as (_ & _ & _ & _ & Hid).
    specialize (Hid eq_refl). rewrite Forall_forall in Hid.
    apply (Hid handleRemove). simpl. auto.
Defined.

(** X24 at work: the body [null]. *)
Lemma null_body_panics_before_any_change_witness :
  handleAdd (alicePosts "/add" "null") mockSent =
    (Panic nilDereference, mockSent, [LM (CallGetUserName "u1")])
  /\ handleComplete (alicePosts "/complete" "null") mockSent =
     (Panic nilDereference, mockSent, []).
Proof.
  assert (Huser : "u1" <> "") by discriminate.
  assert (Hname : GetUserName "u1" mockSent = ("alice", mockSent)) by reflexivity.
  destruct (null_body_panics_before_any_change (W:=Mock) (alicePosts "/add" "null")
              mockSent (w1:=mockSent) (senderName:="alice") Huser Hname)
    as (Hadd & _).
  destruct (null_body_panics_before_any_change (W:=Mock) (alicePosts "/complete" "null")
              mockSent (w1:=mockSent) (senderName:="alice") Huser Hname)
    as (_ & _ & _ & _ & Hid).
  split; [exact (Hadd eq_refl)|].
  specialize (Hid eq_refl). rewrite Forall_forall in Hid.
  apply (Hid handleComplete). simpl. auto.
Defined.



(** X27 at work: the store is down when Alice removes a task. *)
Lemma error_answers_notify_nobody_witness :
  notifications (traceOf (ServeHTTP mockPlugin (alicePosts "/remove" "i1") mockFailing))
    = [].
Proof.
  apply (error_answers_notify_nobody (W:=Mock) mockPlugin (alicePosts "/remove" "i1")
           mockFailing); [discriminate | reflexivity].
Defined.
